(** * B2B.v2 Go backend: credential store, device gate, session authority
      and ledger engine, as a shallow embedding.

    The embedding follows [go-backend/main.go] and the legacy copies under
    [go-backend/backup] (database.go, mining.go, and the handlers file that
    holds [handleDeviceCheck] / [handleDeviceLink]).

    Conventions
    - A Go [string] and a [[]byte] are sequences of 8-bit values: [string]
      (a list of [ascii]) and [list byte].
    - The PostgreSQL tables [users] and [device_fingerprints] are lists of
      rows; a [SELECT ... WHERE k = $1] scanned with [QueryRow] is [find],
      an [UPDATE ... WHERE k = $1] is a [map] over the rows.
    - A handler is a function from the store and the request to a response
      and the next store.  Requests are served one after the other; a
      handler takes the user that [authMiddleware] read as an argument of
      its own, so a write computed from an earlier read can be stated.
    - A Go result [(v, err)] is a [Result]; the store itself does not fail,
      so its queries return [Ok] and the branches that the source has for
      a store error are kept in the handlers but never taken.  A run-time
      panic (a slice or an index out of range) is [None].
    - Libraries outside the repository are either modelled from their
      documentation (shopspring/decimal, the float64 decoding of
      encoding/json, [strings.Split] and [strings.LastIndex]) or taken as
      parameters, with their contract where one is needed
      (encoding/base64, x/crypto/scrypt, [strings.TrimSpace]). *)

From Stdlib Require Import ZArith QArith Qpower List String Ascii Bool Lia Arith.
From Stdlib Require Import Strings.Byte DecimalString DecimalZ.
Import ListNotations.

Local Open Scope Z_scope.

(* ================================================================== *)
(** * Part I: definitions                                              *)
(* ================================================================== *)

(** ** github.com/shopspring/decimal

    [Decimal{value *big.Int, exp int32}] denotes [value * 10^exp].  Only the
    operations the backend calls are modelled: [Add], [Sub], [Cmp],
    [LessThan], [LessThanOrEqual], [Zero]. *)
Module decimal.

Record Decimal : Set := New { value : Z; exp : Z }.

(** [var Zero = New(0, 1)] *)
Definition Zero : Decimal := New 0 1.

(** [d.rescale(exp)]: same number at another exponent; multiplies the
    coefficient when the exponent decreases, truncates when it grows. *)
Definition rescale (d : Decimal) (e : Z) : Decimal :=
  if exp d =? e then d
  else
    let diff := Z.abs (e - exp d) in
    let expScale := 10 ^ diff in
    if exp d <? e then New (Z.quot (value d) expScale) e
    else New (value d * expScale) e.

(** [RescalePair(d1, d2)]: both operands at the smaller exponent. *)
Definition RescalePair (d1 d2 : Decimal) : Decimal * Decimal :=
  if exp d1 <? exp d2 then (d1, rescale d2 (exp d1))
  else if exp d2 <? exp d1 then (rescale d1 (exp d2), d2)
  else (d1, d2).

Definition Add (d d2 : Decimal) : Decimal :=
  let '(rd, rd2) := RescalePair d d2 in
  New (value rd + value rd2) (exp rd).

Definition Sub (d d2 : Decimal) : Decimal :=
  let '(rd, rd2) := RescalePair d d2 in
  New (value rd - value rd2) (exp rd).

(** [d.Cmp(d2)]: -1, 0 or +1. *)
Definition Cmp (d d2 : Decimal) : comparison :=
  let '(rd, rd2) := RescalePair d d2 in
  value rd ?= value rd2.

Definition LessThan (d d2 : Decimal) : bool :=
  match Cmp d d2 with Lt => true | _ => false end.

Definition LessThanOrEqual (d d2 : Decimal) : bool :=
  match Cmp d d2 with Lt | Eq => true | Gt => false end.

(** The rational number a decimal denotes. *)
Definition toQ (d : Decimal) : Q :=
  (inject_Z (value d) * inject_Z 10 ^ exp d)%Q.

End decimal.

Abbreviation Decimal := decimal.Decimal.

(** ** float64 and the decoding of a JSON number into it

    [encoding/json] fills a [float64] field with [strconv.ParseFloat]: the
    binary64 number nearest to the decimal in the body, ties to even, and
    an error when the result is out of range.  A value that comes out of
    the decoder is therefore finite: [(-1)^neg * mant * 2^bexp] with
    [mant < 2^53] and [-1074 <= bexp <= 971]. *)
Module float64.

Record t : Set := mk { neg : bool; mant : Z; bexp : Z }.

Definition eqb (x y : t) : bool :=
  Bool.eqb (neg x) (neg y) && (mant x =? mant y) && (bexp x =? bexp y).

(** The real number a finite float denotes. *)
Definition toQ (x : t) : Q :=
  ((if neg x then -1 else 1) * inject_Z (mant x) * 2 ^ bexp x)%Q.

(** [x < y] on finite floats is the order of the numbers they denote. *)
Definition ltb (x y : t) : bool := negb (Qle_bool (toQ y) (toQ x)).

(** The constant [1]. *)
Definition one : t := mk false (2 ^ 52) (-52).

(** [n / (d * 2^e)] as a fraction of integers. *)
Definition scale2 (n d e : Z) : Z * Z :=
  if 0 <=? e then (n, d * 2 ^ e) else (n * 2 ^ (- e), d).

(** Integer nearest to [n/d], ties to even. *)
Definition round_half_even (n d : Z) : Z :=
  let q := n / d in
  match 2 * (n mod d) ?= d with
  | Lt => q
  | Gt => q + 1
  | Eq => if Z.even q then q else q + 1
  end.

(** Binary exponent of the result for [n/d > 0]: the one that leaves a
    53-bit mantissa, and no less than the subnormal exponent -1074. *)
Definition pick_exp (n d : Z) : Z :=
  let e0 := Z.log2 n - Z.log2 d - 53 in
  let '(n1, d1) := scale2 n d (e0 + 1) in
  let e1 := if 2 ^ 52 <=? n1 / d1 then e0 + 1 else e0 in
  Z.max e1 (-1074).

(** Nearest binary64 to [n/d] for [n >= 0], [d > 0]; [None] on overflow. *)
Definition round_pos (sign : bool) (n d : Z) : option t :=
  if n =? 0 then Some (mk sign 0 0)
  else
    let e := pick_exp n d in
    let '(n1, d1) := scale2 n d e in
    let m := round_half_even n1 d1 in
    let '(m', e') := if m =? 2 ^ 53 then (2 ^ 52, e + 1) else (m, e) in
    if 971 <? e' then None else Some (mk sign m' e').

(** The decimal [c * 10^k] as a fraction [(|c| * 10^k, 1)] or
    [(|c|, 10^-k)]. *)
Definition fraction10 (c k : Z) : Z * Z :=
  if 0 <=? k then (Z.abs c * 10 ^ k, 1) else (Z.abs c, 10 ^ (- k)).

(** Decoding the number [lit] of a request body into a [float64] field. *)
Definition decode (lit : Decimal) : option t :=
  let '(n, d) := fraction10 (decimal.value lit) (decimal.exp lit) in
  round_pos (decimal.value lit <? 0) n d.

(** *** decimal.NewFromFloat

    "The converted number will contain the number of significant digits
    that can be represented in a float with reliable roundtrip": the
    shortest decimal that decodes to the float, the nearest to it when
    several have that length. *)

(** A finite float as a fraction. *)
Definition fraction2 (x : t) : Z * Z :=
  if 0 <=? bexp x then (mant x * 2 ^ bexp x, 1) else (mant x, 2 ^ (- bexp x)).

(** [10^p <= n/d]. *)
Definition pow10_le (p n d : Z) : bool :=
  if 0 <=? p then d * 10 ^ p <=? n else d <=? n * 10 ^ (- p).

(** Decimal exponent of the leading digit of [n/d > 0]: the largest [p]
    with [10^p <= n/d], looked for around the estimate
    [log2 (n/d) * log10 2]. *)
Definition log10_floor (n d : Z) : option Z :=
  let g := (Z.log2 n - Z.log2 d) * 30103 / 100000 in
  List.find (fun p => pow10_le p n d) [g + 2; g + 1; g; g - 1; g - 2].

(** [n / (d * 10^s)] as a fraction of integers. *)
Definition scale10 (n d s : Z) : Z * Z :=
  if 0 <=? s then (n, d * 10 ^ s) else (n * 10 ^ (- s), d).

(** The candidate with [digits] significant digits, if one decodes to
    [x]: the truncation of [n/d] or its successor at that length. *)
Definition shortest_at (x : t) (n d p : Z) (digits : nat) : option Decimal :=
  let s := p - (Z.of_nat digits - 1) in
  let '(n1, d1) := scale10 n d s in
  let lo := n1 / d1 in
  let ok c := match decode (decimal.New c s) with
              | Some y => eqb y (mk false (mant x) (bexp x))
              | None => false
              end in
  match ok lo, ok (lo + 1) with
  | true, true => Some (decimal.New (round_half_even n1 d1) s)
  | true, false => Some (decimal.New lo s)
  | false, true => Some (decimal.New (lo + 1) s)
  | false, false => None
  end.

Fixpoint shortest_from (x : t) (n d p : Z) (digits : nat) (fuel : nat) : option Decimal :=
  match fuel with
  | O => None
  | S fuel' =>
      match shortest_at x n d p digits with
      | Some c => Some c
      | None => shortest_from x n d p (S digits) fuel'
      end
  end.

(** The exact expansion [mant * 2^bexp = mant * 5^-bexp * 10^bexp]. *)
Definition exact (x : t) : Decimal :=
  if 0 <=? bexp x then decimal.New (mant x * 2 ^ bexp x) 0
  else decimal.New (mant x * 5 ^ (- bexp x)) (bexp x).

Definition NewFromFloat (x : t) : Decimal :=
  if mant x <=? 0 then decimal.New 0 0
  else
    let '(n, d) := fraction2 x in
    let shortest :=
      match log10_floor n d with
      | Some p => shortest_from x n d p 1 17
      | None => None
      end in
    let c := match shortest with Some c => c | None => exact x end in
    if neg x then decimal.New (- decimal.value c) (decimal.exp c) else c.

End float64.

(** ** Decimal.String: the exact decimal text of a number

    [d.String()] is [d.string(true)]: integer digits, then the fractional
    digits without trailing zeros, with a leading ["-"] when negative. *)
Module decimal_text.

Definition digits (n : Z) : string :=
  NilZero.string_of_uint (N.to_uint (Z.to_N n)).

Fixpoint repeat0 (n : nat) : string :=
  match n with O => EmptyString | S n' => String "0" (repeat0 n') end.

(** Drop the zeros at the end of the fractional digits. *)
Fixpoint trim0 (s : string) : string :=
  match s with
  | EmptyString => EmptyString
  | String c rest =>
      match trim0 rest with
      | EmptyString => if Ascii.eqb c "0" then EmptyString else String c EmptyString
      | rest' => String c rest'
      end
  end.

Definition String (d : Decimal) : string :=
  if 0 <=? decimal.exp d then NilZero.string_of_int (Z.to_int (decimal.value (decimal.rescale d 0)))
  else
    let str := digits (Z.abs (decimal.value d)) in
    let dExpInt := Z.to_nat (- decimal.exp d) in
    let len := String.length str in
    let '(intPart, fractionalPart) :=
      if (dExpInt <? len)%nat
      then (substring 0 (len - dExpInt) str, substring (len - dExpInt) dExpInt str)
      else ("0"%string, (repeat0 (dExpInt - len) ++ str)%string) in
    let fractionalPart := trim0 fractionalPart in
    let number :=
      if (0 <? String.length fractionalPart)%nat
      then (intPart ++ "." ++ fractionalPart)%string else intPart in
    if decimal.value d <? 0 then ("-" ++ number)%string else number.

End decimal_text.

(** ** Go values: errors, bytes, HTTP *)

(** A Go result [(v, err)]: [Err msg] stands for [err != nil]. *)
Inductive Result (A : Type) : Type :=
| Ok (a : A)
| Err (msg : string).
Arguments Ok {A} a.
Arguments Err {A} msg.

(** [a ^ b] and [a | b] on the type [byte], bit by bit. *)
Definition bxor (a b : byte) : byte :=
  let '(a0, (a1, (a2, (a3, (a4, (a5, (a6, a7))))))) := Byte.to_bits a in
  let '(b0, (b1, (b2, (b3, (b4, (b5, (b6, b7))))))) := Byte.to_bits b in
  Byte.of_bits (xorb a0 b0, (xorb a1 b1, (xorb a2 b2, (xorb a3 b3,
               (xorb a4 b4, (xorb a5 b5, (xorb a6 b6, xorb a7 b7))))))).

Definition bor (a b : byte) : byte :=
  let '(a0, (a1, (a2, (a3, (a4, (a5, (a6, a7))))))) := Byte.to_bits a in
  let '(b0, (b1, (b2, (b3, (b4, (b5, (b6, b7))))))) := Byte.to_bits b in
  Byte.of_bits (orb a0 b0, (orb a1 b1, (orb a2 b2, (orb a3 b3,
               (orb a4 b4, (orb a5 b5, (orb a6 b6, orb a7 b7))))))).

(** [s[lo:hi]] panics unless [lo <= hi <= len(s)]; [None] is the panic. *)
Definition slice (s : string) (lo hi : nat) : option string :=
  if ((lo <=? hi) && (hi <=? String.length s))%nat
  then Some (substring lo (hi - lo) s) else None.

(** [net/http] status codes used by the handlers. *)
Definition StatusOK : Z := 200.
Definition StatusCreated : Z := 201.
Definition StatusBadRequest : Z := 400.
Definition StatusUnauthorized : Z := 401.
Definition StatusForbidden : Z := 403.
Definition StatusConflict : Z := 409.
Definition StatusInternalServerError : Z := 500.

(** ** Tables and messages *)

(** [type User struct]: a row of [users]. [CreatedAt] is a Unix time. *)
Module User.
Record t : Set := mk {
  ID : string;
  Username : string;
  AccessKey : string;
  ReferralCode : option string;
  ReferredBy : option string;
  RegistrationIP : option string;
  USDTBalance : Decimal;
  BTCBalance : Decimal;
  HashPower : Decimal;
  BaseHashPower : Decimal;
  ReferralHashBonus : Decimal;
  GBTCBalance : Decimal;
  UnclaimedBalance : Decimal;
  TotalReferralEarnings : Decimal;
  LastActiveBlock : option Z;
  IsAdmin : bool;
  IsFrozen : bool;
  IsBanned : bool;
  HasStartedMining : bool;
  KYCVerified : bool;
  KYCVerificationHash : option string;
  CreatedAt : Z
}.

(** [SET usdt_balance = $1, hash_power = $2] *)
Definition set_usdt_hash (u : t) (usdt hash : Decimal) : t :=
  mk (ID u) (Username u) (AccessKey u) (ReferralCode u) (ReferredBy u)
     (RegistrationIP u) usdt (BTCBalance u) hash (BaseHashPower u)
     (ReferralHashBonus u) (GBTCBalance u) (UnclaimedBalance u)
     (TotalReferralEarnings u) (LastActiveBlock u) (IsAdmin u) (IsFrozen u)
     (IsBanned u) (HasStartedMining u) (KYCVerified u)
     (KYCVerificationHash u) (CreatedAt u).

(** [SET has_started_mining = true] *)
Definition set_has_started_mining (u : t) (b : bool) : t :=
  mk (ID u) (Username u) (AccessKey u) (ReferralCode u) (ReferredBy u)
     (RegistrationIP u) (USDTBalance u) (BTCBalance u) (HashPower u)
     (BaseHashPower u) (ReferralHashBonus u) (GBTCBalance u)
     (UnclaimedBalance u) (TotalReferralEarnings u) (LastActiveBlock u)
     (IsAdmin u) (IsFrozen u) (IsBanned u) b (KYCVerified u)
     (KYCVerificationHash u) (CreatedAt u).

(** [SET gbtc_balance = $1, unclaimed_balance = '0'] *)
Definition set_gbtc_unclaimed (u : t) (gbtc unclaimed : Decimal) : t :=
  mk (ID u) (Username u) (AccessKey u) (ReferralCode u) (ReferredBy u)
     (RegistrationIP u) (USDTBalance u) (BTCBalance u) (HashPower u)
     (BaseHashPower u) (ReferralHashBonus u) gbtc unclaimed
     (TotalReferralEarnings u) (LastActiveBlock u) (IsAdmin u) (IsFrozen u)
     (IsBanned u) (HasStartedMining u) (KYCVerified u)
     (KYCVerificationHash u) (CreatedAt u).

(** [SET is_banned = $1]: the moderation action behind [IsBanned]. *)
Definition set_is_banned (u : t) (b : bool) : t :=
  mk (ID u) (Username u) (AccessKey u) (ReferralCode u) (ReferredBy u)
     (RegistrationIP u) (USDTBalance u) (BTCBalance u) (HashPower u)
     (BaseHashPower u) (ReferralHashBonus u) (GBTCBalance u)
     (UnclaimedBalance u) (TotalReferralEarnings u) (LastActiveBlock u)
     (IsAdmin u) (IsFrozen u) b (HasStartedMining u) (KYCVerified u)
     (KYCVerificationHash u) (CreatedAt u).
End User.

(** [type DeviceFingerprint struct]: a row of [device_fingerprints]. *)
Module DeviceFingerprint.
Record t : Set := mk {
  ID : string;
  ServerDeviceID : string;
  LastIP : option string;
  Registrations : Z;
  MaxRegistrations : Z;
  Blocked : bool;
  RiskScore : Z;
  UserAgent : string;
  ScreenResolution : string;
  Timezone : string;
  Language : string;
  CanvasFingerprint : string;
  WebGLFingerprint : string;
  AudioFingerprint : string;
  CreatedAt : Z;
  UpdatedAt : Z
}.
End DeviceFingerprint.

Module LoginRequest.
Record t : Set := mk { Username : string; AccessKey : string }.
End LoginRequest.

Module RegisterRequest.
Record t : Set := mk {
  Username : string;
  AccessKey : string;
  ReferralCode : option string
}.
End RegisterRequest.

Module DeviceCheckRequest.
Record t : Set := mk {
  ServerDeviceID : string;
  UserAgent : string;
  ScreenResolution : string;
  Timezone : string;
  Language : string;
  CanvasFingerprint : string;
  WebGLFingerprint : string;
  AudioFingerprint : string
}.
End DeviceCheckRequest.

Module DeviceCheckResponse.
Record t : Set := mk {
  DeviceID : string;
  CanRegister : bool;
  Registrations : Z;
  Blocked : bool;
  RiskScore : Z
}.
End DeviceCheckResponse.

(** The body of [POST /purchase-power], [{"amount": <number>}], as the
    decoder sees it: not JSON, no [amount] member, or an [amount] number
    written as the decimal [lit]. *)
Inductive PurchaseBody : Set :=
| BadJSON
| NoAmount
| Amount (lit : Decimal).

(** A JSON value of a response map. *)
Inductive JSONValue : Set :=
| JString (s : string)
| JBool (b : bool)
| JInt (n : Z)
| JNull.

Definition JStringPtr (p : option string) : JSONValue :=
  match p with Some s => JString s | None => JNull end.

Definition JIntPtr (p : option Z) : JSONValue :=
  match p with Some n => JInt n | None => JNull end.

(** What a handler writes: [writeErrorResponse] sends [ErrorResponse],
    [writeJSONResponse] one of the other payloads. *)
Inductive Payload : Set :=
| ErrorResponse (Message : string)
| MessageMap (message : string)
| UserMap (fields : list (string * JSONValue))
| DeviceCheck (r : DeviceCheckResponse.t)
| SuccessMap (success : bool).

Record Response : Set := mkResponse { StatusCode : Z; Body : Payload }.

Definition writeErrorResponse (statusCode : Z) (message : string) : Response :=
  mkResponse statusCode (ErrorResponse message).

Definition writeJSONResponse (statusCode : Z) (data : Payload) : Response :=
  mkResponse statusCode data.

(** The store behind [db *pgxpool.Pool]. *)
Record DB : Set := mkDB {
  users : list User.t;
  device_fingerprints : list DeviceFingerprint.t
}.

(** [session.Values["user_id"].(string)] of the cookie that the request
    presents: [None] when there is no cookie or it carries no string under
    that key, as the cookie that a logout sets. *)
Definition Session : Set := option string.

(** The user that [authMiddleware] puts in the request context under the
    key ["user"]; [None] when the key is absent. *)
Definition Context : Set := option User.t.

(** ** Queries (database.go) *)

(** [SELECT ... FROM users WHERE id = $1], scanned with [QueryRow]:
    [Ok None] is [pgx.ErrNoRows]. *)
Definition getUserByID (db : DB) (userID : string) : Result (option User.t) :=
  Ok (find (fun u => String.eqb (User.ID u) userID) (users db)).

(** [SELECT ... FROM users WHERE username = $1]. *)
Definition getUserByUsername (db : DB) (username : string) : Result (option User.t) :=
  Ok (find (fun u => String.eqb (User.Username u) username) (users db)).

(** [db.Exec("UPDATE users SET ... WHERE id = $n", ...)]: every row with
    that id is rewritten by [set]. *)
Definition exec_update_user (db : DB) (id : string) (set : User.t -> User.t) : Result DB :=
  Ok (mkDB (map (fun u => if String.eqb (User.ID u) id then set u else u) (users db))
           (device_fingerprints db)).

(** ** DeviceGate (database.go) *)

Definition calculateRiskScore (fingerprints : DeviceCheckRequest.t) : Z :=
  let score := 0 in
  let score := if String.eqb (DeviceCheckRequest.UserAgent fingerprints) ""
               then score + 10 else score in
  let score := if String.eqb (DeviceCheckRequest.ScreenResolution fingerprints) ""
               then score + 5 else score in
  let score := if String.eqb (DeviceCheckRequest.CanvasFingerprint fingerprints) ""
               then score + 15 else score in
  let score := if String.eqb (DeviceCheckRequest.WebGLFingerprint fingerprints) ""
               then score + 10 else score in
  score.

(** The row that the [INSERT INTO device_fingerprints] of [upsertDevice]
    adds; [id] is the key the store returns, [now] the time of the insert. *)
Definition inserted_device (id : string) (now : Z) (serverDeviceID clientIP : string)
    (registrations maxRegistrations : Z) (blocked : bool) (riskScore : Z)
    (fingerprints : DeviceCheckRequest.t) : DeviceFingerprint.t :=
  DeviceFingerprint.mk id serverDeviceID (Some clientIP)
    registrations maxRegistrations blocked riskScore
    (DeviceCheckRequest.UserAgent fingerprints)
    (DeviceCheckRequest.ScreenResolution fingerprints)
    (DeviceCheckRequest.Timezone fingerprints)
    (DeviceCheckRequest.Language fingerprints)
    (DeviceCheckRequest.CanvasFingerprint fingerprints)
    (DeviceCheckRequest.WebGLFingerprint fingerprints)
    (DeviceCheckRequest.AudioFingerprint fingerprints)
    now now.

(** The [UPDATE device_fingerprints SET last_ip = $1, risk_score = $2,
    user_agent = $3, ..., updated_at = NOW()] of [upsertDevice], on a row. *)
Definition updated_device (d : DeviceFingerprint.t) (now : Z) (clientIP : string)
    (riskScore : Z) (fingerprints : DeviceCheckRequest.t) : DeviceFingerprint.t :=
  DeviceFingerprint.mk (DeviceFingerprint.ID d) (DeviceFingerprint.ServerDeviceID d)
    (Some clientIP)
    (DeviceFingerprint.Registrations d) (DeviceFingerprint.MaxRegistrations d)
    (DeviceFingerprint.Blocked d) riskScore
    (DeviceCheckRequest.UserAgent fingerprints)
    (DeviceCheckRequest.ScreenResolution fingerprints)
    (DeviceCheckRequest.Timezone fingerprints)
    (DeviceCheckRequest.Language fingerprints)
    (DeviceCheckRequest.CanvasFingerprint fingerprints)
    (DeviceCheckRequest.WebGLFingerprint fingerprints)
    (DeviceCheckRequest.AudioFingerprint fingerprints)
    (DeviceFingerprint.CreatedAt d) now.

(** [upsertDevice]: [newID] is the id the store gives to an inserted row
    ([RETURNING id]), [now] the store's clock. *)
Definition upsertDevice (db : DB) (newID : string) (now : Z)
    (serverDeviceID clientIP : string) (fingerprints : DeviceCheckRequest.t)
    : Result DeviceCheckResponse.t * DB :=
  let found :=
    find (fun d => String.eqb (DeviceFingerprint.ServerDeviceID d) serverDeviceID)
         (device_fingerprints db) in
  let '(id, registrations, maxRegistrations, blocked, riskScore, db') :=
    match found with
    | None =>
        (* Create new device *)
        let registrations := 0 in
        let maxRegistrations := 2 in
        let blocked := false in
        let riskScore := calculateRiskScore fingerprints in
        (newID, registrations, maxRegistrations, blocked, riskScore,
         mkDB (users db)
              (device_fingerprints db ++
               [inserted_device newID now serverDeviceID clientIP registrations
                                maxRegistrations blocked riskScore fingerprints]))
    | Some device =>
        (* Update existing device *)
        let riskScore := calculateRiskScore fingerprints in
        (DeviceFingerprint.ID device, DeviceFingerprint.Registrations device,
         DeviceFingerprint.MaxRegistrations device, DeviceFingerprint.Blocked device,
         riskScore,
         mkDB (users db)
              (map (fun d =>
                      if String.eqb (DeviceFingerprint.ServerDeviceID d) serverDeviceID
                      then updated_device d now clientIP riskScore fingerprints
                      else d)
                   (device_fingerprints db)))
    end in
  let canRegister := negb blocked && (registrations <? maxRegistrations) in
  (Ok (DeviceCheckResponse.mk id canRegister registrations blocked riskScore), db').

(** [UPDATE device_fingerprints SET registrations = registrations + 1,
    updated_at = NOW() WHERE id = $1]. *)
Definition linked_device (d : DeviceFingerprint.t) (now : Z) : DeviceFingerprint.t :=
  DeviceFingerprint.mk (DeviceFingerprint.ID d) (DeviceFingerprint.ServerDeviceID d)
    (DeviceFingerprint.LastIP d)
    (DeviceFingerprint.Registrations d + 1) (DeviceFingerprint.MaxRegistrations d)
    (DeviceFingerprint.Blocked d) (DeviceFingerprint.RiskScore d)
    (DeviceFingerprint.UserAgent d) (DeviceFingerprint.ScreenResolution d)
    (DeviceFingerprint.Timezone d) (DeviceFingerprint.Language d)
    (DeviceFingerprint.CanvasFingerprint d) (DeviceFingerprint.WebGLFingerprint d)
    (DeviceFingerprint.AudioFingerprint d)
    (DeviceFingerprint.CreatedAt d) now.

Definition linkUserToDevice (db : DB) (now : Z) (userID deviceID : string) : Result unit * DB :=
  (Ok tt,
   mkDB (users db)
        (map (fun d => if String.eqb (DeviceFingerprint.ID d) deviceID
                       then linked_device d now else d)
             (device_fingerprints db))).

(** ** Helpers (database.go, main.go) *)

(** [generateReferralCode]: the first six bytes of the username followed by
    [time.Now().Unix() % 1000]; [now] is that Unix time. *)
Definition generateReferralCode (username : string) (now : Z) : string :=
  let code := username in
  let code := if (6 <? String.length code)%nat then substring 0 6 code else code in
  (code ++ NilZero.string_of_int (Z.to_int (Z.rem now 1000)))%string.

(** [splitHashedKey]: the loop ranges over the runes of [hashedKey] with
    their byte offsets [i]; [':'] is a one-byte rune and no other rune has
    the byte [0x3A] in its encoding, so the test [r == ':'] succeeds at the
    offsets of that byte and nowhere else.  The state of the loop is
    [(parts, start)]. *)
Fixpoint splitHashedKey_loop (hashedKey rest : string) (i : nat)
    (parts : list string) (start : nat) : option (list string * nat) :=
  match rest with
  | EmptyString => Some (parts, start)
  | String r rest' =>
      if Ascii.eqb r ":" then
        match slice hashedKey start i with
        | Some part => splitHashedKey_loop hashedKey rest' (S i) (parts ++ [part]) (S i)
        | None => None
        end
      else splitHashedKey_loop hashedKey rest' (S i) parts start
  end.

Definition splitHashedKey (hashedKey : string) : option (list string) :=
  match splitHashedKey_loop hashedKey hashedKey 0 [] 0 with
  | None => None
  | Some (parts, start) =>
      if (start <? String.length hashedKey)%nat then
        match slice hashedKey start (String.length hashedKey) with
        | Some part => Some (parts ++ [part])
        | None => None
        end
      else Some parts
  end.

(** [compareHashes]: [for i := 0; i < len(a); i++ { result |= a[i] ^ b[i] }];
    [n] counts the iterations left, an index out of range is [None]. *)
Fixpoint compareHashes_loop (a b : list byte) (i n : nat) (result : byte) : option byte :=
  match n with
  | O => Some result
  | S n' =>
      match nth_error a i, nth_error b i with
      | Some ai, Some bi => compareHashes_loop a b (S i) n' (bor result (bxor ai bi))
      | _, _ => None
      end
  end.

Definition compareHashes (a b : list byte) : option bool :=
  if negb (List.length a =? List.length b)%nat then Some false
  else
    match compareHashes_loop a b 0 (List.length a) x00 with
    | Some result => Some (Byte.eqb result x00)
    | None => None
    end.

(** The same loop, which also records the indices [i] at which it reads
    [a[i]] and [b[i]], in the order of the reads. *)
Fixpoint compareHashes_reads (a b : list byte) (i n : nat) (result : byte)
    (reads : list nat) : option (byte * list nat) :=
  match n with
  | O => Some (result, reads)
  | S n' =>
      match nth_error a i, nth_error b i with
      | Some ai, Some bi =>
          compareHashes_reads a b (S i) n' (bor result (bxor ai bi)) (reads ++ [i])
      | _, _ => None
      end
  end.

(** ** SessionAuthority: the middlewares (main.go) *)

(** [authMiddleware(next)]: [session] is the session of the request,
    [next] the wrapped handler, which receives the request context. *)
Definition authMiddleware (next : Context -> DB -> Response * DB)
    (session : Session) (db : DB) : Response * DB :=
  match session with
  | None => (writeErrorResponse StatusUnauthorized "Authentication required", db)
  | Some userID =>
      if String.eqb userID "" then
        (writeErrorResponse StatusUnauthorized "Authentication required", db)
      else
        (* Get user from database *)
        match getUserByID db userID with
        | Err _ | Ok None =>
            (writeErrorResponse StatusUnauthorized "Invalid session", db)
        | Ok (Some user) =>
            (* Check if user is banned or frozen *)
            if User.IsBanned user then
              (writeErrorResponse StatusForbidden "Account is banned", db)
            else if User.IsFrozen user then
              (writeErrorResponse StatusForbidden "Account is frozen", db)
            else
              (* Add user to request context *)
              next (Some user) db
        end
  end.

Definition adminMiddleware (next : Context -> DB -> Response * DB)
    (ctx : Context) (db : DB) : Response * DB :=
  match ctx with
  | None => (writeErrorResponse StatusForbidden "Admin access required", db)
  | Some user =>
      if negb (User.IsAdmin user) then
        (writeErrorResponse StatusForbidden "Admin access required", db)
      else next ctx db
  end.

(** The cookie that [session.Save] writes into a response: what it carries
    under ["user_id"] and its [MaxAge].  [store] is a [CookieStore]: the
    server keeps no record of the sessions it has issued, so the session
    of a request is whatever the cookie it presents carries, and a cookie
    sent earlier is not revoked by a later one. *)
Module Cookie.
Record t : Set := mk { user_id : Session; MaxAge : Z }.
End Cookie.

(** [handleLogout]: [session] is the session of the request.  The response
    sets a cookie with [Values["user_id"] = nil] and [MaxAge = -1], which
    tells the client to drop the cookie it holds. *)
Definition handleLogout (session : Session) : Response * Cookie.t :=
  (writeJSONResponse StatusOK (MessageMap "Logged out successfully"),
   Cookie.mk None (-1)).

(** The user map of [handleGetUser]. *)
Definition userResponse (user : User.t) : list (string * JSONValue) :=
  [ ("id", JString (User.ID user));
    ("username", JString (User.Username user));
    ("referralCode", JStringPtr (User.ReferralCode user));
    ("usdtBalance", JString (decimal_text.String (User.USDTBalance user)));
    ("btcBalance", JString (decimal_text.String (User.BTCBalance user)));
    ("hashPower", JString (decimal_text.String (User.HashPower user)));
    ("baseHashPower", JString (decimal_text.String (User.BaseHashPower user)));
    ("referralHashBonus", JString (decimal_text.String (User.ReferralHashBonus user)));
    ("gbtcBalance", JString (decimal_text.String (User.GBTCBalance user)));
    ("unclaimedBalance", JString (decimal_text.String (User.UnclaimedBalance user)));
    ("totalReferralEarnings",
       JString (decimal_text.String (User.TotalReferralEarnings user)));
    ("isAdmin", JBool (User.IsAdmin user));
    ("hasStartedMining", JBool (User.HasStartedMining user));
    ("kycVerified", JBool (User.KYCVerified user));
    ("lastActiveBlock", JIntPtr (User.LastActiveBlock user));
    ("createdAt", JInt (User.CreatedAt user)) ]%string.

(** The user map of [handleLogin]: no base hash power, no referral bonus. *)
Definition loginResponse (user : User.t) : list (string * JSONValue) :=
  [ ("id", JString (User.ID user));
    ("username", JString (User.Username user));
    ("referralCode", JStringPtr (User.ReferralCode user));
    ("usdtBalance", JString (decimal_text.String (User.USDTBalance user)));
    ("btcBalance", JString (decimal_text.String (User.BTCBalance user)));
    ("hashPower", JString (decimal_text.String (User.HashPower user)));
    ("gbtcBalance", JString (decimal_text.String (User.GBTCBalance user)));
    ("unclaimedBalance", JString (decimal_text.String (User.UnclaimedBalance user)));
    ("totalReferralEarnings",
       JString (decimal_text.String (User.TotalReferralEarnings user)));
    ("isAdmin", JBool (User.IsAdmin user));
    ("hasStartedMining", JBool (User.HasStartedMining user));
    ("kycVerified", JBool (User.KYCVerified user));
    ("lastActiveBlock", JIntPtr (User.LastActiveBlock user));
    ("createdAt", JInt (User.CreatedAt user)) ]%string.

(** The user map of [handleRegister]: as for login, without the last
    active block. *)
Definition registerResponse (user : User.t) : list (string * JSONValue) :=
  [ ("id", JString (User.ID user));
    ("username", JString (User.Username user));
    ("referralCode", JStringPtr (User.ReferralCode user));
    ("usdtBalance", JString (decimal_text.String (User.USDTBalance user)));
    ("btcBalance", JString (decimal_text.String (User.BTCBalance user)));
    ("hashPower", JString (decimal_text.String (User.HashPower user)));
    ("gbtcBalance", JString (decimal_text.String (User.GBTCBalance user)));
    ("unclaimedBalance", JString (decimal_text.String (User.UnclaimedBalance user)));
    ("totalReferralEarnings",
       JString (decimal_text.String (User.TotalReferralEarnings user)));
    ("isAdmin", JBool (User.IsAdmin user));
    ("hasStartedMining", JBool (User.HasStartedMining user));
    ("kycVerified", JBool (User.KYCVerified user));
    ("createdAt", JInt (User.CreatedAt user)) ]%string.

Definition handleGetUser (ctx : Context) : Response :=
  match ctx with
  | None => writeErrorResponse StatusUnauthorized "Authentication required"
  | Some user => writeJSONResponse StatusOK (UserMap (userResponse user))
  end.

(** ** DeviceGate: the handlers *)

(** [handleDeviceCheck]: [body] is the decoded request, [None] when the
    body is not JSON; [clientIP] is the value of [getClientIP(r)]. *)
Definition handleDeviceCheck (newID : string) (now : Z) (clientIP : string)
    (body : option DeviceCheckRequest.t) (db : DB) : Response * DB :=
  match body with
  | None => (writeErrorResponse StatusBadRequest "Invalid device data format", db)
  | Some req =>
      match upsertDevice db newID now (DeviceCheckRequest.ServerDeviceID req) clientIP req with
      | (Err _, _) =>
          (writeErrorResponse StatusInternalServerError "Device check failed", db)
      | (Ok result, db') => (writeJSONResponse StatusOK (DeviceCheck result), db')
      end
  end.

(** [handleDeviceLink]: [body] is the [deviceId] member of the request. *)
Definition handleDeviceLink (now : Z) (ctx : Context) (body : option string) (db : DB)
    : Response * DB :=
  match ctx with
  | None => (writeErrorResponse StatusUnauthorized "Authentication required", db)
  | Some user =>
      match body with
      | None => (writeErrorResponse StatusBadRequest "Invalid device ID format", db)
      | Some deviceID =>
          if String.eqb deviceID "" then
            (writeErrorResponse StatusBadRequest "Device ID is required", db)
          else
            match linkUserToDevice db now (User.ID user) deviceID with
            | (Err _, _) =>
                (writeErrorResponse StatusInternalServerError "Failed to link device", db)
            | (Ok _, db') => (writeJSONResponse StatusOK (SuccessMap true), db')
            end
      end
  end.

(** ** LedgerEngine (main.go, mining.go) *)

(** [json.NewDecoder(r.Body).Decode(&req)] for [struct{ Amount float64 }]:
    an absent member leaves the zero value. *)
Definition decodeAmount (body : PurchaseBody) : Result float64.t :=
  match body with
  | BadJSON => Err "invalid character"
  | NoAmount => Ok (float64.mk false 0 0)
  | Amount lit =>
      match float64.decode lit with
      | Some x => Ok x
      | None => Err "cannot unmarshal number into Go struct field .amount of type float64"
      end
  end.

Definition handlePurchasePower (ctx : Context) (body : PurchaseBody) (db : DB)
    : Response * DB :=
  match ctx with
  | None => (writeErrorResponse StatusUnauthorized "Unauthorized", db)
  | Some user =>
      match decodeAmount body with
      | Err _ => (writeErrorResponse StatusBadRequest "Invalid request format", db)
      | Ok amount =>
          if float64.ltb amount float64.one then
            (writeErrorResponse StatusBadRequest "Minimum purchase is 1 USDT", db)
          else if decimal.LessThan (User.USDTBalance user) (float64.NewFromFloat amount) then
            (* Check balance *)
            (writeErrorResponse StatusBadRequest "Insufficient USDT balance", db)
          else
            (* Update user balances - deduct USDT, add hash power *)
            let newUSDT := decimal.Sub (User.USDTBalance user) (float64.NewFromFloat amount) in
            let newHashPower := decimal.Add (User.HashPower user) (float64.NewFromFloat amount) in
            match exec_update_user db (User.ID user)
                    (fun u => User.set_usdt_hash u newUSDT newHashPower) with
            | Err _ =>
                (writeErrorResponse StatusInternalServerError "Failed to purchase hash power", db)
            | Ok db' =>
                (writeJSONResponse StatusOK (MessageMap "Hash power purchased successfully"), db')
            end
      end
  end.

Definition handleStartMining (ctx : Context) (db : DB) : Response * DB :=
  match ctx with
  | None => (writeErrorResponse StatusUnauthorized "Unauthorized", db)
  | Some user =>
      if decimal.LessThanOrEqual (User.HashPower user) decimal.Zero then
        (writeErrorResponse StatusBadRequest "Hash power required to start mining", db)
      else
        (* Mark user as having started mining *)
        match exec_update_user db (User.ID user)
                (fun u => User.set_has_started_mining u true) with
        | Err _ => (writeErrorResponse StatusInternalServerError "Failed to start mining", db)
        | Ok db' => (writeJSONResponse StatusOK (MessageMap "Mining started successfully"), db')
        end
  end.

Definition handleClaimRewards (ctx : Context) (db : DB) : Response * DB :=
  match ctx with
  | None => (writeErrorResponse StatusUnauthorized "Unauthorized", db)
  | Some user =>
      if decimal.LessThanOrEqual (User.UnclaimedBalance user) decimal.Zero then
        (writeErrorResponse StatusBadRequest "No rewards to claim", db)
      else
        (* Move unclaimed to GBTC balance *)
        let newGBTC := decimal.Add (User.GBTCBalance user) (User.UnclaimedBalance user) in
        match exec_update_user db (User.ID user)
                (fun u => User.set_gbtc_unclaimed u newGBTC (decimal.New 0 0)) with
        | Err _ => (writeErrorResponse StatusInternalServerError "Failed to claim rewards", db)
        | Ok db' => (writeJSONResponse StatusOK (MessageMap "Rewards claimed successfully"), db')
        end
  end.

(** ** Reference codecs for the library contracts

    The backend is parameterised below by [encoding/base64] and
    [x/crypto/scrypt].  [base64] is RFC 4648 section 4 with padding, the
    alphabet and layout of [base64.StdEncoding]; it shows that the contract
    assumed of the encoding has a model.  (Input with line breaks, which
    the Go decoder skips, is refused here; the contract does not speak of
    it.)  [toy_kdf] only has the shape of [scrypt.Key]. *)
Module base64.

Definition encodeStd : string :=
  "ABCDEFGHIJKLMNOPQRSTUVWXYZabcdefghijklmnopqrstuvwxyz0123456789+/".

(** Six bits, most significant first. *)
Definition sextet : Set := (bool * bool * bool * bool * bool * bool)%type.

Definition sextet_index (s : sextet) : nat :=
  let '(b5, b4, b3, b2, b1, b0) := s in
  ((if b5 then 32 else 0) + (if b4 then 16 else 0) + (if b3 then 8 else 0) +
   (if b2 then 4 else 0) + (if b1 then 2 else 0) + (if b0 then 1 else 0))%nat.

Definition enc6 (s : sextet) : ascii :=
  match String.get (sextet_index s) encodeStd with
  | Some c => c
  | None => "="%char
  end.

Definition all_sextets : list sextet :=
  let bs := [false; true] in
  flat_map (fun b5 => flat_map (fun b4 => flat_map (fun b3 =>
  flat_map (fun b2 => flat_map (fun b1 => map (fun b0 =>
    (b5, b4, b3, b2, b1, b0)) bs) bs) bs) bs) bs) bs.

Definition dec6 (c : ascii) : option sextet :=
  find (fun s => Ascii.eqb (enc6 s) c) all_sextets.

(** Three bytes as four sextets; [Byte.to_bits] is least significant
    bit first. *)
Definition quad (a b c : byte) : sextet * sextet * sextet * sextet :=
  let '(a0, (a1, (a2, (a3, (a4, (a5, (a6, a7))))))) := Byte.to_bits a in
  let '(b0, (b1, (b2, (b3, (b4, (b5, (b6, b7))))))) := Byte.to_bits b in
  let '(c0, (c1, (c2, (c3, (c4, (c5, (c6, c7))))))) := Byte.to_bits c in
  ((a7, a6, a5, a4, a3, a2), (a1, a0, b7, b6, b5, b4),
   (b3, b2, b1, b0, c7, c6), (c5, c4, c3, c2, c1, c0)).

Definition unquad (s1 s2 s3 s4 : sextet) : byte * byte * byte :=
  let '(a7, a6, a5, a4, a3, a2) := s1 in
  let '(a1, a0, b7, b6, b5, b4) := s2 in
  let '(b3, b2, b1, b0, c7, c6) := s3 in
  let '(c5, c4, c3, c2, c1, c0) := s4 in
  (Byte.of_bits (a0, (a1, (a2, (a3, (a4, (a5, (a6, a7))))))),
   Byte.of_bits (b0, (b1, (b2, (b3, (b4, (b5, (b6, b7))))))),
   Byte.of_bits (c0, (c1, (c2, (c3, (c4, (c5, (c6, c7)))))))).

Fixpoint EncodeToString (src : list byte) : string :=
  match src with
  | [] => EmptyString
  | [a] =>
      let '(s1, s2, _, _) := quad a x00 x00 in
      String (enc6 s1) (String (enc6 s2) "==")
  | [a; b] =>
      let '(s1, s2, s3, _) := quad a b x00 in
      String (enc6 s1) (String (enc6 s2) (String (enc6 s3) "="))
  | a :: b :: c :: rest =>
      let '(s1, s2, s3, s4) := quad a b c in
      String (enc6 s1) (String (enc6 s2) (String (enc6 s3) (String (enc6 s4)
        (EncodeToString rest))))
  end.

Definition corrupt {A} : Result A := Err "illegal base64 data".

Fixpoint DecodeString (s : string) : Result (list byte) :=
  match s with
  | EmptyString => Ok []
  | String c1 (String c2 (String c3 (String c4 rest))) =>
      let zero : sextet := (false, false, false, false, false, false) in
      match rest, Ascii.eqb c4 "=", Ascii.eqb c3 "=" with
      | EmptyString, true, true =>
          match dec6 c1, dec6 c2 with
          | Some s1, Some s2 => let '(a, _, _) := unquad s1 s2 zero zero in Ok [a]
          | _, _ => corrupt
          end
      | EmptyString, true, false =>
          match dec6 c1, dec6 c2, dec6 c3 with
          | Some s1, Some s2, Some s3 =>
              let '(a, b, _) := unquad s1 s2 s3 zero in Ok [a; b]
          | _, _, _ => corrupt
          end
      | _, _, _ =>
          match dec6 c1, dec6 c2, dec6 c3, dec6 c4 with
          | Some s1, Some s2, Some s3, Some s4 =>
              let '(a, b, c) := unquad s1 s2 s3 s4 in
              match DecodeString rest with
              | Ok l => Ok (a :: b :: c :: l)
              | Err e => Err e
              end
          | _, _, _, _ => corrupt
          end
      end
  | _ => corrupt
  end.

End base64.

(** A key derivation of the right shape: the first [keyLen] bytes of the
    password, the salt and a zero padding. *)
Definition toy_kdf (password salt : list byte) (N r p keyLen : Z) : Result (list byte) :=
  Ok (firstn (Z.to_nat keyLen)
             (password ++ salt ++ repeat x00 (Z.to_nat keyLen))).

(** ** CredentialStore and the public handlers (main.go, database.go)

    [EncodeToString] and [DecodeString] are those of [base64.StdEncoding];
    [scrypt_Key password salt N r p keyLen] is [scrypt.Key]. *)
Section Backend.

Variable EncodeToString : list byte -> string.
Variable DecodeString : string -> Result (list byte).
Variable scrypt_Key : list byte -> list byte -> Z -> Z -> Z -> Z -> Result (list byte).

(** The first step of [createUser]: hash the access key using scrypt.
    [salt] is the result of [rand.Read] on a buffer of 32 bytes. *)
Definition hashAccessKey (salt : Result (list byte)) (accessKey : string) : Result string :=
  match salt with
  | Err _ => Err "failed to generate salt"
  | Ok salt =>
      match scrypt_Key (list_byte_of_string accessKey) salt 32768 8 1 32 with
      | Err _ => Err "failed to hash access key"
      | Ok hash => Ok (EncodeToString hash ++ ":" ++ EncodeToString salt)%string
      end
  end.

(** [createUser]: [id] and [now] are the key and the creation time the
    store gives to the inserted row; the flags take the column defaults. *)
Definition createUser (db : DB) (id : string) (now : Z) (salt : Result (list byte))
    (req : RegisterRequest.t) (clientIP : string) : Result User.t * DB :=
  match hashAccessKey salt (RegisterRequest.AccessKey req) with
  | Err e => (Err e, db)
  | Ok hashedKey =>
      (* Generate referral code from username *)
      let referralCode := generateReferralCode (RegisterRequest.Username req) now in
      let user :=
        User.mk id (RegisterRequest.Username req) hashedKey (Some referralCode)
          (RegisterRequest.ReferralCode req) (Some clientIP)
          (decimal.New 0 (-2)) (decimal.New 0 (-8)) (decimal.New 0 (-2))
          (decimal.New 0 (-2)) (decimal.New 0 (-2)) (decimal.New 0 (-8))
          (decimal.New 0 (-8)) (decimal.New 0 (-2))
          None false false false false false None now in
      (Ok user, mkDB (users db ++ [user]) (device_fingerprints db))
  end.

(** [verifyAccessKey]; [None] is a run-time panic (a slice or an index out
    of range), [Some b] the returned boolean. *)
Definition verifyAccessKey (hashedKey plainKey : string) : option bool :=
  match splitHashedKey hashedKey with
  | None => None
  | Some parts =>
      if negb (List.length parts =? 2)%nat then Some false
      else
        match nth_error parts 0, nth_error parts 1 with
        | Some part0, Some part1 =>
            match DecodeString part0 with
            | Err _ => Some false
            | Ok storedHash =>
                match DecodeString part1 with
                | Err _ => Some false
                | Ok salt =>
                    match scrypt_Key (list_byte_of_string plainKey) salt 32768 8 1 32 with
                    | Err _ => Some false
                    | Ok hash => compareHashes storedHash hash
                    end
                end
            end
        | _, _ => None
        end
  end.

(** [handleRegister]: [body] is the decoded request. *)
Definition handleRegister (id : string) (now : Z) (salt : Result (list byte))
    (clientIP : string) (body : option RegisterRequest.t) (session : Session) (db : DB)
    : Response * Session * DB :=
  match body with
  | None => (writeErrorResponse StatusBadRequest "Invalid request format", session, db)
  | Some req =>
      (* Validate request *)
      if String.eqb (RegisterRequest.Username req) ""
         || (String.length (RegisterRequest.Username req) <? 3)%nat
         || (20 <? String.length (RegisterRequest.Username req))%nat then
        (writeErrorResponse StatusBadRequest "Username must be 3-20 characters", session, db)
      else if String.eqb (RegisterRequest.AccessKey req) ""
              || (String.length (RegisterRequest.AccessKey req) <? 6)%nat then
        (writeErrorResponse StatusBadRequest "Access key must be at least 6 characters",
         session, db)
      else
        (* Check if username already exists *)
        match getUserByUsername db (RegisterRequest.Username req) with
        | Err _ => (writeErrorResponse StatusInternalServerError "Database error", session, db)
        | Ok (Some _) =>
            (writeErrorResponse StatusConflict "Username already exists", session, db)
        | Ok None =>
            match createUser db id now salt req clientIP with
            | (Err _, _) =>
                (writeErrorResponse StatusInternalServerError "Failed to create user",
                 session, db)
            | (Ok user, db') =>
                (* Create session *)
                (writeJSONResponse StatusCreated (UserMap (registerResponse user)),
                 Some (User.ID user), db')
            end
        end
  end.

(** [handleLogin]: [body] is the decoded request; the result is [None]
    when [verifyAccessKey] panics. *)
Definition handleLogin (body : option LoginRequest.t) (session : Session) (db : DB)
    : option (Response * Session) :=
  match body with
  | None => Some (writeErrorResponse StatusBadRequest "Invalid request format", session)
  | Some req =>
      (* Get user by username *)
      match getUserByUsername db (LoginRequest.Username req) with
      | Err _ => Some (writeErrorResponse StatusInternalServerError "Database error", session)
      | Ok None => Some (writeErrorResponse StatusUnauthorized "Invalid credentials", session)
      | Ok (Some user) =>
          (* Verify access key *)
          match verifyAccessKey (User.AccessKey user) (LoginRequest.AccessKey req) with
          | None => None
          | Some false =>
              Some (writeErrorResponse StatusUnauthorized "Invalid credentials", session)
          | Some true =>
              (* Check if user is banned or frozen *)
              if User.IsBanned user then
                Some (writeErrorResponse StatusForbidden "Account is banned", session)
              else if User.IsFrozen user then
                Some (writeErrorResponse StatusForbidden "Account is frozen", session)
              else
                (* Create session *)
                Some (writeJSONResponse StatusOK (UserMap (loginResponse user)),
                      Some (User.ID user))
          end
      end
  end.

End Backend.

(** ** The request's helpers and the referral handler (main.go, mining.go) *)

(** The two functions of the package [strings] that [getClientIP] calls
    with a separator of one byte. *)
Module strings.

(** [strings.Split(s, sep)]: the segments of [s] between the separators,
    one more than there are separators in [s]. *)
Fixpoint Split (s : string) (sep : ascii) : list string :=
  match s with
  | EmptyString => [EmptyString]
  | String c rest =>
      if Ascii.eqb c sep then EmptyString :: Split rest sep
      else
        match Split rest sep with
        | part :: parts => String c part :: parts
        | [] => [String c EmptyString]
        end
  end.

(** [strings.LastIndex(s, sep)]: the offset of the last separator in [s],
    or -1; [i] is the offset of the first byte of [s], [last] the result
    so far. *)
Fixpoint LastIndex_from (s : string) (sep : ascii) (i last : Z) : Z :=
  match s with
  | EmptyString => last
  | String c rest => LastIndex_from rest sep (i + 1) (if Ascii.eqb c sep then i else last)
  end.

Definition LastIndex (s : string) (sep : ascii) : Z := LastIndex_from s sep 0 (-1).

(** [strings.TrimSpace] on a string of ASCII bytes: the white space is
    tab, line feed, vertical tab, form feed, carriage return and space. *)
Definition asciiSpace (c : ascii) : bool :=
  existsb (Ascii.eqb c) ["009"; "010"; "011"; "012"; "013"; " "]%char.

Fixpoint TrimLeft (s : string) : string :=
  match s with
  | String c rest => if asciiSpace c then TrimLeft rest else s
  | EmptyString => EmptyString
  end.

Fixpoint TrimRight (s : string) : string :=
  match s with
  | EmptyString => EmptyString
  | String c rest =>
      match TrimRight rest with
      | EmptyString => if asciiSpace c then EmptyString else String c EmptyString
      | kept => String c kept
      end
  end.

Definition TrimSpace_ascii (s : string) : string := TrimRight (TrimLeft s).

End strings.

Section Request.

(** [strings.TrimSpace]. *)
Variable TrimSpace : string -> string.

(** [getClientIP(r)]: [xff] and [xri] are [r.Header.Get] of the headers
    [X-Forwarded-For] and [X-Real-IP], empty when the header is absent;
    [None] is a slice out of range. *)
Definition getClientIP (xff xri RemoteAddr : string) : option string :=
  let rest :=
    (* Check X-Real-IP header *)
    if negb (String.eqb xri "") then Some (TrimSpace xri)
    else
      (* Fall back to RemoteAddr *)
      let ip := RemoteAddr in
      let colon := strings.LastIndex ip ":" in
      if negb (colon =? -1) then slice ip 0 (Z.to_nat colon) else Some ip in
  (* Check X-Forwarded-For header first *)
  if negb (String.eqb xff "") then
    let ips := strings.Split xff "," in
    if (0 <? List.length ips)%nat then
      match nth_error ips 0 with
      | Some ip => Some (TrimSpace ip)
      | None => None
      end
    else rest
  else rest.

End Request.

(** [min] of mining.go and main.go. *)
Definition min (a b : Z) : Z := if a <? b then a else b.

(** The map that [handleReferrals] sends. *)
Module ReferralsResponse.
Record t : Set := mk {
  referralCode : string;
  totalReferrals : Z;
  activeReferrals : Z;
  totalEarnings : string;
  referrals : list JSONValue
}.
End ReferralsResponse.

(** [handleReferrals]: an error response, or the status and the map;
    [None] is a slice out of range. *)
Definition handleReferrals (ctx : Context) : option (Response + Z * ReferralsResponse.t) :=
  match ctx with
  | None => Some (inl (writeErrorResponse StatusUnauthorized "Unauthorized"))
  | Some user =>
      match slice (User.Username user) 0
              (Z.to_nat (min 6 (Z.of_nat (String.length (User.Username user))))) with
      | None => None
      | Some prefix =>
          let referralCode := (prefix ++ "123")%string in
          let referralCode :=
            match User.ReferralCode user with
            | Some code => code
            | None => referralCode
            end in
          Some (inr (StatusOK,
                     ReferralsResponse.mk referralCode 0 0
                       (decimal_text.String (User.TotalReferralEarnings user)) []))
      end
  end.

(** The handler of [POST /api/login] in the [main] of the backup
    (backup/database.go), an anonymous function there: the "basic login
    endpoint for testing". *)
Definition handleBasicLogin (body : option LoginRequest.t) (session : Session) (db : DB)
    : Response * Session :=
  match body with
  | None => (writeErrorResponse StatusBadRequest "Invalid request format", session)
  | Some req =>
      (* Get user by username *)
      match getUserByUsername db (LoginRequest.Username req) with
      | Err _ | Ok None =>
          (writeErrorResponse StatusUnauthorized "Invalid credentials", session)
      | Ok (Some user) =>
          (* For now, simple access key check (should implement proper hashing) *)
          if negb (String.eqb (User.AccessKey user) (LoginRequest.AccessKey req)) then
            (writeErrorResponse StatusUnauthorized "Invalid credentials", session)
          else if User.IsBanned user then
            (writeErrorResponse StatusForbidden "Account is banned", session)
          else if User.IsFrozen user then
            (writeErrorResponse StatusForbidden "Account is frozen", session)
          else
            (* Create session *)
            (writeJSONResponse StatusOK (UserMap (loginResponse user)), Some (User.ID user))
      end
  end.

(* ================================================================== *)
(** * Part II: the notions of the statements, and sample data          *)
(* ================================================================== *)

Module notions.

(** What the loop of [compareHashes] accumulates over two slices. *)
Definition or_of_xors (a b : list byte) (result : byte) : byte :=
  fold_left (fun acc xy => bor acc (bxor (fst xy) (snd xy))) (combine a b) result.

(** No byte of [s] is the separator. *)
Fixpoint colon_free (s : string) : bool :=
  match s with
  | EmptyString => true
  | String c rest => negb (Ascii.eqb c ":") && colon_free rest
  end.

(** All byte strings of a given length, for counting arguments. *)
Definition all_bytes : list byte :=
  let bs := [false; true] in
  flat_map (fun b0 => flat_map (fun b1 => flat_map (fun b2 => flat_map (fun b3 =>
  flat_map (fun b4 => flat_map (fun b5 => flat_map (fun b6 => map (fun b7 =>
    Byte.of_bits (b0, (b1, (b2, (b3, (b4, (b5, (b6, b7))))))))
    bs) bs) bs) bs) bs) bs) bs) bs.

Fixpoint lists_of_length (n : nat) : list (list byte) :=
  match n with
  | O => [[]]
  | S n' => flat_map (fun b => map (cons b) (lists_of_length n')) all_bytes
  end.

(** The secret made of [n] letters [a]. *)
Fixpoint letters (n : nat) : string :=
  match n with O => EmptyString | S n' => String "a" (letters n') end.

(** The row is within its registration cap. *)
Definition within_cap (d : DeviceFingerprint.t) : Prop :=
  DeviceFingerprint.Registrations d <= DeviceFingerprint.MaxRegistrations d.

(** Row ids are unique and every row is within its cap. *)
Definition cap_invariant (db : DB) : Prop :=
  NoDup (map DeviceFingerprint.ID (device_fingerprints db)) /\
  Forall within_cap (device_fingerprints db).

(** The normal registration path for one device: [Check], and [Link] with
    the returned device id only when [Check] answered [canRegister]. *)
Definition check_then_link (db : DB) (newID : string) (now : Z)
    (serverDeviceID clientIP : string) (fingerprints : DeviceCheckRequest.t)
    (userID : string) : DB :=
  match upsertDevice db newID now serverDeviceID clientIP fingerprints with
  | (Ok r, db1) =>
      if DeviceCheckResponse.CanRegister r
      then snd (linkUserToDevice db1 now userID (DeviceCheckResponse.DeviceID r))
      else db1
  | (Err _, db1) => db1
  end.

(** The moderation action "ban": the flag is set on the row of the user. *)
Definition ban (db : DB) (userID : string) : Result DB :=
  exec_update_user db userID (fun u => User.set_is_banned u true).

(** The three failures of a session that names a user. *)
Definition InvalidSession : Response :=
  writeErrorResponse StatusUnauthorized "Invalid session".
Definition AccountBanned : Response :=
  writeErrorResponse StatusForbidden "Account is banned".
Definition AccountFrozen : Response :=
  writeErrorResponse StatusForbidden "Account is frozen".

(** The answers of the three operations. *)
Definition BelowMinimum : Response :=
  writeErrorResponse StatusBadRequest "Minimum purchase is 1 USDT".
Definition InsufficientBalance : Response :=
  writeErrorResponse StatusBadRequest "Insufficient USDT balance".
Definition PowerPurchased : Response :=
  writeJSONResponse StatusOK (MessageMap "Hash power purchased successfully").
Definition NoHashPower : Response :=
  writeErrorResponse StatusBadRequest "Hash power required to start mining".
Definition MiningStarted : Response :=
  writeJSONResponse StatusOK (MessageMap "Mining started successfully").
Definition NoRewards : Response :=
  writeErrorResponse StatusBadRequest "No rewards to claim".
Definition RewardsClaimed : Response :=
  writeJSONResponse StatusOK (MessageMap "Rewards claimed successfully").

Local Open Scope Q_scope.

(** Every balance of the row is at least zero. *)
Definition balances_nonneg (u : User.t) : Prop :=
  0 <= decimal.toQ (User.USDTBalance u) /\
  0 <= decimal.toQ (User.BTCBalance u) /\
  0 <= decimal.toQ (User.HashPower u) /\
  0 <= decimal.toQ (User.BaseHashPower u) /\
  0 <= decimal.toQ (User.ReferralHashBonus u) /\
  0 <= decimal.toQ (User.GBTCBalance u) /\
  0 <= decimal.toQ (User.UnclaimedBalance u) /\
  0 <= decimal.toQ (User.TotalReferralEarnings u).

(** Every balance of the row is zero. *)
Definition balances_zero (u : User.t) : Prop :=
  decimal.toQ (User.USDTBalance u) == 0 /\
  decimal.toQ (User.BTCBalance u) == 0 /\
  decimal.toQ (User.HashPower u) == 0 /\
  decimal.toQ (User.BaseHashPower u) == 0 /\
  decimal.toQ (User.ReferralHashBonus u) == 0 /\
  decimal.toQ (User.GBTCBalance u) == 0 /\
  decimal.toQ (User.UnclaimedBalance u) == 0 /\
  decimal.toQ (User.TotalReferralEarnings u) == 0.

(** [POST /claim-rewards] behind [authMiddleware]. *)
Definition claim_request (session : Session) (db : DB) : Response * DB :=
  authMiddleware (fun ctx => handleClaimRewards ctx) session db.

(** No byte of [s] is [c]. *)
Fixpoint free_of (c : ascii) (s : string) : bool :=
  match s with
  | EmptyString => true
  | String x rest => negb (Ascii.eqb x c) && free_of c rest
  end.

(** The segments [ps], each followed by the separator, and then [last]. *)
Fixpoint join_segments (ps : list string) (last : string) : string :=
  match ps with
  | [] => last
  | p :: ps' => (p ++ ":" ++ join_segments ps' last)%string
  end.

(** No two users have the same name; no two the same id, and none the
    empty id. *)
Definition usernames_unique (db : DB) : Prop :=
  NoDup (map User.Username (users db)).

Definition ids_unique (db : DB) : Prop :=
  NoDup (map User.ID (users db)) /\
  forall u, In u (users db) -> User.ID u <> EmptyString.

(** The columns of a user that decide who can log in and with what
    rights. *)
Definition identity_of (u : User.t) : string * string * string * bool * bool * bool :=
  (User.ID u, User.Username u, User.AccessKey u,
   User.IsAdmin u, User.IsFrozen u, User.IsBanned u).

Definition AuthenticationRequired : Response :=
  writeErrorResponse StatusUnauthorized "Authentication required".
Definition AdminRequired : Response :=
  writeErrorResponse StatusForbidden "Admin access required".
Definition InvalidCredentials : Response :=
  writeErrorResponse StatusUnauthorized "Invalid credentials".

(** The three ledger requests behind [authMiddleware]. *)
Definition purchase_request (body : PurchaseBody) (session : Session) (db : DB)
    : Response * DB :=
  authMiddleware (fun ctx => handlePurchasePower ctx body) session db.

Definition mining_request (session : Session) (db : DB) : Response * DB :=
  authMiddleware (fun ctx => handleStartMining ctx) session db.

(** Splitting on the separator, in the words of the specification: the
    segments of [strings.Split] on [":"]. *)
Definition segments (hashedKey : string) : list string :=
  strings.Split hashedKey ":".

(** The segments without an empty segment after the last separator. *)
Fixpoint drop_empty_last (segs : list string) : list string :=
  match segs with
  | [] => []
  | [s] => if String.eqb s "" then [] else [s]
  | s :: rest => s :: drop_empty_last rest
  end.

(** The requested amount comes back from [float64] as it went in: the
    decimal that the handler makes of the decoded number is the number of
    the request. *)
Definition survives_float64 (lit : Decimal) : bool :=
  match float64.decode lit with
  | Some x => Qeq_bool (decimal.toQ (float64.NewFromFloat x)) (decimal.toQ lit)
  | None => false
  end.

End notions.

(** A store with three users and one device, with the reference codec and
    the toy key derivation in the place of the libraries. *)
Module sample.

Definition salt32 : list byte := repeat x2a 32.

Definition stored_form (accessKey : string) : string :=
  match hashAccessKey base64.EncodeToString toy_kdf (Ok salt32) accessKey with
  | Ok hashedKey => hashedKey
  | Err _ => EmptyString
  end.

Definition usd (cents : Z) : Decimal := decimal.New cents (-2).
Definition coin (units : Z) : Decimal := decimal.New units (-8).

(** alice: 100.00 USDT, 0.00000005 unclaimed. *)
Definition alice : User.t :=
  User.mk "u1" "alice" (stored_form "secret1") (Some "alice123"%string) None
    (Some "10.0.0.1"%string)
    (usd 10000) (coin 0) (usd 0) (usd 0) (usd 0) (coin 0) (coin 5) (usd 0)
    None false false false false false None 1700000000.

(** bob: banned. *)
Definition bob : User.t :=
  User.mk "u2" "bob" (stored_form "hunter22") (Some "bob456"%string) None
    (Some "10.0.0.2"%string)
    (usd 0) (coin 0) (usd 0) (usd 0) (usd 0) (coin 0) (coin 0) (usd 0)
    None false false true false false None 1700000001.

(** carol: 9007199254740993 USDT, which is 2^53 + 1. *)
Definition carol : User.t :=
  User.mk "u3" "carol" (stored_form "carol-key") (Some "carol789"%string) None
    (Some "10.0.0.3"%string)
    (decimal.New 9007199254740993 0) (coin 0) (usd 0) (usd 0) (usd 0) (coin 0)
    (coin 0) (usd 0)
    None false false false false false None 1700000002.

Definition signals : DeviceCheckRequest.t :=
  DeviceCheckRequest.mk "dev-1" "Mozilla/5.0" "1920x1080" "UTC" "en" "c4nv45" "w3bg1" "4ud10".

(** A device with one registration out of two. *)
Definition laptop : DeviceFingerprint.t :=
  DeviceFingerprint.mk "d1" "dev-1" (Some "10.0.0.1"%string) 1 2 false 0
    "Mozilla/5.0" "1920x1080" "UTC" "en" "c4nv45" "w3bg1" "4ud10"
    1700000000 1700000000.

Definition db0 : DB := mkDB [alice; bob; carol] [laptop].

Definition fifty : Decimal := decimal.New 50 0.

(** The float64 of the amount 50: [7036874417766400 * 2^-47]. *)
Definition fifty_f64 : float64.t := float64.mk false 7036874417766400 (-47).

(** [db0] after the ban of alice. *)
Definition db0_alice_banned : DB :=
  mkDB [User.set_is_banned alice true; bob; carol] [laptop].

(** dave, as [createUser] inserts him at time 1700000300. *)
Definition dave_request : RegisterRequest.t :=
  RegisterRequest.mk "dave" "dave-key" None.

Definition dave : User.t :=
  User.mk "u4" "dave" (stored_form "dave-key") (Some "dave300"%string) None
    (Some "10.0.0.4"%string)
    (usd 0) (coin 0) (usd 0) (usd 0) (usd 0) (coin 0) (coin 0) (usd 0)
    None false false false false false None 1700000300.

Definition db0_with_dave : DB := mkDB [alice; bob; carol; dave] [laptop].

(** root: an admin. *)
Definition root : User.t :=
  User.mk "u9" "root" (stored_form "root-key") (Some "root1"%string) None
    (Some "10.0.0.9"%string)
    (usd 0) (coin 0) (usd 0) (usd 0) (usd 0) (coin 0) (coin 0) (usd 0)
    None true false false false false None 1600000000.

Definition db_admin : DB := mkDB [alice; root] [].

(** A device at its cap, two registrations out of two. *)
Definition kiosk : DeviceFingerprint.t :=
  DeviceFingerprint.mk "d7" "dev-7" (Some "10.0.0.7"%string) 2 2 false 0
    "Mozilla/5.0" "1280x800" "UTC" "en" "c4nv45" "w3bg1" "4ud10"
    1700000000 1700000000.

Definition db_kiosk : DB := mkDB [alice] [laptop; kiosk].

Definition sixty : Decimal := decimal.New 60 0.

(** The float64 of the amount 60: [8444249301319680 * 2^-47]. *)
Definition sixty_f64 : float64.t := float64.mk false 8444249301319680 (-47).

(** [GET /user] as a wrapped handler. *)
Definition get_user : Context -> DB -> Response * DB :=
  fun ctx db => (handleGetUser ctx, db).

End sample.

(* ================================================================== *)
(** * Part III: properties                                             *)
(* ================================================================== *)

(** ** Decimal arithmetic is exact *)
Module decimal_facts.
Import decimal.

Lemma ten_nonzero : ~ (inject_Z 10 == 0)%Q.
Proof. discriminate. Qed.

Lemma pow10_pos (e : Z) : (0 < inject_Z 10 ^ e)%Q.
Proof. apply Qpower_0_lt. reflexivity. Qed.

(** Lowering the exponent keeps the number. *)
Lemma toQ_rescale (d : Decimal) (e : Z) :
  e <= exp d -> (toQ (rescale d e) == toQ d)%Q.
Proof.
  intros He. unfold rescale.
  destruct (Z.eqb_spec (exp d) e) as [Heq|Hne]; [reflexivity|].
  destruct (Z.ltb_spec (exp d) e) as [Hlt|_]; [lia|].
  unfold toQ; cbn [value exp].
  replace (Z.abs (e - exp d)) with (exp d - e) by lia.
  rewrite inject_Z_mult, Zpower_Qpower by lia.
  assert (Hsplit : (inject_Z 10 ^ exp d == inject_Z 10 ^ (exp d - e) * inject_Z 10 ^ e)%Q).
  { rewrite <- (Qpower_plus _ (exp d - e) e ten_nonzero).
    replace (exp d - e + e) with (exp d) by lia. reflexivity. }
  rewrite Hsplit. ring.
Qed.

Lemma RescalePair_exp (a b : Decimal) :
  exp (fst (RescalePair a b)) = Z.min (exp a) (exp b) /\
  exp (snd (RescalePair a b)) = Z.min (exp a) (exp b).
Proof.
  unfold RescalePair.
  destruct (Z.ltb_spec (exp a) (exp b)) as [H|H]; cbn [fst snd].
  - unfold rescale. destruct (Z.eqb_spec (exp b) (exp a)); [lia|].
    destruct (Z.ltb_spec (exp b) (exp a)); cbn [exp]; lia.
  - destruct (Z.ltb_spec (exp b) (exp a)) as [H'|H']; cbn [fst snd].
    + unfold rescale. destruct (Z.eqb_spec (exp a) (exp b)); [lia|].
      destruct (Z.ltb_spec (exp a) (exp b)); cbn [exp]; lia.
    + lia.
Qed.

Lemma RescalePair_toQ (a b : Decimal) :
  (toQ (fst (RescalePair a b)) == toQ a)%Q /\
  (toQ (snd (RescalePair a b)) == toQ b)%Q.
Proof.
  unfold RescalePair.
  destruct (Z.ltb_spec (exp a) (exp b)) as [H|H]; cbn [fst snd].
  - split; [reflexivity | apply toQ_rescale; lia].
  - destruct (Z.ltb_spec (exp b) (exp a)) as [H'|H']; cbn [fst snd].
    + split; [apply toQ_rescale; lia | reflexivity].
    + split; reflexivity.
Qed.

Lemma toQ_Add (a b : Decimal) : (toQ (Add a b) == toQ a + toQ b)%Q.
Proof.
  unfold Add.
  destruct (RescalePair_exp a b) as [E1 E2].
  destruct (RescalePair_toQ a b) as [Q1 Q2].
  destruct (RescalePair a b) as [ra rb]; cbn [fst snd] in *.
  rewrite <- Q1, <- Q2. unfold toQ; cbn [value exp].
  rewrite inject_Z_plus, E1, E2. ring.
Qed.

Lemma toQ_Sub (a b : Decimal) : (toQ (Sub a b) == toQ a - toQ b)%Q.
Proof.
  unfold Sub.
  destruct (RescalePair_exp a b) as [E1 E2].
  destruct (RescalePair_toQ a b) as [Q1 Q2].
  destruct (RescalePair a b) as [ra rb]; cbn [fst snd] in *.
  rewrite <- Q1, <- Q2. unfold toQ; cbn [value exp].
  unfold Z.sub. rewrite inject_Z_plus, inject_Z_opp, E1, E2. ring.
Qed.

(** [Cmp] is the order of the numbers. *)
Lemma Cmp_spec (a b : Decimal) : Cmp a b = (toQ a ?= toQ b)%Q.
Proof.
  unfold Cmp.
  destruct (RescalePair_exp a b) as [E1 E2].
  destruct (RescalePair_toQ a b) as [Q1 Q2].
  destruct (RescalePair a b) as [ra rb]; cbn [fst snd] in *.
  rewrite <- Q1, <- Q2. unfold toQ. rewrite E1, E2.
  set (m := Z.min (exp a) (exp b)).
  assert (Hp := pow10_pos m).
  destruct (Z.compare_spec (value ra) (value rb)) as [H|H|H]; symmetry.
  - apply Qeq_alt. rewrite H. reflexivity.
  - apply Qlt_alt. apply Qmult_lt_r; [exact Hp|]. rewrite <- Zlt_Qlt. exact H.
  - apply Qgt_alt. apply Qmult_lt_r; [exact Hp|]. rewrite <- Zlt_Qlt. exact H.
Qed.

Lemma LessThan_spec (a b : Decimal) : LessThan a b = true <-> (toQ a < toQ b)%Q.
Proof.
  unfold LessThan. rewrite Cmp_spec, Qlt_alt.
  destruct (toQ a ?= toQ b)%Q; split; congruence.
Qed.

Lemma LessThan_false (a b : Decimal) : LessThan a b = false <-> (toQ b <= toQ a)%Q.
Proof.
  rewrite <- Bool.not_true_iff_false, LessThan_spec. split.
  - apply Qnot_lt_le.
  - apply Qle_not_lt.
Qed.

Lemma LessThanOrEqual_spec (a b : Decimal) :
  LessThanOrEqual a b = true <-> (toQ a <= toQ b)%Q.
Proof.
  unfold LessThanOrEqual. rewrite Cmp_spec, Qle_alt.
  destruct (toQ a ?= toQ b)%Q; split; congruence.
Qed.

Lemma LessThanOrEqual_false (a b : Decimal) :
  LessThanOrEqual a b = false <-> (toQ b < toQ a)%Q.
Proof.
  rewrite <- Bool.not_true_iff_false, LessThanOrEqual_spec. split.
  - apply Qnot_le_lt.
  - apply Qlt_not_le.
Qed.

Lemma toQ_Zero : (toQ Zero == 0)%Q.
Proof. reflexivity. Qed.

Lemma toQ_zero_value (e : Z) : (toQ (New 0 e) == 0)%Q.
Proof. unfold toQ; cbn [value exp]. ring. Qed.

End decimal_facts.

(** ** Bytes, slices and the constant-time comparison *)
Module bytes_facts.
Import notions.

Lemma of_bits_inj (x y : bool * (bool * (bool * (bool * (bool * (bool * (bool * bool))))))) :
  Byte.of_bits x = Byte.of_bits y -> x = y.
Proof.
  intros H. rewrite <- (Byte.to_bits_of_bits x), <- (Byte.to_bits_of_bits y), H.
  reflexivity.
Qed.

Lemma x00_bits :
  x00 = Byte.of_bits (false, (false, (false, (false, (false, (false, (false, false))))))).
Proof. reflexivity. Qed.

Lemma bxor_eq_x00 (a b : byte) : bxor a b = x00 <-> a = b.
Proof.
  split.
  - unfold bxor. intros H.
    rewrite <- (Byte.of_bits_to_bits a), <- (Byte.of_bits_to_bits b).
    destruct (Byte.to_bits a) as (a0 & a1 & a2 & a3 & a4 & a5 & a6 & a7).
    destruct (Byte.to_bits b) as (b0 & b1 & b2 & b3 & b4 & b5 & b6 & b7).
    rewrite x00_bits in H. apply of_bits_inj in H.
    injection H as H0 H1 H2 H3 H4 H5 H6 H7.
    apply xorb_eq in H0, H1, H2, H3, H4, H5, H6, H7. congruence.
  - intros ->. unfold bxor.
    destruct (Byte.to_bits b) as (b0 & b1 & b2 & b3 & b4 & b5 & b6 & b7).
    rewrite !xorb_nilpotent. reflexivity.
Qed.

Lemma bor_eq_x00 (a b : byte) : bor a b = x00 <-> a = x00 /\ b = x00.
Proof.
  split.
  - unfold bor. intros H.
    rewrite <- (Byte.of_bits_to_bits a), <- (Byte.of_bits_to_bits b).
    destruct (Byte.to_bits a) as (a0 & a1 & a2 & a3 & a4 & a5 & a6 & a7).
    destruct (Byte.to_bits b) as (b0 & b1 & b2 & b3 & b4 & b5 & b6 & b7).
    rewrite x00_bits in H. apply of_bits_inj in H.
    injection H as H0 H1 H2 H3 H4 H5 H6 H7.
    apply orb_false_elim in H0, H1, H2, H3, H4, H5, H6, H7.
    destruct H0, H1, H2, H3, H4, H5, H6, H7. subst. split; reflexivity.
  - intros [-> ->]. reflexivity.
Qed.

Lemma or_of_xors_eq_x00 (a b : list byte) (result : byte) :
  List.length a = List.length b ->
  (or_of_xors a b result = x00 <-> result = x00 /\ a = b).
Proof.
  revert b result. induction a as [|x a IH]; intros [|y b] result Hlen;
    try discriminate.
  - cbn. tauto.
  - cbn in Hlen. injection Hlen as Hlen. unfold or_of_xors in *. cbn [combine fold_left fst snd].
    rewrite (IH b _ Hlen), bor_eq_x00, bxor_eq_x00.
    split.
    + intros [[-> ->] ->]. auto.
    + intros [-> E]. injection E as -> ->. auto.
Qed.

Lemma skipn_nth_cons {A} (l : list A) (i : nat) (x : A) :
  nth_error l i = Some x -> skipn i l = x :: skipn (S i) l.
Proof.
  revert i. induction l as [|y l IH]; intros [|i] H; try discriminate.
  - injection H as ->. reflexivity.
  - cbn in H. rewrite skipn_cons, (IH i H). reflexivity.
Qed.

(** The loop never indexes out of range and visits every position. *)
Lemma compareHashes_loop_spec (a b : list byte) :
  List.length a = List.length b ->
  forall (n i : nat) (result : byte), (i + n = List.length a)%nat ->
    compareHashes_loop a b i n result =
    Some (or_of_xors (skipn i a) (skipn i b) result).
Proof.
  intros Hlen n. induction n as [|n IH]; intros i result Hn.
  - cbn. rewrite Nat.add_0_r in Hn. subst i.
    rewrite skipn_all. rewrite Hlen. rewrite skipn_all. reflexivity.
  - cbn [compareHashes_loop].
    destruct (nth_error a i) as [ai|] eqn:Ea; [|apply nth_error_None in Ea; lia].
    destruct (nth_error b i) as [bi|] eqn:Eb; [|apply nth_error_None in Eb; lia].
    rewrite (IH (S i)) by lia.
    rewrite (skipn_nth_cons a i ai Ea), (skipn_nth_cons b i bi Eb).
    reflexivity.
Qed.

(** [compareHashes] returns, and its result is equality of the slices. *)
Lemma compareHashes_spec (a b : list byte) :
  compareHashes a b =
  Some (if (List.length a =? List.length b)%nat
        then Byte.eqb (or_of_xors a b x00) x00 else false).
Proof.
  unfold compareHashes.
  destruct (Nat.eqb_spec (List.length a) (List.length b)) as [Hlen|Hlen]; cbn [negb].
  - rewrite (compareHashes_loop_spec a b Hlen (List.length a) 0%nat x00) by lia.
    reflexivity.
  - reflexivity.
Qed.

Lemma compareHashes_true_iff (a b : list byte) :
  compareHashes a b = Some true <-> a = b.
Proof.
  rewrite compareHashes_spec.
  destruct (Nat.eqb_spec (List.length a) (List.length b)) as [Hlen|Hlen].
  - split.
    + intros H. injection H as H. apply Byte.byte_dec_bl in H.
      apply (or_of_xors_eq_x00 a b x00 Hlen). exact H.
    + intros ->. f_equal.
      assert (H : or_of_xors b b x00 = x00)
        by (apply or_of_xors_eq_x00; auto).
      rewrite H. reflexivity.
  - split; [discriminate|]. intros ->. congruence.
Qed.

End bytes_facts.

(** ** splitHashedKey *)
Module split_facts.
Import notions.

Lemma length_append (a b : string) :
  String.length (a ++ b) = (String.length a + String.length b)%nat.
Proof. induction a as [|c a IH]; cbn; [reflexivity | now rewrite IH]. Qed.

Lemma append_assoc (a b c : string) : ((a ++ b) ++ c = a ++ (b ++ c))%string.
Proof. induction a as [|x a IH]; cbn; [reflexivity | now rewrite IH]. Qed.

Lemma substring_prefix (a b : string) :
  substring 0 (String.length a) (a ++ b) = a.
Proof.
  induction a as [|c a IH]; cbn.
  - destruct b; reflexivity.
  - now rewrite IH.
Qed.

Lemma substring_skip (a b : string) (n : nat) :
  substring (String.length a) n (a ++ b) = substring 0 n b.
Proof. induction a as [|c a IH]; cbn; [reflexivity | exact IH]. Qed.

Lemma substring_all (b : string) : substring 0 (String.length b) b = b.
Proof. induction b as [|c b IH]; cbn; [reflexivity | now rewrite IH]. Qed.

(** A slice with ordered bounds inside the string does not panic. *)
Lemma slice_in_range (s : string) (lo hi : nat) :
  (lo <= hi)%nat -> (hi <= String.length s)%nat ->
  slice s lo hi = Some (substring lo (hi - lo) s).
Proof.
  intros H1 H2. unfold slice.
  destruct (Nat.leb_spec lo hi); [|lia].
  destruct (Nat.leb_spec hi (String.length s)); [|lia].
  reflexivity.
Qed.

(** The loop keeps [start <= i <= len(hashedKey)], so it returns. *)
Lemma loop_returns (rest pre : string) (parts : list string) (start : nat) :
  (start <= String.length pre)%nat ->
  exists parts' start',
    splitHashedKey_loop (pre ++ rest) rest (String.length pre) parts start
      = Some (parts', start') /\
    (start' <= String.length (pre ++ rest))%nat.
Proof.
  revert pre parts start. induction rest as [|c rest IH]; intros pre parts start Hs.
  - exists parts, start. split; [reflexivity|]. rewrite length_append. lia.
  - cbn [splitHashedKey_loop].
    assert (Hpre : (pre ++ String c rest = (pre ++ String c "") ++ rest)%string)
      by (rewrite append_assoc; reflexivity).
    assert (Hlen : String.length (pre ++ String c "") = S (String.length pre))
      by (rewrite length_append; cbn; lia).
    destruct (Ascii.eqb c ":").
    + rewrite slice_in_range; [| exact Hs | rewrite length_append; lia].
      rewrite Hpre, <- Hlen. apply IH. lia.
    + rewrite Hpre, <- Hlen. apply IH. lia.
Qed.

(** [splitHashedKey] never panics. *)
Lemma splitHashedKey_returns (hashedKey : string) :
  exists parts, splitHashedKey hashedKey = Some parts.
Proof.
  unfold splitHashedKey.
  destruct (loop_returns hashedKey "" [] 0 (Nat.le_0_l _)) as (parts & start & E & Hs).
  cbn [append String.length] in E, Hs. rewrite E.
  destruct (Nat.ltb_spec start (String.length hashedKey)).
  - rewrite slice_in_range by lia. eauto.
  - eauto.
Qed.

(** Over bytes that are not the separator the state does not change. *)
Lemma loop_colon_free (hashedKey r1 r2 : string) (i : nat)
    (parts : list string) (start : nat) :
  colon_free r1 = true ->
  splitHashedKey_loop hashedKey (r1 ++ r2) i parts start =
  splitHashedKey_loop hashedKey r2 (i + String.length r1) parts start.
Proof.
  revert i. induction r1 as [|c r1 IH]; intros i H; cbn [append String.length].
  - now rewrite Nat.add_0_r.
  - cbn in H. apply andb_prop in H as [Hc Hr].
    cbn [splitHashedKey_loop]. destruct (Ascii.eqb c ":"); [discriminate|].
    rewrite IH by exact Hr. f_equal. lia.
Qed.

(** Two separator-free segments, the second one not empty, joined by the
    separator, split into exactly these two. *)
Lemma splitHashedKey_join (e1 e2 : string) :
  colon_free e1 = true -> colon_free e2 = true -> e2 <> EmptyString ->
  splitHashedKey (e1 ++ ":" ++ e2) = Some [e1; e2].
Proof.
  intros H1 H2 Hne. unfold splitHashedKey.
  rewrite (loop_colon_free _ e1 (":" ++ e2) 0 [] 0 H1).
  cbn [append splitHashedKey_loop Ascii.eqb Bool.eqb Nat.add].
  rewrite slice_in_range; [| lia | rewrite length_append; lia].
  rewrite Nat.sub_0_r, substring_prefix.
  replace e2 with (e2 ++ "")%string at 2 by (clear; induction e2; cbn; congruence).
  rewrite (loop_colon_free _ e2 "" _ _ _ H2).
  cbn [splitHashedKey_loop app].
  assert (Hl : String.length (e1 ++ String ":" e2) = (S (String.length e1) + String.length e2)%nat)
    by (rewrite length_append; cbn; lia).
  destruct e2 as [|c e2']; [congruence|].
  destruct (Nat.ltb_spec (S (String.length e1)) (String.length (e1 ++ String ":" (String c e2'))));
    [| cbn in Hl; lia].
  rewrite slice_in_range by lia.
  rewrite Hl.
  replace (S (String.length e1) + String.length (String c e2') - S (String.length e1))%nat
    with (String.length (String c e2')) by lia.
  replace (e1 ++ String ":" (String c e2'))%string
    with ((e1 ++ ":") ++ String c e2')%string by (rewrite append_assoc; reflexivity).
  replace (S (String.length e1)) with (String.length (e1 ++ ":"))
    by (rewrite length_append; cbn; lia).
  rewrite substring_skip, substring_all. reflexivity.
Qed.

End split_facts.

(** ** The reference base64 codec meets the contract *)
Module base64_facts.
Import notions.
Import base64 split_facts.

Lemma dec6_enc6 (s : sextet) : dec6 (enc6 s) = Some s.
Proof.
  destruct s as [[[[[b5 b4] b3] b2] b1] b0].
  destruct b5, b4, b3, b2, b1, b0; reflexivity.
Qed.

Lemma enc6_not_pad (s : sextet) : Ascii.eqb (enc6 s) "=" = false.
Proof.
  destruct s as [[[[[b5 b4] b3] b2] b1] b0].
  destruct b5, b4, b3, b2, b1, b0; reflexivity.
Qed.

Lemma enc6_not_colon (s : sextet) : Ascii.eqb (enc6 s) ":" = false.
Proof.
  destruct s as [[[[[b5 b4] b3] b2] b1] b0].
  destruct b5, b4, b3, b2, b1, b0; reflexivity.
Qed.

Lemma unquad_quad (a b c : byte) :
  unquad (fst (fst (fst (quad a b c)))) (snd (fst (fst (quad a b c))))
         (snd (fst (quad a b c))) (snd (quad a b c)) = (a, b, c).
Proof.
  unfold quad.
  destruct (Byte.to_bits a) as (a0 & a1 & a2 & a3 & a4 & a5 & a6 & a7) eqn:Ea.
  destruct (Byte.to_bits b) as (b0 & b1 & b2 & b3 & b4 & b5 & b6 & b7) eqn:Eb.
  destruct (Byte.to_bits c) as (c0 & c1 & c2 & c3 & c4 & c5 & c6 & c7) eqn:Ec.
  cbn [fst snd unquad].
  rewrite <- Ea, <- Eb, <- Ec, !Byte.of_bits_to_bits. reflexivity.
Qed.

(** Induction on a list three elements at a time. *)
Lemma list_ind3 {A} (P : list A -> Prop) :
  P [] -> (forall a, P [a]) -> (forall a b, P [a; b]) ->
  (forall a b c l, P l -> P (a :: b :: c :: l)) ->
  forall l, P l.
Proof.
  intros H0 H1 H2 H3.
  fix IH 1. intros [|a [|b [|c l]]];
    [apply H0 | apply H1 | apply H2 | apply H3; apply IH].
Qed.

Lemma DecodeString_EncodeToString (src : list byte) :
  DecodeString (EncodeToString src) = Ok src.
Proof.
  induction src as [| a | a b | a b c l IH] using list_ind3.
  - reflexivity.
  - cbn [EncodeToString].
    pose proof (unquad_quad a x00 x00) as Hq.
    destruct (quad a x00 x00) as [[[s1 s2] s3] s4] eqn:Eq.
    cbn [fst snd] in Hq.
    assert (Hz : s3 = (false, false, false, false, false, false) /\
                 s4 = (false, false, false, false, false, false)).
    { unfold quad in Eq.
      destruct (Byte.to_bits a) as (a0 & a1 & a2 & a3 & a4 & a5 & a6 & a7).
      cbn in Eq. inversion Eq. auto. }
    destruct Hz as [-> ->].
    cbn [DecodeString]. cbn [Ascii.eqb Bool.eqb andb].
    rewrite !dec6_enc6.
    destruct s1 as [[[[[? ?] ?] ?] ?] ?], s2 as [[[[[? ?] ?] ?] ?] ?].
    cbn [unquad] in *. congruence.
  - cbn [EncodeToString].
    pose proof (unquad_quad a b x00) as Hq.
    destruct (quad a b x00) as [[[s1 s2] s3] s4] eqn:Eq.
    cbn [fst snd] in Hq.
    assert (Hz : s4 = (false, false, false, false, false, false)).
    { unfold quad in Eq.
      destruct (Byte.to_bits a) as (a0 & a1 & a2 & a3 & a4 & a5 & a6 & a7).
      destruct (Byte.to_bits b) as (b0 & b1 & b2 & b3 & b4 & b5 & b6 & b7).
      cbn in Eq. inversion Eq. auto. }
    subst s4.
    cbn [DecodeString]. rewrite enc6_not_pad. cbn [Ascii.eqb Bool.eqb andb].
    rewrite !dec6_enc6.
    destruct s1 as [[[[[? ?] ?] ?] ?] ?], s2 as [[[[[? ?] ?] ?] ?] ?],
             s3 as [[[[[? ?] ?] ?] ?] ?].
    cbn [unquad] in *. congruence.
  - cbn [EncodeToString].
    pose proof (unquad_quad a b c) as Hq.
    destruct (quad a b c) as [[[s1 s2] s3] s4] eqn:Eq.
    cbn [fst snd] in Hq.
    cbn [DecodeString]. rewrite !enc6_not_pad, !dec6_enc6, IH, Hq.
    destruct (EncodeToString l); reflexivity.
Qed.

Lemma EncodeToString_colon_free (src : list byte) :
  colon_free (EncodeToString src) = true.
Proof.
  induction src as [| a | a b | a b c l IH] using list_ind3.
  - reflexivity.
  - cbn [EncodeToString]. destruct (quad a x00 x00) as [[[s1 s2] s3] s4].
    cbn [colon_free]. rewrite !enc6_not_colon. reflexivity.
  - cbn [EncodeToString]. destruct (quad a b x00) as [[[s1 s2] s3] s4].
    cbn [colon_free]. rewrite !enc6_not_colon. reflexivity.
  - cbn [EncodeToString]. destruct (quad a b c) as [[[s1 s2] s3] s4].
    cbn [colon_free]. rewrite !enc6_not_colon, IH. reflexivity.
Qed.

Lemma EncodeToString_nonempty (src : list byte) :
  src <> [] -> EncodeToString src <> EmptyString.
Proof.
  destruct src as [|a [|b [|c l]]]; [congruence| | |]; intros _;
    cbn [EncodeToString].
  - destruct (quad a x00 x00) as [[[s1 s2] s3] s4]. discriminate.
  - destruct (quad a b x00) as [[[s1 s2] s3] s4]. discriminate.
  - destruct (quad a b c) as [[[s1 s2] s3] s4]. discriminate.
Qed.

End base64_facts.

(** ** CredentialStore *)
Module credential_facts.
Import notions.
Import split_facts bytes_facts.

Lemma In_all_bytes (b : byte) : In b all_bytes.
Proof.
  rewrite <- (Byte.of_bits_to_bits b).
  destruct (Byte.to_bits b) as (b0 & b1 & b2 & b3 & b4 & b5 & b6 & b7).
  assert (H : existsb (Byte.eqb (Byte.of_bits (b0, (b1, (b2, (b3, (b4, (b5, (b6, b7)))))))))
                      all_bytes = true)
    by (destruct b0, b1, b2, b3, b4, b5, b6, b7; vm_compute; reflexivity).
  apply existsb_exists in H as (x & Hin & Hx).
  apply Byte.byte_dec_bl in Hx. now subst.
Qed.

Lemma In_lists_of_length (k : list byte) :
  In k (lists_of_length (List.length k)).
Proof.
  induction k as [|b k IH]; cbn [List.length lists_of_length].
  - left. reflexivity.
  - apply in_flat_map. exists b. split; [apply In_all_bytes|].
    apply in_map. exact IH.
Qed.

Lemma letters_length (n : nat) : String.length (letters n) = n.
Proof. induction n; cbn; congruence. Qed.

Lemma letters_inj (i j : nat) : letters i = letters j -> i = j.
Proof. intros H. rewrite <- (letters_length i), <- (letters_length j), H. reflexivity. Qed.

(** A function from [0..n] to a set of [n] elements is not injective. *)
Lemma no_injection {B} (f : nat -> B) (codomain : list B) :
  (forall i, In (f i) codomain) ->
  ~ (forall i j, f i = f j -> i = j).
Proof.
  intros Hin Hinj.
  set (n := List.length codomain).
  assert (Hnd : NoDup (map f (seq 0 (S n)))).
  { apply NoDup_map_NoDup_ForallPairs; [|apply seq_NoDup].
    intros x y _ _. apply Hinj. }
  assert (Hincl : incl (map f (seq 0 (S n))) codomain).
  { intros y Hy. apply in_map_iff in Hy as (i & <- & _). apply Hin. }
  pose proof (NoDup_incl_length Hnd Hincl) as Hlen.
  rewrite length_map, length_seq in Hlen. fold n in Hlen. lia.
Qed.

Section CredentialStore.

Variable EncodeToString : list byte -> string.
Variable DecodeString : string -> Result (list byte).
Variable scrypt_Key : list byte -> list byte -> Z -> Z -> Z -> Z -> Result (list byte).

Local Abbreviation verify := (verifyAccessKey DecodeString scrypt_Key).
Local Abbreviation hashKey := (hashAccessKey EncodeToString scrypt_Key).
Local Abbreviation derive plainKey salt :=
  (scrypt_Key (list_byte_of_string plainKey) salt 32768 8 1 32).

(** The cases of [verifyAccessKey] once the stored form is split. *)
Lemma verifyAccessKey_cases (hashedKey plainKey : string) (parts : list string) :
  splitHashedKey hashedKey = Some parts ->
  (List.length parts <> 2%nat -> verify hashedKey plainKey = Some false) /\
  forall part0 part1, parts = [part0; part1] ->
    match DecodeString part0, DecodeString part1 with
    | Ok storedHash, Ok salt =>
        match derive plainKey salt with
        | Ok hash =>
            verify hashedKey plainKey = compareHashes storedHash hash /\
            compareHashes storedHash hash =
              Some (if (List.length storedHash =? List.length hash)%nat
                    then Byte.eqb (or_of_xors storedHash hash x00) x00
                    else false) /\
            (verify hashedKey plainKey = Some true <-> storedHash = hash)
        | Err _ => verify hashedKey plainKey = Some false
        end
    | _, _ => verify hashedKey plainKey = Some false
    end.
Proof.
  intros Hparts. unfold verifyAccessKey. rewrite Hparts. split.
  - intros Hlen. destruct (Nat.eqb_spec (List.length parts) 2); [contradiction|].
    reflexivity.
  - intros part0 part1 ->. cbn [List.length Nat.eqb negb nth_error].
    destruct (DecodeString part0) as [storedHash|]; [|reflexivity].
    destruct (DecodeString part1) as [salt|]; [|reflexivity].
    destruct (derive plainKey salt) as [hash|]; [|reflexivity].
    split; [reflexivity|]. split; [apply compareHashes_spec|].
    apply compareHashes_true_iff.
Qed.

(** [verifyAccessKey] never panics. *)
Lemma verifyAccessKey_returns (hashedKey plainKey : string) :
  exists b, verify hashedKey plainKey = Some b.
Proof.
  destruct (splitHashedKey_returns hashedKey) as [parts Hparts].
  destruct (verifyAccessKey_cases hashedKey plainKey parts Hparts) as [Hbad Hgood].
  destruct parts as [|p0 [|p1 [|p2 rest]]];
    try (exists false; apply Hbad; cbn; lia).
  specialize (Hgood p0 p1 eq_refl).
  destruct (DecodeString p0) as [storedHash|]; [|eauto].
  destruct (DecodeString p1) as [salt|]; [|eauto].
  destruct (derive plainKey salt) as [hash|]; [|eauto].
  destruct Hgood as (-> & -> & _). eauto.
Qed.

(** The contract of [base64.StdEncoding] that the stored form rests on. *)
Hypothesis DecodeString_EncodeToString :
  forall src, DecodeString (EncodeToString src) = Ok src.
Hypothesis EncodeToString_colon_free :
  forall src, colon_free (EncodeToString src) = true.
Hypothesis EncodeToString_nonempty :
  forall src, src <> [] -> EncodeToString src <> EmptyString.

(** The stored form of a hash verifies a plain key exactly when that key
    derives, with the stored salt, the stored key. *)
Lemma verify_hashed (salt : list byte) (s hashedKey : string) :
  List.length salt = 32%nat ->
  hashKey (Ok salt) s = Ok hashedKey ->
  forall s',
    (derive s' salt = derive s salt -> verify hashedKey s' = Some true) /\
    (derive s' salt <> derive s salt -> verify hashedKey s' = Some false).
Proof.
  intros Hsalt Hhash s'. unfold hashAccessKey in Hhash.
  destruct (derive s salt) as [key|] eqn:Hkey; [|discriminate].
  injection Hhash as <-.
  assert (Hne : salt <> []) by (intros ->; discriminate).
  unfold verifyAccessKey.
  change (String ":" (EncodeToString salt)) with (":" ++ EncodeToString salt)%string.
  rewrite (splitHashedKey_join _ _ (EncodeToString_colon_free key)
             (EncodeToString_colon_free salt) (EncodeToString_nonempty salt Hne)).
  cbn [List.length Nat.eqb negb nth_error].
  rewrite !DecodeString_EncodeToString.
  destruct (derive s' salt) as [key'|] eqn:Hkey'.
  - split.
    + intros E. injection E as ->. now apply compareHashes_true_iff.
    + intros E. destruct (compareHashes key key') as [[|]|] eqn:Hc.
      * apply compareHashes_true_iff in Hc. congruence.
      * reflexivity.
      * rewrite compareHashes_spec in Hc. discriminate.
  - split; [discriminate | reflexivity].
Qed.

(** C5, as amended.  The stored form that [createUser] computes for a
    secret [s] with a salt of 32 bytes verifies [s]; and it verifies
    another key [s'] exactly when [s'] derives the same key as [s] under
    that salt, so [Verify(Hash(s), s')] is [false] for every [s'] whose
    derived key differs. *)
Theorem verify_hash_roundtrip (salt : list byte) (s hashedKey : string) :
  List.length salt = 32%nat ->
  hashAccessKey EncodeToString scrypt_Key (Ok salt) s = Ok hashedKey ->
  verifyAccessKey DecodeString scrypt_Key hashedKey s = Some true /\
  forall s',
    (derive s' salt = derive s salt ->
     verifyAccessKey DecodeString scrypt_Key hashedKey s' = Some true) /\
    (derive s' salt <> derive s salt ->
     verifyAccessKey DecodeString scrypt_Key hashedKey s' = Some false).
Proof.
  intros Hsalt Hhash. split.
  - apply (verify_hashed salt s hashedKey Hsalt Hhash s). reflexivity.
  - apply (verify_hashed salt s hashedKey Hsalt Hhash).
Qed.

(** With keys of 32 bytes, two of the secrets [letters 0], [letters 1],
    ... derive the same key, and the stored form of one verifies the
    other: "false for every [s' <> s]" cannot hold. *)
Lemma distinct_secrets_collide :
  (forall password salt, exists key,
      scrypt_Key password salt 32768 8 1 32 = Ok key /\ List.length key = 32%nat) ->
  ~ (forall salt s s' hashedKey,
       List.length salt = 32%nat -> hashKey (Ok salt) s = Ok hashedKey ->
       s' <> s -> verify hashedKey s' = Some false).
Proof.
  intros Hkey Hclaim.
  set (salt := repeat x00 32).
  assert (Hsalt : List.length salt = 32%nat) by apply repeat_length.
  set (keyof := fun n => match derive (letters n) salt with Ok k => k | Err _ => [] end).
  apply (no_injection keyof (lists_of_length 32)).
  - intros i. unfold keyof.
    destruct (Hkey (list_byte_of_string (letters i)) salt) as (k & -> & Hlen).
    rewrite <- Hlen. apply In_lists_of_length.
  - intros i j Hij.
    destruct (Nat.eq_dec i j) as [E|Hne]; [exact E|exfalso].
    unfold keyof in Hij.
    destruct (Hkey (list_byte_of_string (letters i)) salt) as (ki & Hi & _).
    destruct (Hkey (list_byte_of_string (letters j)) salt) as (kj & Hj & _).
    rewrite Hi, Hj in Hij. subst kj.
    assert (Hhash : hashKey (Ok salt) (letters i)
                    = Ok (EncodeToString ki ++ ":" ++ EncodeToString salt)%string)
      by (unfold hashAccessKey; rewrite Hi; reflexivity).
    assert (Hfalse := Hclaim salt (letters i) (letters j) _ Hsalt Hhash
                        (fun E => Hne (eq_sym (letters_inj _ _ E)))).
    destruct (verify_hashed salt (letters i) _ Hsalt Hhash (letters j)) as [Htrue _].
    rewrite Htrue in Hfalse by (rewrite Hi, Hj; reflexivity).
    discriminate.
Qed.

(** C10. In [handleLogin] the access key is verified before the ban and
    freeze gates.  For a banned or frozen user, a wrong access key gets the
    401 "Invalid credentials" and only the right one gets a 403; and for
    every request, a 403 is sent only after [verifyAccessKey] returned
    [true]. *)
Theorem login_verifies_before_gates (req : LoginRequest.t) (session : Session)
    (db : DB) (user : User.t) :
  getUserByUsername db (LoginRequest.Username req) = Ok (Some user) ->
  User.IsBanned user = true \/ User.IsFrozen user = true ->
  (verify (User.AccessKey user) (LoginRequest.AccessKey req) = Some false ->
   handleLogin DecodeString scrypt_Key (Some req) session db =
   Some (writeErrorResponse StatusUnauthorized "Invalid credentials", session)) /\
  (verify (User.AccessKey user) (LoginRequest.AccessKey req) = Some true ->
   handleLogin DecodeString scrypt_Key (Some req) session db =
   Some (writeErrorResponse StatusForbidden
           (if User.IsBanned user then "Account is banned" else "Account is frozen"),
         session)) /\
  (forall message session',
     handleLogin DecodeString scrypt_Key (Some req) session db =
     Some (writeErrorResponse StatusForbidden message, session') ->
     verify (User.AccessKey user) (LoginRequest.AccessKey req) = Some true) /\
  exists r, handleLogin DecodeString scrypt_Key (Some req) session db = Some r.
Proof.
  intros Hfind Hgate. unfold handleLogin. rewrite Hfind.
  destruct (verifyAccessKey_returns (User.AccessKey user) (LoginRequest.AccessKey req))
    as [b Hb].
  rewrite Hb. repeat split.
  - intros E. injection E as ->. reflexivity.
  - intros E. injection E as ->.
    destruct (User.IsBanned user); [reflexivity|].
    destruct Hgate as [H|H]; [discriminate|]. rewrite H. reflexivity.
  - intros message session'. destruct b; [reflexivity|]. discriminate.
  - destruct b; [|eauto].
    destruct (User.IsBanned user); [eauto|]. destruct (User.IsFrozen user); eauto.
Qed.

End CredentialStore.

(** C5, counterexample.  No function with the signature of [scrypt.Key]
    that returns keys of 32 bytes makes the claim's second half true,
    whatever encoding meets the base64 contract: some stored form
    [Hash(s)] verifies a secret [s' <> s]. *)
Lemma no_kdf_rejects_every_other_secret :
  ~ exists (EncodeToString : list byte -> string)
           (DecodeString : string -> Result (list byte))
           (scrypt_Key : list byte -> list byte -> Z -> Z -> Z -> Z -> Result (list byte)),
      (forall src, DecodeString (EncodeToString src) = Ok src) /\
      (forall src, colon_free (EncodeToString src) = true) /\
      (forall src, src <> [] -> EncodeToString src <> EmptyString) /\
      (forall password salt, exists key,
          scrypt_Key password salt 32768 8 1 32 = Ok key /\ List.length key = 32%nat) /\
      (forall salt s s' hashedKey,
          List.length salt = 32%nat ->
          hashAccessKey EncodeToString scrypt_Key (Ok salt) s = Ok hashedKey ->
          s' <> s ->
          verifyAccessKey DecodeString scrypt_Key hashedKey s' = Some false).
Proof.
  intros (Enc & Dec & K & H1 & H2 & H3 & Hkey & Hclaim).
  exact (distinct_secrets_collide Enc Dec K H1 H2 H3 Hkey Hclaim).
Qed.

End credential_facts.

(** ** Lookups and updates on tables *)
Module store_facts.

Lemma find_app_none {A} (p : A -> bool) (l : list A) (x : A) :
  find p l = None -> find p (l ++ [x]) = if p x then Some x else None.
Proof.
  induction l as [|y l IH]; cbn; [reflexivity|].
  destruct (p y); [discriminate | exact IH].
Qed.

(** A lookup after an update that keeps the key is the update of the
    lookup. *)
Lemma find_map_keep {A} (p : A -> bool) (f : A -> A) (l : list A) :
  (forall x, p (f x) = p x) ->
  find p (map f l) = option_map f (find p l).
Proof.
  intros Hp. induction l as [|y l IH]; cbn; [reflexivity|].
  rewrite Hp. destruct (p y); [reflexivity | exact IH].
Qed.

(** Reading a user back after an [UPDATE ... WHERE id = $n] that keeps
    the id. *)
Lemma getUserByID_updated (db db' : DB) (id : string) (set : User.t -> User.t) :
  (forall u, User.ID (set u) = User.ID u) ->
  exec_update_user db id set = Ok db' ->
  forall userID,
    getUserByID db' userID =
    match getUserByID db userID with
    | Ok found =>
        Ok (option_map (fun u => if String.eqb (User.ID u) id then set u else u) found)
    | Err e => Err e
    end.
Proof.
  intros Hset Hexec userID. unfold exec_update_user in Hexec.
  injection Hexec as <-. unfold getUserByID. cbn [users]. f_equal.
  apply find_map_keep. intros x.
  destruct (String.eqb (User.ID x) id); [rewrite Hset|]; reflexivity.
Qed.

Lemma getUserByID_id (db : DB) (userID : string) (user : User.t) :
  getUserByID db userID = Ok (Some user) -> User.ID user = userID.
Proof.
  unfold getUserByID. intros H. injection H as H.
  apply find_some in H as [_ H]. now apply String.eqb_eq.
Qed.

End store_facts.

(** ** DeviceGate *)
Module device_facts.
Import notions.
Import store_facts.

Local Abbreviation by_server_id sid :=
  (fun d => String.eqb (DeviceFingerprint.ServerDeviceID d) sid).
Local Abbreviation lookup db sid := (find (by_server_id sid) (device_fingerprints db)).

(** What [Check] answers and what it stores, on an unseen device id. *)
Lemma upsertDevice_unseen (db : DB) (newID : string) (now : Z)
    (sid ip : string) (fp : DeviceCheckRequest.t) :
  lookup db sid = None ->
  upsertDevice db newID now sid ip fp =
  (Ok (DeviceCheckResponse.mk newID true 0 false (calculateRiskScore fp)),
   mkDB (users db)
        (device_fingerprints db ++
         [inserted_device newID now sid ip 0 2 false (calculateRiskScore fp) fp])).
Proof. intros H. unfold upsertDevice. rewrite H. reflexivity. Qed.

(** The same on a device id seen before. *)
Lemma upsertDevice_seen (db : DB) (newID : string) (now : Z)
    (sid ip : string) (fp : DeviceCheckRequest.t) (device : DeviceFingerprint.t) :
  lookup db sid = Some device ->
  upsertDevice db newID now sid ip fp =
  (Ok (DeviceCheckResponse.mk (DeviceFingerprint.ID device)
         (negb (DeviceFingerprint.Blocked device) &&
          (DeviceFingerprint.Registrations device <?
           DeviceFingerprint.MaxRegistrations device))
         (DeviceFingerprint.Registrations device)
         (DeviceFingerprint.Blocked device)
         (calculateRiskScore fp)),
   mkDB (users db)
        (map (fun d => if by_server_id sid d
                       then updated_device d now ip (calculateRiskScore fp) fp
                       else d)
             (device_fingerprints db))).
Proof. intros H. unfold upsertDevice. rewrite H. reflexivity. Qed.

Lemma eqb_refl_true (s : string) : String.eqb s s = true.
Proof. apply String.eqb_refl. Qed.

(** After [Check], the device id resolves to a row, and the answer is read
    off that row. *)
Lemma upsertDevice_answer (db : DB) (newID : string) (now : Z)
    (sid ip : string) (fp : DeviceCheckRequest.t) :
  exists r row,
    fst (upsertDevice db newID now sid ip fp) = Ok r /\
    lookup (snd (upsertDevice db newID now sid ip fp)) sid = Some row /\
    DeviceCheckResponse.DeviceID r = DeviceFingerprint.ID row /\
    DeviceCheckResponse.Registrations r = DeviceFingerprint.Registrations row /\
    DeviceCheckResponse.Blocked r = DeviceFingerprint.Blocked row /\
    DeviceCheckResponse.RiskScore r = calculateRiskScore fp /\
    DeviceCheckResponse.CanRegister r =
      negb (DeviceFingerprint.Blocked row) &&
      (DeviceFingerprint.Registrations row <? DeviceFingerprint.MaxRegistrations row).
Proof.
  destruct (lookup db sid) as [device|] eqn:Hfind.
  - rewrite (upsertDevice_seen db newID now sid ip fp device Hfind). cbn [fst snd].
    eexists. exists (updated_device device now ip (calculateRiskScore fp) fp).
    split; [reflexivity|]. split; [|cbn; repeat split].
    cbn [device_fingerprints].
    rewrite (find_map_keep (by_server_id sid)
               (fun d => if by_server_id sid d
                         then updated_device d now ip (calculateRiskScore fp) fp else d)).
    + rewrite Hfind. cbn [option_map].
      apply find_some in Hfind as [_ Hsid]. rewrite Hsid. reflexivity.
    + intros x. destruct (by_server_id sid x) eqn:E; [cbn; exact E | exact E].
  - rewrite (upsertDevice_unseen db newID now sid ip fp Hfind). cbn [fst snd].
    eexists. exists (inserted_device newID now sid ip 0 2 false (calculateRiskScore fp) fp).
    split; [reflexivity|]. split; [|cbn; repeat split].
    cbn [device_fingerprints]. rewrite (find_app_none _ _ _ Hfind).
    cbn. rewrite eqb_refl_true. reflexivity.
Qed.

(** [Link] on the row that a lookup by device id finds. *)
Lemma linkUserToDevice_lookup (db : DB) (now : Z) (userID deviceID sid : string) :
  lookup (snd (linkUserToDevice db now userID deviceID)) sid =
  option_map (fun d => if String.eqb (DeviceFingerprint.ID d) deviceID
                       then linked_device d now else d)
             (lookup db sid).
Proof.
  unfold linkUserToDevice. cbn [snd device_fingerprints].
  apply find_map_keep. intros x.
  destruct (String.eqb (DeviceFingerprint.ID x) deviceID); reflexivity.
Qed.

(** Rows with the same id are the same row when ids are unique. *)
Lemma unique_id_row (l : list DeviceFingerprint.t) (d d' : DeviceFingerprint.t) :
  NoDup (map DeviceFingerprint.ID l) -> In d l -> In d' l ->
  DeviceFingerprint.ID d = DeviceFingerprint.ID d' -> d = d'.
Proof.
  induction l as [|x l IH]; cbn; [tauto|].
  intros Hnd [->|Hd] [->|Hd'] Hid; inversion Hnd as [|? ? Hnotin Hnd']; subst.
  - reflexivity.
  - exfalso. apply Hnotin. rewrite Hid. now apply in_map.
  - exfalso. apply Hnotin. rewrite <- Hid. now apply in_map.
  - now apply IH.
Qed.

Lemma map_ID_update (l : list DeviceFingerprint.t)
    (f : DeviceFingerprint.t -> DeviceFingerprint.t) :
  (forall d, DeviceFingerprint.ID (f d) = DeviceFingerprint.ID d) ->
  map DeviceFingerprint.ID (map f l) = map DeviceFingerprint.ID l.
Proof.
  intros Hf. rewrite map_map. apply map_ext. exact Hf.
Qed.

(** [Check] keeps the invariant when the store hands out a fresh row id. *)
Lemma upsertDevice_invariant (db : DB) (newID : string) (now : Z)
    (sid ip : string) (fp : DeviceCheckRequest.t) :
  cap_invariant db ->
  ~ In newID (map DeviceFingerprint.ID (device_fingerprints db)) ->
  cap_invariant (snd (upsertDevice db newID now sid ip fp)).
Proof.
  intros [Hnd Hcap] Hfresh.
  destruct (lookup db sid) as [device|] eqn:Hfind.
  - rewrite (upsertDevice_seen db newID now sid ip fp device Hfind).
    cbn [snd]. split; cbn [device_fingerprints].
    + rewrite map_ID_update; [exact Hnd|].
      intros d. destruct (by_server_id sid d); reflexivity.
    + apply Forall_map. eapply Forall_impl; [|exact Hcap].
      intros d Hd. destruct (by_server_id sid d); exact Hd.
  - rewrite (upsertDevice_unseen db newID now sid ip fp Hfind).
    cbn [snd]. split; cbn [device_fingerprints].
    + rewrite map_app. cbn [map inserted_device DeviceFingerprint.ID].
      apply NoDup_app; [exact Hnd | repeat constructor; cbn; tauto |].
      intros x Hx [<-|[]]. exact (Hfresh Hx).
    + apply Forall_app. split; [exact Hcap|].
      repeat constructor. unfold within_cap. cbn. lia.
Qed.

(** [Link] with the id of a row that can still register keeps the
    invariant. *)
Lemma linkUserToDevice_invariant (db : DB) (now : Z) (userID : string)
    (row : DeviceFingerprint.t) :
  cap_invariant db ->
  In row (device_fingerprints db) ->
  DeviceFingerprint.Registrations row < DeviceFingerprint.MaxRegistrations row ->
  cap_invariant (snd (linkUserToDevice db now userID (DeviceFingerprint.ID row))).
Proof.
  intros [Hnd Hcap] Hin Hlt. unfold linkUserToDevice. cbn [snd].
  split; cbn [device_fingerprints].
  - rewrite map_ID_update; [exact Hnd|].
    intros d. destruct (String.eqb (DeviceFingerprint.ID d) (DeviceFingerprint.ID row));
      reflexivity.
  - apply Forall_map. rewrite Forall_forall in *. intros d Hd.
    destruct (String.eqb_spec (DeviceFingerprint.ID d) (DeviceFingerprint.ID row)) as [E|_].
    + rewrite (unique_id_row _ d row Hnd Hd Hin E).
      unfold within_cap. cbn. lia.
    + apply Hcap. exact Hd.
Qed.

(** The risk score adds 10 for a missing user agent, 5 for a missing
    screen resolution, 15 for a missing canvas fingerprint and 10 for a
    missing WebGL fingerprint; the time zone, the language and the audio
    fingerprint do not enter it. *)
Theorem risk_score_is_additive (serverDeviceID userAgent screenResolution
    timezone language canvas webgl audio : string) :
  calculateRiskScore
    (DeviceCheckRequest.mk serverDeviceID userAgent screenResolution timezone language
       canvas webgl audio) =
  (if String.eqb userAgent "" then 10 else 0) +
  (if String.eqb screenResolution "" then 5 else 0) +
  (if String.eqb canvas "" then 15 else 0) +
  (if String.eqb webgl "" then 10 else 0).
Proof.
  unfold calculateRiskScore. cbn.
  destruct (String.eqb userAgent ""), (String.eqb screenResolution ""),
    (String.eqb canvas ""), (String.eqb webgl ""); reflexivity.
Qed.

(** C7. [Check] leaves the users alone.  On an unseen device id it appends
    exactly one row, with registrations 0, cap 2, not blocked and the risk
    score of the signals.  On a seen id it keeps the number of rows and, in
    every row, the id, the device id, the registrations, the cap, the
    blocked flag and the creation time; rows of other devices are
    unchanged, and the rows of this device take the new IP, the new signals
    and the recomputed risk score. *)
Theorem check_creates_or_refreshes (db : DB) (newID : string) (now : Z)
    (sid ip : string) (fp : DeviceCheckRequest.t) :
  let db' := snd (upsertDevice db newID now sid ip fp) in
  users db' = users db /\
  (lookup db sid = None ->
   exists row,
     device_fingerprints db' = device_fingerprints db ++ [row] /\
     DeviceFingerprint.ID row = newID /\
     DeviceFingerprint.ServerDeviceID row = sid /\
     DeviceFingerprint.Registrations row = 0 /\
     DeviceFingerprint.MaxRegistrations row = 2 /\
     DeviceFingerprint.Blocked row = false /\
     DeviceFingerprint.RiskScore row = calculateRiskScore fp) /\
  (lookup db sid <> None ->
   List.length (device_fingerprints db') = List.length (device_fingerprints db) /\
   Forall2
     (fun d d' =>
        DeviceFingerprint.ID d' = DeviceFingerprint.ID d /\
        DeviceFingerprint.ServerDeviceID d' = DeviceFingerprint.ServerDeviceID d /\
        DeviceFingerprint.Registrations d' = DeviceFingerprint.Registrations d /\
        DeviceFingerprint.MaxRegistrations d' = DeviceFingerprint.MaxRegistrations d /\
        DeviceFingerprint.Blocked d' = DeviceFingerprint.Blocked d /\
        DeviceFingerprint.CreatedAt d' = DeviceFingerprint.CreatedAt d /\
        (DeviceFingerprint.ServerDeviceID d <> sid -> d' = d) /\
        (DeviceFingerprint.ServerDeviceID d = sid ->
         DeviceFingerprint.LastIP d' = Some ip /\
         DeviceFingerprint.RiskScore d' = calculateRiskScore fp /\
         DeviceFingerprint.UserAgent d' = DeviceCheckRequest.UserAgent fp /\
         DeviceFingerprint.ScreenResolution d' = DeviceCheckRequest.ScreenResolution fp /\
         DeviceFingerprint.Timezone d' = DeviceCheckRequest.Timezone fp /\
         DeviceFingerprint.Language d' = DeviceCheckRequest.Language fp /\
         DeviceFingerprint.CanvasFingerprint d' = DeviceCheckRequest.CanvasFingerprint fp /\
         DeviceFingerprint.WebGLFingerprint d' = DeviceCheckRequest.WebGLFingerprint fp /\
         DeviceFingerprint.AudioFingerprint d' = DeviceCheckRequest.AudioFingerprint fp))
     (device_fingerprints db) (device_fingerprints db')).
Proof.
  cbv zeta. destruct (lookup db sid) as [device|] eqn:Hfind.
  - rewrite (upsertDevice_seen db newID now sid ip fp device Hfind). cbn [snd users].
    split; [reflexivity|]. split; [discriminate|]. intros _.
    cbn [device_fingerprints]. split; [apply length_map|].
    clear Hfind. induction (device_fingerprints db) as [|d l IH]; cbn [map]; constructor.
    + destruct (String.eqb_spec (DeviceFingerprint.ServerDeviceID d) sid) as [E|E].
      * cbn. repeat split; congruence.
      * repeat split; try reflexivity; congruence.
    + exact IH.
  - rewrite (upsertDevice_unseen db newID now sid ip fp Hfind). cbn [snd users].
    split; [reflexivity|]. split; [|congruence]. intros _.
    eexists. split; [reflexivity|]. cbn. repeat split.
Qed.

(** C6. Starting from a store whose rows are within their caps (and have
    unique ids), with a fresh id for a possible insert: [Check] answers
    [canRegister = !blocked && registrations < maxRegistrations] for the row
    of the device, so [false] when the row is blocked or at its cap,
    whatever the signals; a [Link] with the returned id after an answer
    [canRegister = true] adds exactly 1 to the registrations of that row
    and leaves it within its cap; and the store after [Check], and after
    [Check] followed by that [Link], is again within the caps. *)
Theorem registrations_stay_within_cap (db : DB) (newID : string) (now : Z)
    (sid ip : string) (fp : DeviceCheckRequest.t) (userID : string) :
  cap_invariant db ->
  ~ In newID (map DeviceFingerprint.ID (device_fingerprints db)) ->
  let db1 := snd (upsertDevice db newID now sid ip fp) in
  (exists r row,
     fst (upsertDevice db newID now sid ip fp) = Ok r /\
     lookup db1 sid = Some row /\
     DeviceCheckResponse.CanRegister r =
       negb (DeviceFingerprint.Blocked row) &&
       (DeviceFingerprint.Registrations row <? DeviceFingerprint.MaxRegistrations row) /\
     (DeviceFingerprint.Blocked row = true \/
      DeviceFingerprint.MaxRegistrations row <= DeviceFingerprint.Registrations row ->
      DeviceCheckResponse.CanRegister r = false) /\
     (DeviceCheckResponse.CanRegister r = true ->
      exists row',
        lookup (snd (linkUserToDevice db1 now userID (DeviceCheckResponse.DeviceID r))) sid
          = Some row' /\
        DeviceFingerprint.Registrations row' = DeviceFingerprint.Registrations row + 1 /\
        DeviceFingerprint.MaxRegistrations row' = DeviceFingerprint.MaxRegistrations row /\
        DeviceFingerprint.Registrations row' <= DeviceFingerprint.MaxRegistrations row')) /\
  cap_invariant db1 /\
  cap_invariant (check_then_link db newID now sid ip fp userID).
Proof.
  intros Hinv Hfresh. cbv zeta.
  pose proof (upsertDevice_invariant db newID now sid ip fp Hinv Hfresh) as Hinv1.
  destruct (upsertDevice_answer db newID now sid ip fp)
    as (r & row & Hr & Hrow & Hid & _ & _ & _ & Hcan).
  assert (Hlink : DeviceCheckResponse.CanRegister r = true ->
            DeviceFingerprint.Registrations row < DeviceFingerprint.MaxRegistrations row).
  { rewrite Hcan. intros H. apply andb_prop in H as [_ H]. now apply Z.ltb_lt. }
  split; [|split; [exact Hinv1|]].
  - exists r, row. split; [exact Hr|]. split; [exact Hrow|]. split; [exact Hcan|].
    split.
    + rewrite Hcan. intros [->|H]; [reflexivity|].
      apply Z.ltb_ge in H. rewrite H. apply andb_false_r.
    + intros Htrue. specialize (Hlink Htrue).
      rewrite linkUserToDevice_lookup, Hrow, Hid. cbn [option_map].
      rewrite eqb_refl_true. eexists. split; [reflexivity|]. cbn. lia.
  - unfold check_then_link.
    destruct (upsertDevice db newID now sid ip fp) as [res db1] eqn:Eup.
    cbn [fst snd] in *. subst res.
    destruct (DeviceCheckResponse.CanRegister r) eqn:Ecan; [|exact Hinv1].
    rewrite Hid. apply linkUserToDevice_invariant; [exact Hinv1| |auto].
    apply find_some in Hrow. tauto.
Qed.

End device_facts.

(** ** SessionAuthority *)
Module session_facts.
Import notions.
Import store_facts.

(** Validation reads the row of the session's user in the store of the
    request and decides on that row alone. *)
Lemma authMiddleware_cases (next : Context -> DB -> Response * DB)
    (userID : string) (db : DB) :
  userID <> EmptyString ->
  authMiddleware next (Some userID) db =
  match getUserByID db userID with
  | Ok (Some user) =>
      if User.IsBanned user then (AccountBanned, db)
      else if User.IsFrozen user then (AccountFrozen, db)
      else next (Some user) db
  | _ => (InvalidSession, db)
  end.
Proof.
  intros Hne. unfold authMiddleware.
  destruct (String.eqb_spec userID ""); [contradiction|].
  destruct (getUserByID db userID) as [[user|]|]; reflexivity.
Qed.

(** C8. For a session bound to a user id, validation reads the user row
    from the store as it is at the request: a missing user gives "Invalid
    session" (401), else a banned user "Account is banned" (403), else a
    frozen user "Account is frozen" (403), else the handler runs with the
    row just read.  The three errors differ.  Hence when a user who passed
    validation is banned, the same session fails on the next request. *)
Theorem session_validation_reads_fresh_state (next : Context -> DB -> Response * DB)
    (userID : string) (db : DB) :
  userID <> EmptyString ->
  (getUserByID db userID = Ok None ->
   authMiddleware next (Some userID) db = (InvalidSession, db)) /\
  (forall user, getUserByID db userID = Ok (Some user) ->
     (User.IsBanned user = true ->
      authMiddleware next (Some userID) db = (AccountBanned, db)) /\
     (User.IsBanned user = false -> User.IsFrozen user = true ->
      authMiddleware next (Some userID) db = (AccountFrozen, db)) /\
     (User.IsBanned user = false -> User.IsFrozen user = false ->
      authMiddleware next (Some userID) db = next (Some user) db)) /\
  (InvalidSession <> AccountBanned /\ InvalidSession <> AccountFrozen /\
   AccountBanned <> AccountFrozen) /\
  (forall user db',
     getUserByID db userID = Ok (Some user) ->
     User.IsBanned user = false -> User.IsFrozen user = false ->
     ban db userID = Ok db' ->
     authMiddleware next (Some userID) db = next (Some user) db /\
     authMiddleware next (Some userID) db' = (AccountBanned, db')).
Proof.
  intros Hne. pose proof (authMiddleware_cases next userID) as Hcases.
  split; [|split; [|split]].
  - intros H. rewrite Hcases, H by exact Hne. reflexivity.
  - intros user H. rewrite Hcases, H by exact Hne.
    repeat split; intros; repeat match goal with E : _ = _ |- _ => rewrite E end;
      reflexivity.
  - repeat split; discriminate.
  - intros user db' Hfind Hb Hf Hban. split.
    + rewrite Hcases, Hfind, Hb, Hf by exact Hne. reflexivity.
    + rewrite Hcases by exact Hne.
      rewrite (getUserByID_updated db db' userID (fun u => User.set_is_banned u true)
                 (fun u => eq_refl) Hban), Hfind.
      cbn [option_map]. rewrite (getUserByID_id _ _ _ Hfind), String.eqb_refl.
      reflexivity.
Qed.

End session_facts.

(** ** The amount of a purchase: float64 and its decimal *)
Module float64_facts.
Import float64.

Lemma toQ_one : (toQ one == 1)%Q.
Proof. vm_compute. reflexivity. Qed.

Lemma two_pow_pos (e : Z) : (0 < 2 ^ e)%Q.
Proof. apply Qpower_0_lt. reflexivity. Qed.

(** [x < 1] fails exactly when [1 <= x]. *)
Lemma ltb_one_false (x : t) : ltb x one = false <-> (1 <= toQ x)%Q.
Proof.
  unfold ltb. rewrite Bool.negb_false_iff, Qle_bool_iff, toQ_one. reflexivity.
Qed.

Lemma ltb_one_true (x : t) : ltb x one = true <-> (toQ x < 1)%Q.
Proof.
  unfold ltb. rewrite Bool.negb_true_iff, <- Bool.not_true_iff_false, Qle_bool_iff, toQ_one.
  split; [apply Qnot_le_lt | apply Qlt_not_le].
Qed.

(** A float that is at least 1 has a positive sign. *)
Lemma ge_one_positive (x : t) :
  0 < mant x -> (1 <= toQ x)%Q -> neg x = false.
Proof.
  intros Hm Hx. destruct (neg x) eqn:Hneg; [exfalso|reflexivity].
  unfold toQ in Hx. rewrite Hneg in Hx.
  assert (Hpos : (0 < inject_Z (mant x) * 2 ^ bexp x)%Q).
  { apply Qmult_lt_0_compat; [|apply two_pow_pos].
    change 0%Q with (inject_Z 0). rewrite <- Zlt_Qlt. exact Hm. }
  apply (Qlt_irrefl 0).
  apply Qlt_le_trans with 1%Q; [reflexivity|].
  apply Qle_trans with (-1 * inject_Z (mant x) * 2 ^ bexp x)%Q; [exact Hx|].
  setoid_replace (-1 * inject_Z (mant x) * 2 ^ bexp x)%Q
    with (- (inject_Z (mant x) * 2 ^ bexp x))%Q by ring.
  apply Qlt_le_weak. apply Qopp_lt_compat in Hpos. exact Hpos.
Qed.

Lemma round_half_even_nonneg (n d : Z) : 0 <= n -> 0 < d -> 0 <= round_half_even n d.
Proof.
  intros Hn Hd. unfold round_half_even.
  assert (0 <= n / d) by (apply Z.div_pos; lia).
  destruct (2 * (n mod d) ?= d); [destruct (Z.even (n / d))| |]; lia.
Qed.

Lemma scale10_pos (n d s : Z) :
  0 <= n -> 0 < d -> 0 <= fst (scale10 n d s) /\ 0 < snd (scale10 n d s).
Proof.
  intros Hn Hd. unfold scale10.
  destruct (Z.leb_spec 0 s); cbn [fst snd].
  - split; [lia|]. apply Z.mul_pos_pos; [lia|]. apply Z.pow_pos_nonneg; lia.
  - split; [|lia]. apply Z.mul_nonneg_nonneg; [lia|]. apply Z.pow_nonneg. lia.
Qed.

Lemma shortest_at_nonneg (x : t) (n d p : Z) (digits : nat) (c : Decimal) :
  0 <= n -> 0 < d ->
  shortest_at x n d p digits = Some c -> 0 <= decimal.value c.
Proof.
  intros Hn Hd. unfold shortest_at.
  destruct (scale10_pos n d (p - (Z.of_nat digits - 1)) Hn Hd) as [Hn1 Hd1].
  destruct (scale10 n d (p - (Z.of_nat digits - 1))) as [n1 d1]. cbn [fst snd] in *.
  assert (Hlo : 0 <= n1 / d1) by (apply Z.div_pos; lia).
  pose proof (round_half_even_nonneg n1 d1 Hn1 Hd1).
  repeat match goal with
         | |- context [match ?b with _ => _ end] => destruct b
         end; intros E; try discriminate; injection E as <-; cbn; lia.
Qed.

Lemma shortest_from_nonneg (x : t) (n d p : Z) (fuel digits : nat) (c : Decimal) :
  0 <= n -> 0 < d ->
  shortest_from x n d p digits fuel = Some c -> 0 <= decimal.value c.
Proof.
  intros Hn Hd. revert digits. induction fuel as [|fuel IH]; intros digits; cbn.
  - discriminate.
  - destruct (shortest_at x n d p digits) as [c'|] eqn:E.
    + intros H. injection H as <-. eapply shortest_at_nonneg; eauto.
    + apply IH.
Qed.

(** The decimal of an amount that passed the minimum test is not
    negative. *)
Lemma NewFromFloat_nonneg (x : t) :
  ltb x one = false -> 0 <= decimal.value (NewFromFloat x).
Proof.
  intros Hx. apply ltb_one_false in Hx. unfold NewFromFloat.
  destruct (Z.leb_spec (mant x) 0) as [|Hm]; [cbn; lia|].
  rewrite (ge_one_positive x Hm Hx).
  assert (Hfrac : 0 <= fst (fraction2 x) /\ 0 < snd (fraction2 x)).
  { unfold fraction2. destruct (Z.leb_spec 0 (bexp x)); cbn [fst snd].
    - split; [|lia]. apply Z.mul_nonneg_nonneg; [lia|]. apply Z.pow_nonneg. lia.
    - split; [lia|]. apply Z.pow_pos_nonneg; lia. }
  destruct (fraction2 x) as [n d]. cbn [fst snd] in Hfrac. destruct Hfrac as [Hn Hd].
  assert (Hexact : 0 <= decimal.value (exact x)).
  { unfold exact. destruct (Z.leb_spec 0 (bexp x)); cbn [decimal.value];
      (apply Z.mul_nonneg_nonneg; [lia|]; apply Z.pow_nonneg; lia). }
  cbv zeta. destruct (log10_floor n d) as [p|]; [|exact Hexact].
  destruct (shortest_from x n d p 1 17) as [c|] eqn:E.
  - exact (shortest_from_nonneg x n d p 17 1 c Hn Hd E).
  - exact Hexact.
Qed.

Lemma base_nonzero (b : Z) : 0 < b -> ~ (inject_Z b == 0)%Q.
Proof.
  intros Hb H. unfold Qeq in H. cbn in H. lia.
Qed.

(** [b^k * b^-k = 1]. *)
Lemma pow_opp_cancel (b k : Z) : 0 < b -> (inject_Z b ^ (- k) * inject_Z b ^ k == 1)%Q.
Proof.
  intros Hb. rewrite <- Qpower_plus by (apply base_nonzero; exact Hb).
  replace (- k + k) with 0 by lia. reflexivity.
Qed.

(** [1 <= c * b^k] over the integers. *)
Lemma mul_pow_ge_one (b c k : Z) :
  0 < b ->
  (1 <= inject_Z c * inject_Z b ^ k)%Q <->
  (0 <= k -> 1 <= c * b ^ k) /\ (k < 0 -> b ^ (- k) <= c).
Proof.
  intros Hb. destruct (Z.lt_ge_cases k 0) as [Hk|Hk].
  - assert (E : (inject_Z c * inject_Z b ^ k ==
                 inject_Z c / inject_Z (b ^ (- k)))%Q).
    { rewrite Zpower_Qpower by lia. unfold Qdiv. rewrite <- Qpower_opp.
      replace (- - k) with k by lia. reflexivity. }
    rewrite E.
    assert (Hpos : (0 < inject_Z (b ^ (- k)))%Q).
    { change 0%Q with (inject_Z 0). rewrite <- Zlt_Qlt. apply Z.pow_pos_nonneg; lia. }
    split.
    + intros H. split; [lia|]. intros _.
      apply (Qmult_le_r _ _ _ Hpos) in H.
      rewrite Qmult_1_l in H. unfold Qdiv in H.
      rewrite <- Qmult_assoc, (Qmult_comm (/ _)), Qmult_inv_r, Qmult_1_r in H
        by (intros E0; rewrite E0 in Hpos; exact (Qlt_irrefl _ Hpos)).
      rewrite <- Zle_Qle in H. exact H.
    + intros [_ H]. specialize (H Hk).
      apply (Qmult_le_r _ _ _ Hpos).
      rewrite Qmult_1_l. unfold Qdiv.
      rewrite <- Qmult_assoc, (Qmult_comm (/ _)), Qmult_inv_r, Qmult_1_r
        by (intros E0; rewrite E0 in Hpos; exact (Qlt_irrefl _ Hpos)).
      rewrite <- Zle_Qle. exact H.
  - rewrite <- Zpower_Qpower, <- inject_Z_mult by lia.
    change 1%Q with (inject_Z 1). rewrite <- Zle_Qle.
    split; [intros H; split; [auto | lia] | intros [H _]; auto].
Qed.

Lemma round_half_even_cases (n d : Z) :
  round_half_even n d = n / d \/ round_half_even n d = n / d + 1.
Proof.
  unfold round_half_even.
  destruct (2 * (n mod d) ?= d); [destruct (Z.even (n / d))| |]; auto.
Qed.

Lemma round_half_even_ge (n d : Z) : n / d <= round_half_even n d.
Proof. destruct (round_half_even_cases n d); lia. Qed.

Lemma pick_exp_le (n d : Z) :
  pick_exp n d <= Z.max (Z.log2 n - Z.log2 d - 52) (-1074).
Proof.
  unfold pick_exp.
  destruct (scale2 n d (Z.log2 n - Z.log2 d - 53 + 1)) as [n1 d1].
  destruct (2 ^ 52 <=? n1 / d1); lia.
Qed.

(** With [n >= d], the mantissa rounded at the chosen exponent is at least
    [2^-e], and at least 1 when the exponent is not negative. *)
Lemma rounded_mantissa_ge (n d : Z) :
  0 < d -> d <= n ->
  let e := pick_exp n d in
  let m := round_half_even (fst (scale2 n d e)) (snd (scale2 n d e)) in
  (0 <= e -> 1 <= m) /\ (e < 0 -> 2 ^ (- e) <= m).
Proof.
  intros Hd Hn e m. subst m. pose proof (pick_exp_le n d) as He. fold e in He.
  unfold scale2. destruct (Z.leb_spec 0 e) as [Hpos|Hneg]; cbn [fst snd].
  - split; [intros _|lia].
    eapply Z.le_trans; [|apply round_half_even_ge].
    assert (H2e : 0 < 2 ^ e) by (apply Z.pow_pos_nonneg; lia).
    apply Z.div_le_lower_bound; [lia|]. rewrite Z.mul_1_r.
    assert (Hle : e <= Z.log2 n - Z.log2 d - 52) by lia.
    destruct (Z.log2_spec n) as [Hn1 _]; [lia|].
    destruct (Z.log2_spec d) as [_ Hd2]; [lia|].
    assert (Hld : 0 <= Z.log2 d) by apply Z.log2_nonneg.
    assert (Hstep : d * 2 ^ e <= 2 ^ (Z.succ (Z.log2 d)) * 2 ^ e) by nia.
    rewrite <- Z.pow_add_r in Hstep by lia.
    assert (Hmono : 2 ^ (Z.succ (Z.log2 d) + e) <= 2 ^ Z.log2 n)
      by (apply Z.pow_le_mono_r; lia).
    lia.
  - split; [lia|intros _].
    eapply Z.le_trans; [|apply round_half_even_ge].
    assert (H2e : 0 < 2 ^ (- e)) by (apply Z.pow_pos_nonneg; lia).
    apply Z.div_le_lower_bound; [lia|]. nia.
Qed.

Lemma toQ_positive (m e : Z) :
  (toQ (mk false m e) == inject_Z m * inject_Z 2 ^ e)%Q.
Proof. unfold toQ. cbn [neg mant bexp]. change (2%Q) with (inject_Z 2). ring. Qed.

Lemma scale2_pos (n d e : Z) :
  0 <= n -> 0 < d -> 0 <= fst (scale2 n d e) /\ 0 < snd (scale2 n d e).
Proof.
  intros Hn Hd. unfold scale2.
  destruct (Z.leb_spec 0 e); cbn [fst snd].
  - split; [lia|]. apply Z.mul_pos_pos; [lia|]. apply Z.pow_pos_nonneg; lia.
  - split; [|lia]. apply Z.mul_nonneg_nonneg; [lia|]. apply Z.pow_nonneg. lia.
Qed.

Lemma fraction10_pos (c k : Z) :
  0 <= fst (fraction10 c k) /\ 0 < snd (fraction10 c k).
Proof.
  unfold fraction10. destruct (Z.leb_spec 0 k); cbn [fst snd].
  - split; [|lia]. apply Z.mul_nonneg_nonneg; [lia|]. apply Z.pow_nonneg. lia.
  - split; [lia|]. apply Z.pow_pos_nonneg; lia.
Qed.

(** What [round_pos] returns on a positive fraction. *)
Lemma round_pos_result (sign : bool) (n d : Z) (y : t) :
  0 < n -> round_pos sign n d = Some y ->
  let e := pick_exp n d in
  let m := round_half_even (fst (scale2 n d e)) (snd (scale2 n d e)) in
  y = (if m =? 2 ^ 53 then mk sign (2 ^ 52) (e + 1) else mk sign m e).
Proof.
  intros Hn. unfold round_pos.
  destruct (Z.eqb_spec n 0); [lia|].
  destruct (scale2 n d (pick_exp n d)) as [n1 d1]. cbn [fst snd].
  destruct (round_half_even n1 d1 =? 2 ^ 53);
    match goal with |- context [if ?b then None else _] => destruct b end;
    intros H; try discriminate; injection H as <-; reflexivity.
Qed.

(** A float that comes out of the decoder has a mantissa that is not
    negative. *)
Lemma decode_mant_nonneg (lit : Decimal) (x : t) :
  decode lit = Some x -> 0 <= mant x.
Proof.
  unfold decode.
  destruct (fraction10_pos (decimal.value lit) (decimal.exp lit)) as [Hn Hd].
  destruct (fraction10 (decimal.value lit) (decimal.exp lit)) as [n d].
  cbn [fst snd] in *.
  destruct (Z.eq_dec n 0) as [->|Hn0].
  - unfold round_pos. cbn. intros H. injection H as <-. cbn. lia.
  - intros H. apply round_pos_result in H; [|lia]. cbv zeta in H.
    destruct (scale2_pos n d (pick_exp n d) Hn Hd) as [Hn1 Hd1].
    pose proof (round_half_even_ge (fst (scale2 n d (pick_exp n d)))
                  (snd (scale2 n d (pick_exp n d)))) as Hge.
    assert (0 <= fst (scale2 n d (pick_exp n d)) / snd (scale2 n d (pick_exp n d)))
      by (apply Z.div_pos; lia).
    subst x. destruct (_ =? 2 ^ 53); cbn [mant]; lia.
Qed.

(** Decoding is monotone at 1: a number that is at least 1 decodes to a
    float that is at least 1. *)
Lemma decode_ge_one (lit : Decimal) (y : t) :
  decode lit = Some y -> (1 <= decimal.toQ lit)%Q -> (1 <= toQ y)%Q.
Proof.
  unfold decode, decimal.toQ. intros Hdec Hlit.
  apply (mul_pow_ge_one 10) in Hlit as [Hk0 Hk1]; [|lia].
  set (v := decimal.value lit) in *. set (k := decimal.exp lit) in *.
  assert (Hv : 0 < v).
  { destruct (Z.lt_ge_cases k 0) as [Hk|Hk].
    - specialize (Hk1 Hk). assert (0 < 10 ^ (- k)) by (apply Z.pow_pos_nonneg; lia). lia.
    - specialize (Hk0 Hk). assert (0 < 10 ^ k) by (apply Z.pow_pos_nonneg; lia). nia. }
  assert (Hfrac : 0 < snd (fraction10 v k) /\ snd (fraction10 v k) <= fst (fraction10 v k)).
  { unfold fraction10. rewrite Z.abs_eq by lia.
    destruct (Z.leb_spec 0 k) as [Hk|Hk]; cbn [fst snd].
    - specialize (Hk0 Hk). lia.
    - specialize (Hk1 Hk). split; [apply Z.pow_pos_nonneg; lia | lia]. }
  destruct (fraction10 v k) as [n d]. cbn [fst snd] in Hfrac. destruct Hfrac as [Hd Hnd].
  destruct (Z.ltb_spec v 0) as [|_]; [lia|].
  apply round_pos_result in Hdec; [|lia]. cbv zeta in Hdec.
  destruct (rounded_mantissa_ge n d Hd Hnd) as [Hm0 Hm1].
  set (e := pick_exp n d) in *.
  set (m := round_half_even (fst (scale2 n d e)) (snd (scale2 n d e))) in *.
  subst y. destruct (Z.eqb_spec m (2 ^ 53)) as [Em|_].
  - rewrite toQ_positive. apply (mul_pow_ge_one 2); [lia|]. split.
    + intros He. assert (0 < 2 ^ (e + 1)) by (apply Z.pow_pos_nonneg; lia). nia.
    + intros He. apply Z.pow_le_mono_r; [lia|].
      assert (He' : e < 0) by lia. specialize (Hm1 He'). rewrite Em in Hm1.
      apply Z.pow_le_mono_r_iff in Hm1; lia.
  - rewrite toQ_positive. apply (mul_pow_ge_one 2); [lia|]. split.
    + intros He. specialize (Hm0 He).
      assert (0 < 2 ^ e) by (apply Z.pow_pos_nonneg; lia). nia.
    + exact Hm1.
Qed.

Lemma eqb_eq (x y : t) : eqb x y = true -> x = y.
Proof.
  unfold eqb. intros H.
  apply andb_prop in H as [H He]. apply andb_prop in H as [Hs Hm].
  apply Bool.eqb_prop in Hs. apply Z.eqb_eq in Hm, He.
  destruct x, y; cbn in *; congruence.
Qed.

(** A candidate that [shortest_at] returns decodes to the float. *)
Lemma shortest_at_valid (x : t) (n d p : Z) (digits : nat) (c : Decimal) :
  shortest_at x n d p digits = Some c ->
  decode c = Some (mk false (mant x) (bexp x)).
Proof.
  unfold shortest_at.
  destruct (scale10 n d (p - (Z.of_nat digits - 1))) as [n1 d1].
  set (s := p - (Z.of_nat digits - 1)).
  assert (Hok : forall c0,
    match decode (decimal.New c0 s) with
    | Some y => eqb y (mk false (mant x) (bexp x))
    | None => false
    end = true -> decode (decimal.New c0 s) = Some (mk false (mant x) (bexp x))).
  { intros c0. destruct (decode (decimal.New c0 s)) as [y|]; [|discriminate].
    intros H. apply eqb_eq in H. now subst. }
  destruct (match decode (decimal.New (n1 / d1) s) with
            | Some y => eqb y (mk false (mant x) (bexp x)) | None => false end) eqn:E1;
  destruct (match decode (decimal.New (n1 / d1 + 1) s) with
            | Some y => eqb y (mk false (mant x) (bexp x)) | None => false end) eqn:E2;
    intros H; try discriminate; injection H as <-.
  - destruct (round_half_even_cases n1 d1) as [-> | ->]; auto.
  - auto.
  - auto.
Qed.

(** A candidate for a fraction that is at least 1 is at least 1. *)
Lemma shortest_at_ge_one (x : t) (n d p : Z) (digits : nat) (c : Decimal) :
  0 < d -> d <= n -> pow10_le p n d = true -> (1 <= digits)%nat ->
  shortest_at x n d p digits = Some c -> (1 <= decimal.toQ c)%Q.
Proof.
  intros Hd Hn Hp Hdig. unfold shortest_at.
  set (s := p - (Z.of_nat digits - 1)).
  assert (Hs : s <= p) by lia.
  assert (Hlo : (0 <= s -> 1 <= fst (scale10 n d s) / snd (scale10 n d s)) /\
                (s < 0 -> 10 ^ (- s) <= fst (scale10 n d s) / snd (scale10 n d s))).
  { unfold scale10. destruct (Z.leb_spec 0 s) as [Hs0|Hs0]; cbn [fst snd].
    - split; [intros _|lia].
      assert (0 < 10 ^ s) by (apply Z.pow_pos_nonneg; lia).
      apply Z.div_le_lower_bound; [lia|]. rewrite Z.mul_1_r.
      unfold pow10_le in Hp. destruct (Z.leb_spec 0 p); [|lia].
      apply Z.leb_le in Hp.
      assert (10 ^ s <= 10 ^ p) by (apply Z.pow_le_mono_r; lia). nia.
    - split; [lia|intros _].
      assert (0 < 10 ^ (- s)) by (apply Z.pow_pos_nonneg; lia).
      apply Z.div_le_lower_bound; [lia|]. nia. }
  destruct (scale10 n d s) as [n1 d1]. cbn [fst snd] in Hlo.
  assert (Hc : forall c0, n1 / d1 <= c0 -> (1 <= decimal.toQ (decimal.New c0 s))%Q).
  { intros c0 Hc0. unfold decimal.toQ. cbn [decimal.value decimal.exp].
    apply (mul_pow_ge_one 10); [lia|]. destruct Hlo as [H0 H1]. split.
    - intros Hs0. specialize (H0 Hs0).
      assert (0 < 10 ^ s) by (apply Z.pow_pos_nonneg; lia). nia.
    - intros Hs0. specialize (H1 Hs0). lia. }
  pose proof (round_half_even_ge n1 d1).
  repeat match goal with
         | |- context [match ?b with _ => _ end] => destruct b
         end; intros E; try discriminate; injection E as <-; apply Hc; lia.
Qed.

Lemma shortest_from_valid (x : t) (n d p : Z) (fuel digits : nat) (c : Decimal) :
  shortest_from x n d p digits fuel = Some c ->
  decode c = Some (mk false (mant x) (bexp x)).
Proof.
  revert digits. induction fuel as [|fuel IH]; intros digits; cbn; [discriminate|].
  destruct (shortest_at x n d p digits) as [c'|] eqn:E.
  - intros H. injection H as <-. eapply shortest_at_valid; eauto.
  - apply IH.
Qed.

Lemma shortest_from_ge_one (x : t) (n d p : Z) (fuel digits : nat) (c : Decimal) :
  0 < d -> d <= n -> pow10_le p n d = true -> (1 <= digits)%nat ->
  shortest_from x n d p digits fuel = Some c -> (1 <= decimal.toQ c)%Q.
Proof.
  intros Hd Hn Hp. revert digits. induction fuel as [|fuel IH]; intros digits Hdig; cbn;
    [discriminate|].
  destruct (shortest_at x n d p digits) as [c'|] eqn:E.
  - intros H. injection H as <-. eapply shortest_at_ge_one; eauto.
  - apply IH. lia.
Qed.

(** The exact expansion denotes the float. *)
Lemma toQ_exact (x : t) : neg x = false -> (decimal.toQ (exact x) == toQ x)%Q.
Proof.
  intros Hneg. unfold exact, toQ, decimal.toQ. rewrite Hneg.
  change (2%Q) with (inject_Z 2).
  destruct (Z.leb_spec 0 (bexp x)) as [He|He]; cbn [decimal.value decimal.exp].
  - rewrite inject_Z_mult, Zpower_Qpower by lia. cbn [Qpower]. ring.
  - rewrite inject_Z_mult, Zpower_Qpower by lia.
    assert (E10 : (inject_Z 10 ^ bexp x == inject_Z 2 ^ bexp x * inject_Z 5 ^ bexp x)%Q).
    { rewrite <- Qmult_power. reflexivity. }
    rewrite E10.
    setoid_replace (inject_Z (mant x) * inject_Z 5 ^ (- bexp x) *
                    (inject_Z 2 ^ bexp x * inject_Z 5 ^ bexp x))%Q
      with (inject_Z (mant x) * inject_Z 2 ^ bexp x *
            (inject_Z 5 ^ (- bexp x) * inject_Z 5 ^ bexp x))%Q by ring.
    rewrite pow_opp_cancel by lia. ring.
Qed.

(** The fraction of a positive float that is at least 1. *)
Lemma fraction2_ge_one (x : t) :
  neg x = false -> (1 <= toQ x)%Q ->
  0 < snd (fraction2 x) /\ snd (fraction2 x) <= fst (fraction2 x).
Proof.
  intros Hneg Hx. destruct x as [s m e]. cbn in Hneg. subst s.
  rewrite toQ_positive in Hx. apply (mul_pow_ge_one 2) in Hx as [H0 H1]; [|lia].
  unfold fraction2. cbn [mant bexp].
  destruct (Z.leb_spec 0 e) as [He|He]; cbn [fst snd].
  - specialize (H0 He). lia.
  - specialize (H1 He). split; [apply Z.pow_pos_nonneg; lia | lia].
Qed.

Lemma record_eta (x : t) : x = mk (neg x) (mant x) (bexp x).
Proof. destruct x; reflexivity. Qed.

(** The decimal amount is at least 1 exactly when the float is. *)
Lemma NewFromFloat_ge_one (x : t) :
  0 <= mant x -> (1 <= toQ x)%Q -> (1 <= decimal.toQ (NewFromFloat x))%Q.
Proof.
  intros Hwf Hx. unfold NewFromFloat.
  destruct (Z.leb_spec (mant x) 0) as [Hm|Hm].
  - exfalso. assert (E : mant x = 0) by lia.
    unfold toQ in Hx. rewrite E in Hx.
    assert (Hz : ((if neg x then -1 else 1) * inject_Z 0 * 2 ^ bexp x == 0)%Q) by ring.
    rewrite Hz in Hx. unfold Qle in Hx. cbn in Hx. lia.
  - pose proof (ge_one_positive x Hm Hx) as Hneg. rewrite Hneg.
    destruct (fraction2_ge_one x Hneg Hx) as [Hd Hn].
    destruct (fraction2 x) as [n d]. cbn [fst snd] in Hd, Hn. cbv zeta.
    assert (Hexact : (1 <= decimal.toQ (exact x))%Q) by (rewrite toQ_exact; assumption).
    destruct (log10_floor n d) as [p|] eqn:Ep; [|exact Hexact].
    destruct (shortest_from x n d p 1 17) as [c|] eqn:Ec; [|exact Hexact].
    apply find_some in Ep as [_ Ep].
    exact (shortest_from_ge_one x n d p 17 1 c Hd Hn Ep (le_n 1) Ec).
Qed.

Lemma NewFromFloat_lt_one (x : t) :
  0 <= mant x -> (toQ x < 1)%Q -> (decimal.toQ (NewFromFloat x) < 1)%Q.
Proof.
  intros Hwf Hx. unfold NewFromFloat.
  destruct (Z.leb_spec (mant x) 0) as [Hm|Hm]; [reflexivity|].
  assert (Hfrac : 0 <= fst (fraction2 x) /\ 0 < snd (fraction2 x)).
  { unfold fraction2. destruct (Z.leb_spec 0 (bexp x)); cbn [fst snd].
    - split; [|lia]. apply Z.mul_nonneg_nonneg; [lia|]. apply Z.pow_nonneg. lia.
    - split; [lia|]. apply Z.pow_pos_nonneg; lia. }
  destruct (fraction2 x) as [n d]. cbn [fst snd] in Hfrac. destruct Hfrac as [Hn Hd].
  cbv zeta.
  set (c := match match log10_floor n d with
                  | Some p => shortest_from x n d p 1 17
                  | None => None
                  end with
            | Some c => c
            | None => exact x
            end).
  assert (Hc0 : 0 <= decimal.value c).
  { subst c. destruct (log10_floor n d) as [p|].
    - destruct (shortest_from x n d p 1 17) as [c|] eqn:Ec.
      + exact (shortest_from_nonneg x n d p 17 1 c Hn Hd Ec).
      + unfold exact. destruct (Z.leb_spec 0 (bexp x)); cbn [decimal.value];
          (apply Z.mul_nonneg_nonneg; [lia|]; apply Z.pow_nonneg; lia).
    - unfold exact. destruct (Z.leb_spec 0 (bexp x)); cbn [decimal.value];
        (apply Z.mul_nonneg_nonneg; [lia|]; apply Z.pow_nonneg; lia). }
  destruct (neg x) eqn:Hneg.
  - apply Qnot_le_lt. intros H. unfold decimal.toQ in H. cbn [decimal.value decimal.exp] in H.
    apply (mul_pow_ge_one 10) in H as [H0 H1]; [|lia].
    destruct (Z.lt_ge_cases (decimal.exp c) 0) as [Hk|Hk].
    + specialize (H1 Hk). assert (0 < 10 ^ (- decimal.exp c)) by (apply Z.pow_pos_nonneg; lia).
      lia.
    + specialize (H0 Hk). assert (0 < 10 ^ decimal.exp c) by (apply Z.pow_pos_nonneg; lia).
      nia.
  - assert (Hexact : (decimal.toQ (exact x) < 1)%Q) by (rewrite toQ_exact; assumption).
    subst c. destruct (log10_floor n d) as [p|]; [|exact Hexact].
    destruct (shortest_from x n d p 1 17) as [c|] eqn:Ec; [|exact Hexact].
    apply Qnot_le_lt. intros H.
    apply shortest_from_valid in Ec.
    apply (decode_ge_one c _ Ec) in H.
    rewrite <- Hneg, <- record_eta in H.
    exact (Qlt_not_le _ _ Hx H).
Qed.

(** What the decoder makes of the amounts of the scenarios. *)
Example decode_fifty :
  option_map NewFromFloat (decode (decimal.New 50 0)) = Some (decimal.New 5 1).
Proof. vm_compute. reflexivity. Qed.

Example decode_one_and_a_half :
  option_map NewFromFloat (decode (decimal.New 15 (-1))) = Some (decimal.New 15 (-1)).
Proof. vm_compute. reflexivity. Qed.

End float64_facts.

(** ** LedgerEngine *)
Module ledger_facts.
Import notions.
Import store_facts decimal_facts.

Local Open Scope Q_scope.

Lemma toQ_nonneg_iff (d : Decimal) : 0 <= decimal.toQ d <-> (0 <= decimal.value d)%Z.
Proof.
  unfold decimal.toQ. pose proof (pow10_pos (decimal.exp d)) as Hp. split.
  - intros H. apply Z.le_ngt. intros Hneg.
    assert (Hlt : inject_Z (decimal.value d) * inject_Z 10 ^ decimal.exp d
                  < inject_Z 0 * inject_Z 10 ^ decimal.exp d).
    { apply Qmult_lt_r; [exact Hp|]. rewrite <- Zlt_Qlt. exact Hneg. }
    apply (Qlt_not_le _ _ Hlt).
    setoid_replace (inject_Z 0 * inject_Z 10 ^ decimal.exp d) with 0 by ring.
    exact H.
  - intros H. apply Qmult_le_0_compat; [|apply Qlt_le_weak; exact Hp].
    change 0 with (inject_Z 0). rewrite <- Zle_Qle. exact H.
Qed.

(** The store after a successful purchase, read back. *)
Lemma purchase_writes (db : DB) (user : User.t) (usdt hash : Decimal) :
  getUserByID db (User.ID user) = Ok (Some user) ->
  exists db',
    exec_update_user db (User.ID user) (fun u => User.set_usdt_hash u usdt hash) = Ok db' /\
    getUserByID db' (User.ID user) = Ok (Some (User.set_usdt_hash user usdt hash)) /\
    device_fingerprints db' = device_fingerprints db /\
    forall other, other <> User.ID user -> getUserByID db' other = getUserByID db other.
Proof.
  intros Hfind. eexists. split; [reflexivity|].
  pose proof (getUserByID_updated db _ (User.ID user)
                (fun u => User.set_usdt_hash u usdt hash) (fun u => eq_refl) eq_refl) as Hread.
  split; [|split; [reflexivity|]].
  - rewrite Hread, Hfind. cbn [option_map]. rewrite String.eqb_refl. reflexivity.
  - intros other Hother. rewrite Hread.
    destruct (getUserByID db other) as [[u|]|] eqn:E; try reflexivity.
    cbn [option_map]. apply getUserByID_id in E.
    destruct (String.eqb_spec (User.ID u) (User.ID user)); [congruence | reflexivity].
Qed.

(** The minimum test on the float is the test on its decimal. *)
Lemma minimum_test (lit : Decimal) (x : float64.t) :
  float64.decode lit = Some x ->
  (float64.ltb x float64.one = true <-> decimal.toQ (float64.NewFromFloat x) < 1) /\
  (float64.ltb x float64.one = false <-> 1 <= decimal.toQ (float64.NewFromFloat x)).
Proof.
  intros Hdec. pose proof (float64_facts.decode_mant_nonneg lit x Hdec) as Hwf.
  rewrite float64_facts.ltb_one_true, float64_facts.ltb_one_false.
  split; split; intros H.
  - now apply float64_facts.NewFromFloat_lt_one.
  - apply Qnot_le_lt. intros Hge.
    apply (float64_facts.NewFromFloat_ge_one x Hwf) in Hge.
    exact (Qlt_not_le _ _ H Hge).
  - now apply float64_facts.NewFromFloat_ge_one.
  - apply Qnot_lt_le. intros Hlt.
    apply (float64_facts.NewFromFloat_lt_one x Hwf) in Hlt.
    exact (Qlt_not_le _ _ Hlt H).
Qed.

(** The three outcomes of [handlePurchasePower] on a decoded amount. *)
Lemma handlePurchasePower_cases (db : DB) (user : User.t) (lit : Decimal) (x : float64.t) :
  float64.decode lit = Some x ->
  let amount := float64.NewFromFloat x in
  handlePurchasePower (Some user) (Amount lit) db =
  if float64.ltb x float64.one then (BelowMinimum, db)
  else if decimal.LessThan (User.USDTBalance user) amount then (InsufficientBalance, db)
  else
    (PowerPurchased,
     mkDB (map (fun u => if String.eqb (User.ID u) (User.ID user)
                         then User.set_usdt_hash u
                                (decimal.Sub (User.USDTBalance user) amount)
                                (decimal.Add (User.HashPower user) amount)
                         else u) (users db))
          (device_fingerprints db)).
Proof.
  intros Hdec. unfold handlePurchasePower, decodeAmount. rewrite Hdec. cbv zeta.
  destruct (float64.ltb x float64.one); [reflexivity|].
  destruct (decimal.LessThan _ _); reflexivity.
Qed.

(** [PurchasePower] on the amount the handler works with.  With [amount]
    the decimal that the handler makes of the decoded number
    ([decimal.NewFromFloat] of the [float64]), which is not always the
    number of the request, for every user row and every request whose
    number decodes: [PurchasePower] succeeds exactly when [1 <= amount] and
    [amount <= USDT]; below 1 it answers "Minimum purchase is 1 USDT",
    above the balance "Insufficient USDT balance", and both leave the store
    as it was; on success the row of the user has [USDT - amount] and
    [hash power + amount], nothing else in it changes, and no other row
    changes. *)
Lemma purchase_power_exchanges_one_to_one
    (db : DB) (user : User.t) (lit : Decimal) (x : float64.t) :
  getUserByID db (User.ID user) = Ok (Some user) ->
  float64.decode lit = Some x ->
  let amount := float64.NewFromFloat x in
  let result := handlePurchasePower (Some user) (Amount lit) db in
  (fst result = PowerPurchased <->
   1 <= decimal.toQ amount /\ decimal.toQ amount <= decimal.toQ (User.USDTBalance user)) /\
  (decimal.toQ amount < 1 -> result = (BelowMinimum, db)) /\
  (1 <= decimal.toQ amount ->
   decimal.toQ (User.USDTBalance user) < decimal.toQ amount ->
   result = (InsufficientBalance, db)) /\
  (fst result = PowerPurchased ->
   exists user',
     getUserByID (snd result) (User.ID user) = Ok (Some user') /\
     user' = User.set_usdt_hash user (User.USDTBalance user') (User.HashPower user') /\
     decimal.toQ (User.USDTBalance user') ==
       decimal.toQ (User.USDTBalance user) - decimal.toQ amount /\
     decimal.toQ (User.HashPower user') ==
       decimal.toQ (User.HashPower user) + decimal.toQ amount /\
     device_fingerprints (snd result) = device_fingerprints db /\
     forall other, other <> User.ID user ->
       getUserByID (snd result) other = getUserByID db other).
Proof.
  intros Hfind Hdec. cbv zeta.
  rewrite (handlePurchasePower_cases db user lit x Hdec). cbv zeta.
  destruct (minimum_test lit x Hdec) as [Hlt Hge].
  set (amount := float64.NewFromFloat x) in *.
  destruct (float64.ltb x float64.one) eqn:Emin.
  - assert (Hlow : decimal.toQ amount < 1) by (now apply Hlt).
    cbn [fst snd]. split; [split|split; [|split]].
    + discriminate.
    + intros [Hc _]. exfalso. exact (Qlt_not_le _ _ Hlow Hc).
    + reflexivity.
    + intros Hc. exfalso. exact (Qlt_not_le _ _ Hlow Hc).
    + discriminate.
  - assert (Hhigh : 1 <= decimal.toQ amount) by (now apply Hge).
    destruct (decimal.LessThan (User.USDTBalance user) amount) eqn:Ebal.
    + apply LessThan_spec in Ebal. cbn [fst snd]. split; [split|split; [|split]].
      * discriminate.
      * intros [_ Hc]. exfalso. exact (Qlt_not_le _ _ Ebal Hc).
      * intros Hc. exfalso. exact (Qlt_not_le _ _ Hc Hhigh).
      * reflexivity.
      * discriminate.
    + apply LessThan_false in Ebal. cbn [fst snd]. split; [split|split; [|split]].
      * intros _. split; assumption.
      * reflexivity.
      * intros Hc. exfalso. exact (Qlt_not_le _ _ Hc Hhigh).
      * intros _ Hc. exfalso. exact (Qlt_not_le _ _ Hc Ebal).
      * intros _.
        destruct (purchase_writes db user
                    (decimal.Sub (User.USDTBalance user) amount)
                    (decimal.Add (User.HashPower user) amount) Hfind)
          as (db' & Hexec & Hread & Hdev & Hother).
        injection Hexec as <-.
        eexists. split; [exact Hread|].
        split; [reflexivity|]. split; [apply toQ_Sub|]. split; [apply toQ_Add|].
        split; [reflexivity | exact Hother].
Qed.

(** The two outcomes of [handleClaimRewards]. *)
Lemma handleClaimRewards_cases (db : DB) (user : User.t) :
  handleClaimRewards (Some user) db =
  if decimal.LessThanOrEqual (User.UnclaimedBalance user) decimal.Zero
  then (NoRewards, db)
  else
    (RewardsClaimed,
     mkDB (map (fun u => if String.eqb (User.ID u) (User.ID user)
                         then User.set_gbtc_unclaimed u
                                (decimal.Add (User.GBTCBalance user)
                                             (User.UnclaimedBalance user))
                                (decimal.New 0 0)
                         else u) (users db))
          (device_fingerprints db)).
Proof.
  unfold handleClaimRewards.
  destruct (decimal.LessThanOrEqual _ _); reflexivity.
Qed.

(** A claim request of a user in good standing is the handler on the row
    just read. *)
Lemma claim_request_eq (db : DB) (userID : string) (user : User.t) :
  userID <> EmptyString ->
  getUserByID db userID = Ok (Some user) ->
  User.IsBanned user = false -> User.IsFrozen user = false ->
  claim_request (Some userID) db = handleClaimRewards (Some user) db.
Proof.
  intros Hne Hfind Hb Hf. unfold claim_request.
  rewrite session_facts.authMiddleware_cases, Hfind, Hb, Hf by exact Hne.
  reflexivity.
Qed.

(** C2. For a user in good standing: with an unclaimed balance that is not
    positive the claim answers "No rewards to claim" and leaves the store as
    it was; with a positive one it succeeds, the row then has
    [GBTC + unclaimed] and an unclaimed balance that is the decimal 0 (and
    nothing else changed in it), and the next claim answers "No rewards to
    claim" and changes nothing: GBTC was credited once. *)
Theorem claim_rewards_credits_once (db : DB) (userID : string) (user : User.t) :
  userID <> EmptyString ->
  getUserByID db userID = Ok (Some user) ->
  User.IsBanned user = false -> User.IsFrozen user = false ->
  (decimal.toQ (User.UnclaimedBalance user) <= 0 ->
   claim_request (Some userID) db = (NoRewards, db)) /\
  (0 < decimal.toQ (User.UnclaimedBalance user) ->
   let db1 := snd (claim_request (Some userID) db) in
   fst (claim_request (Some userID) db) = RewardsClaimed /\
   (exists user1,
      getUserByID db1 userID = Ok (Some user1) /\
      user1 = User.set_gbtc_unclaimed user (User.GBTCBalance user1) (decimal.New 0 0) /\
      decimal.toQ (User.GBTCBalance user1) ==
        decimal.toQ (User.GBTCBalance user) + decimal.toQ (User.UnclaimedBalance user) /\
      decimal.toQ (User.UnclaimedBalance user1) == 0) /\
   claim_request (Some userID) db1 = (NoRewards, db1)).
Proof.
  intros Hne Hfind Hb Hf.
  rewrite (claim_request_eq db userID user Hne Hfind Hb Hf), handleClaimRewards_cases.
  pose proof (getUserByID_id _ _ _ Hfind) as Hid.
  split.
  - intros Hle.
    rewrite (proj2 (LessThanOrEqual_spec _ _)) by (rewrite toQ_Zero; exact Hle).
    reflexivity.
  - intros Hpos.
    rewrite (proj2 (LessThanOrEqual_false _ _)) by (rewrite toQ_Zero; exact Hpos).
    cbn [fst snd].
    set (set := fun u => User.set_gbtc_unclaimed u
                  (decimal.Add (User.GBTCBalance user) (User.UnclaimedBalance user))
                  (decimal.New 0 0)).
    set (db1 := mkDB _ _).
    assert (Hexec : exec_update_user db (User.ID user) set = Ok db1) by reflexivity.
    assert (Hread : getUserByID db1 userID = Ok (Some (set user))).
    { rewrite (getUserByID_updated db db1 (User.ID user) set (fun u => eq_refl) Hexec),
        Hfind.
      cbn [option_map]. rewrite String.eqb_refl. reflexivity. }
    split; [reflexivity|]. split.
    + exists (set user). split; [exact Hread|]. split; [reflexivity|].
      split; [apply toQ_Add | reflexivity].
    + rewrite (claim_request_eq db1 userID (set user) Hne Hread Hb Hf),
        handleClaimRewards_cases.
      reflexivity.
Qed.

(** [StartMining] for the user row just read: without hash power it
    answers "Hash power required to start mining" and leaves the store as
    it was; with hash power it succeeds and the row has the mining flag set
    and is otherwise as before, so a repeated call changes nothing. *)
Theorem start_mining_sets_the_flag (db : DB) (user : User.t) :
  getUserByID db (User.ID user) = Ok (Some user) ->
  (decimal.toQ (User.HashPower user) <= 0 ->
   handleStartMining (Some user) db = (NoHashPower, db)) /\
  (0 < decimal.toQ (User.HashPower user) ->
   fst (handleStartMining (Some user) db) = MiningStarted /\
   getUserByID (snd (handleStartMining (Some user) db)) (User.ID user)
     = Ok (Some (User.set_has_started_mining user true)) /\
   (User.HasStartedMining user = true ->
    User.set_has_started_mining user true = user)).
Proof.
  intros Hfind. unfold handleStartMining. split.
  - intros Hle.
    rewrite (proj2 (LessThanOrEqual_spec _ _)) by (rewrite toQ_Zero; exact Hle).
    reflexivity.
  - intros Hpos.
    rewrite (proj2 (LessThanOrEqual_false _ _)) by (rewrite toQ_Zero; exact Hpos).
    cbn [fst snd exec_update_user]. split; [reflexivity|]. split.
    + rewrite (getUserByID_updated db _ (User.ID user)
                 (fun u => User.set_has_started_mining u true) (fun u => eq_refl) eq_refl),
        Hfind.
      cbn [option_map]. rewrite String.eqb_refl. reflexivity.
    + intros H. destruct user. cbn in *. subst. reflexivity.
Qed.

(** Each operation keeps the balances it writes at or above zero. *)
Lemma purchase_keeps_nonneg (db : DB) (ctx : Context) (body : PurchaseBody) :
  Forall balances_nonneg (users db) ->
  (forall u, ctx = Some u -> balances_nonneg u) ->
  Forall balances_nonneg (users (snd (handlePurchasePower ctx body db))).
Proof.
  intros Hdb Hctx. unfold handlePurchasePower.
  destruct ctx as [user|]; [|exact Hdb].
  destruct (decodeAmount body) as [x|]; [|exact Hdb].
  destruct (float64.ltb x float64.one) eqn:Emin; [exact Hdb|].
  destruct (decimal.LessThan _ _) eqn:Ebal; [exact Hdb|].
  cbn [exec_update_user snd users]. apply Forall_map.
  eapply Forall_impl; [|exact Hdb]. intros u Hu.
  destruct (String.eqb (User.ID u) (User.ID user)); [|exact Hu].
  destruct Hu as (H1 & H2 & H3 & H4 & H5 & H6 & H7 & H8).
  destruct (Hctx user eq_refl) as (U1 & _ & U3 & _).
  apply LessThan_false in Ebal.
  pose proof (float64_facts.NewFromFloat_nonneg x Emin) as Hamount.
  apply toQ_nonneg_iff in Hamount.
  unfold balances_nonneg. cbn.
  repeat split; try assumption.
  - rewrite toQ_Sub. apply (Qplus_le_l _ _ (decimal.toQ (float64.NewFromFloat x))).
    ring_simplify. exact Ebal.
  - rewrite toQ_Add.
    apply Qle_trans with (0 + 0); [discriminate|]. now apply Qplus_le_compat.
Qed.

Lemma start_mining_keeps_nonneg (db : DB) (ctx : Context) :
  Forall balances_nonneg (users db) ->
  Forall balances_nonneg (users (snd (handleStartMining ctx db))).
Proof.
  intros Hdb. unfold handleStartMining.
  destruct ctx as [user|]; [|exact Hdb].
  destruct (decimal.LessThanOrEqual _ _); [exact Hdb|].
  cbn [exec_update_user snd users]. apply Forall_map.
  eapply Forall_impl; [|exact Hdb]. intros u Hu.
  destruct (String.eqb (User.ID u) (User.ID user)); exact Hu.
Qed.

Lemma claim_keeps_nonneg (db : DB) (ctx : Context) :
  Forall balances_nonneg (users db) ->
  (forall u, ctx = Some u -> balances_nonneg u) ->
  Forall balances_nonneg (users (snd (handleClaimRewards ctx db))).
Proof.
  intros Hdb Hctx. unfold handleClaimRewards.
  destruct ctx as [user|]; [|exact Hdb].
  destruct (decimal.LessThanOrEqual _ _) eqn:E; [exact Hdb|].
  cbn [exec_update_user snd users]. apply Forall_map.
  eapply Forall_impl; [|exact Hdb]. intros u Hu.
  destruct (String.eqb (User.ID u) (User.ID user)); [|exact Hu].
  destruct Hu as (H1 & H2 & H3 & H4 & H5 & H6 & H7 & H8).
  destruct (Hctx user eq_refl) as (_ & _ & _ & _ & _ & U6 & U7 & _).
  unfold balances_nonneg. cbn.
  repeat split; try assumption.
  - rewrite toQ_Add.
    apply Qle_trans with (0 + 0); [discriminate|]. now apply Qplus_le_compat.
  - discriminate.
Qed.

(** A created user has every balance at zero. *)
Lemma createUser_balances
    (EncodeToString : list byte -> string)
    (scrypt_Key : list byte -> list byte -> Z -> Z -> Z -> Z -> Result (list byte))
    (db db' : DB) (id : string) (now : Z) (salt : Result (list byte))
    (req : RegisterRequest.t) (clientIP : string) (user : User.t) :
  createUser EncodeToString scrypt_Key db id now salt req clientIP = (Ok user, db') ->
  balances_zero user /\ users db' = users db ++ [user].
Proof.
  unfold createUser. destruct (hashAccessKey _ _ _ _) as [hashedKey|]; [|discriminate].
  intros H. injection H as <- <-. split; [|reflexivity].
  unfold balances_zero. cbn. repeat split; apply toQ_zero_value.
Qed.

Lemma balances_zero_nonneg (u : User.t) : balances_zero u -> balances_nonneg u.
Proof.
  unfold balances_zero, balances_nonneg.
  intros (H1 & H2 & H3 & H4 & H5 & H6 & H7 & H8).
  rewrite H1, H2, H3, H4, H5, H6, H7, H8. repeat split; discriminate.
Qed.

(** C3. A user is created with every balance at zero; and from a store in
    which every balance of every user is at least zero, serving a request
    of [PurchasePower], [StartMining] or [ClaimRewards] for a user read
    from it leaves every balance of every user at least zero, whether the
    request succeeds or fails. *)
Theorem balances_never_negative
    (EncodeToString : list byte -> string)
    (scrypt_Key : list byte -> list byte -> Z -> Z -> Z -> Z -> Result (list byte))
    (db : DB) (ctx : Context) (body : PurchaseBody) :
  Forall balances_nonneg (users db) ->
  (forall u, ctx = Some u -> balances_nonneg u) ->
  (forall id now salt req clientIP user db',
     createUser EncodeToString scrypt_Key db id now salt req clientIP = (Ok user, db') ->
     balances_zero user /\ Forall balances_nonneg (users db')) /\
  Forall balances_nonneg (users (snd (handlePurchasePower ctx body db))) /\
  Forall balances_nonneg (users (snd (handleStartMining ctx db))) /\
  Forall balances_nonneg (users (snd (handleClaimRewards ctx db))).
Proof.
  intros Hdb Hctx. split; [|split; [|split]].
  - intros id now salt req clientIP user db' Hcreate.
    apply createUser_balances in Hcreate as [Hzero Husers].
    split; [exact Hzero|]. rewrite Husers. apply Forall_app. split; [exact Hdb|].
    constructor; [|constructor]. now apply balances_zero_nonneg.
  - now apply purchase_keeps_nonneg.
  - now apply start_mining_keeps_nonneg.
  - now apply claim_keeps_nonneg.
Qed.

End ledger_facts.

(** ** The helpers of the request *)
Module helper_facts.
Import notions.
Import split_facts.

Lemma colon_free_free_of (s : string) : colon_free s = free_of ":" s.
Proof. induction s as [|c s IH]; cbn; [reflexivity | now rewrite IH]. Qed.

Lemma append_nil_r (s : string) : (s ++ "")%string = s.
Proof. induction s as [|c s IH]; cbn; [reflexivity | now rewrite IH]. Qed.

Lemma join_segments_length (ps : list string) (last : string) :
  (String.length last <= String.length (join_segments ps last))%nat.
Proof.
  induction ps as [|p ps IH]; cbn [join_segments]; [lia|].
  cbn [append]. repeat (rewrite length_append || cbn [String.length]). lia.
Qed.

(** The loop of [splitHashedKey] over whole segments: [done] is what has
    been read, up to and with a separator. *)
Lemma loop_segments (ps : list string) (last done : string) (parts : list string) :
  Forall (fun p => colon_free p = true) ps -> colon_free last = true ->
  splitHashedKey_loop (done ++ join_segments ps last) (join_segments ps last)
    (String.length done) parts (String.length done) =
  Some (parts ++ ps,
        (String.length done + (String.length (join_segments ps last) - String.length last))%nat).
Proof.
  intros Hps Hlast. revert done parts.
  induction Hps as [|p ps Hp Hps IH]; intros done parts; cbn [join_segments].
  - rewrite <- (append_nil_r last) at 2.
    rewrite (loop_colon_free _ last "" _ _ _ Hlast). cbn [splitHashedKey_loop].
    rewrite app_nil_r. f_equal. f_equal. lia.
  - rewrite (loop_colon_free _ p (":" ++ join_segments ps last) _ _ _ Hp).
    cbn [append splitHashedKey_loop Ascii.eqb Bool.eqb].
    rewrite slice_in_range; [| lia | rewrite !length_append; cbn; lia].
    replace (String.length done + String.length p - String.length done)%nat
      with (String.length p) by lia.
    replace (done ++ p ++ String ":" (join_segments ps last))%string
      with (done ++ (p ++ String ":" (join_segments ps last)))%string by reflexivity.
    rewrite substring_skip, substring_prefix.
    replace (done ++ p ++ String ":" (join_segments ps last))%string
      with ((done ++ p ++ ":") ++ join_segments ps last)%string
      by (rewrite !append_assoc; reflexivity).
    replace (S (String.length done + String.length p))
      with (String.length (done ++ p ++ ":"))
      by (rewrite !length_append; cbn; lia).
    rewrite IH. rewrite <- app_assoc. cbn [app]. f_equal. f_equal.
    cbn [append]. repeat (rewrite length_append || cbn [String.length]).
    pose proof (join_segments_length ps last). lia.
Qed.

(** [splitHashedKey] returns the segments between the separators, except
    that an empty segment after the last separator is dropped: a stored
    form that ends with the separator (or is empty) has one part less than
    it has segments. *)
Theorem splitHashedKey_drops_an_empty_last_segment (ps : list string) (last : string) :
  Forall (fun p => colon_free p = true) ps -> colon_free last = true ->
  splitHashedKey (join_segments ps last) =
  Some (if String.eqb last "" then ps else ps ++ [last]).
Proof.
  intros Hps Hlast. unfold splitHashedKey.
  pose proof (loop_segments ps last "" [] Hps Hlast) as Hloop.
  cbn [append String.length app Nat.add] in Hloop. rewrite Hloop.
  pose proof (join_segments_length ps last) as Hlen.
  destruct (String.eqb_spec last "") as [->|Hne].
  - cbn [String.length]. rewrite Nat.sub_0_r, Nat.ltb_irrefl. reflexivity.
  - assert (Hpos : (0 < String.length last)%nat) by (destruct last; [congruence | cbn; lia]).
    destruct (Nat.ltb_spec (String.length (join_segments ps last) - String.length last)
                (String.length (join_segments ps last))); [|lia].
    rewrite slice_in_range by lia.
    replace (String.length (join_segments ps last) -
             (String.length (join_segments ps last) - String.length last))%nat
      with (String.length last) by lia.
    assert (Hsplit : exists pre, join_segments ps last = (pre ++ last)%string /\
              String.length pre =
              (String.length (join_segments ps last) - String.length last)%nat).
    { clear. induction ps as [|p ps (pre & E & L)]; cbn [join_segments].
      - exists ""%string. split; [reflexivity|]. cbn. lia.
      - exists (p ++ ":" ++ pre)%string. rewrite E at 1. split.
        + rewrite !append_assoc. reflexivity.
        + cbn [append]. repeat (rewrite length_append || cbn [String.length]).
          rewrite L. pose proof (join_segments_length ps last). lia. }
    destruct Hsplit as (pre & E & L). rewrite <- L. rewrite E at 1.
    rewrite substring_skip, substring_all. reflexivity.
Qed.

(** [generateReferralCode] reads the first six bytes of the username and
    the time modulo 1000 and nothing else: two usernames that agree on
    their first six bytes get the same code whenever the two times leave
    the same remainder, so referral codes are not unique. *)
Theorem referral_codes_collide (prefix rest rest' : string) (now now' : Z) :
  String.length prefix = 6%nat ->
  Z.rem now 1000 = Z.rem now' 1000 ->
  generateReferralCode (prefix ++ rest) now = generateReferralCode (prefix ++ rest') now' /\
  exists number, generateReferralCode (prefix ++ rest) now = (prefix ++ number)%string.
Proof.
  intros Hlen Hrem.
  assert (Hcode : forall r n,
            generateReferralCode (prefix ++ r) n =
            (prefix ++ NilZero.string_of_int (Z.to_int (Z.rem n 1000)))%string).
  { intros r n. unfold generateReferralCode. rewrite length_append, Hlen.
    destruct (Nat.ltb_spec 6 (6 + String.length r)) as [_|Hle].
    - rewrite <- Hlen, substring_prefix. reflexivity.
    - assert (r = EmptyString) by (destruct r; [reflexivity | cbn in Hle; lia]).
      subst r. rewrite append_nil_r. reflexivity. }
  split.
  - rewrite !Hcode, Hrem. reflexivity.
  - eexists. apply Hcode.
Qed.

Lemma LastIndex_from_free (s : string) (sep : ascii) (i last : Z) :
  free_of sep s = true -> strings.LastIndex_from s sep i last = last.
Proof.
  revert i. induction s as [|c s IH]; intros i H; cbn in *; [reflexivity|].
  apply andb_prop in H as [Hc Hs]. destruct (Ascii.eqb c sep); [discriminate|].
  now apply IH.
Qed.

Lemma LastIndex_from_app (a b : string) (sep : ascii) (i last : Z) :
  strings.LastIndex_from (a ++ b) sep i last =
  strings.LastIndex_from b sep (i + Z.of_nat (String.length a))
    (strings.LastIndex_from a sep i last).
Proof.
  revert i last. induction a as [|c a IH]; intros i last; cbn [append String.length].
  - cbn. f_equal. lia.
  - cbn [strings.LastIndex_from]. rewrite IH. f_equal. lia.
Qed.

Lemma LastIndex_from_bound (s : string) (sep : ascii) (i last : Z) :
  -1 <= last < i -> 0 <= i ->
  -1 <= strings.LastIndex_from s sep i last < i + Z.of_nat (String.length s).
Proof.
  revert i last. induction s as [|c s IH]; intros i last Hl Hi; cbn [strings.LastIndex_from].
  - cbn. lia.
  - cbn [String.length]. destruct (Ascii.eqb c sep).
    + specialize (IH (i + 1) i). lia.
    + specialize (IH (i + 1) last). lia.
Qed.

(** The first segment of [strings.Split]. *)
Lemma Split_first (first rest : string) (sep : ascii) :
  free_of sep first = true ->
  (rest = EmptyString \/ exists rest', rest = String sep rest') ->
  exists parts, strings.Split (first ++ rest) sep = first :: parts.
Proof.
  intros Hfree Hrest. induction first as [|c first IH]; cbn [append].
  - destruct Hrest as [->|[rest' ->]]; cbn.
    + eauto.
    + rewrite Ascii.eqb_refl. eauto.
  - cbn in Hfree. apply andb_prop in Hfree as [Hc Hfree].
    cbn [strings.Split]. destruct (Ascii.eqb c sep); [discriminate|].
    destruct (IH Hfree) as [parts ->]. eauto.
Qed.

Lemma Split_nonempty (s : string) (sep : ascii) : strings.Split s sep <> [].
Proof.
  destruct s as [|c s]; cbn; [discriminate|].
  destruct (Ascii.eqb c sep); [discriminate|].
  destruct (strings.Split s sep); discriminate.
Qed.

Section ClientIP.

Variable TrimSpace : string -> string.

(** [getClientIP] believes the request: when the header [X-Forwarded-For]
    is present and not empty, the result is its first comma-separated
    element, trimmed, whatever [X-Real-IP] and the address of the
    connection are; it is the empty string when that element is empty. *)
Theorem getClientIP_trusts_the_forwarded_header (first rest xri RemoteAddr : string) :
  free_of "," first = true ->
  (rest = EmptyString \/ exists rest', rest = String "," rest') ->
  (first ++ rest)%string <> EmptyString ->
  getClientIP TrimSpace (first ++ rest) xri RemoteAddr = Some (TrimSpace first).
Proof.
  intros Hfree Hrest Hne. unfold getClientIP.
  destruct (String.eqb_spec (first ++ rest) ""); [contradiction|]. cbn [negb].
  destruct (Split_first first rest "," Hfree Hrest) as [parts ->].
  reflexivity.
Qed.

(** Without the two headers the client address is the address of the
    connection up to its last colon, so [host:port] gives [host] also
    when [host] has colons of its own; an address without a colon is
    returned as it is.  No slice goes out of range, for any input. *)
Theorem getClientIP_strips_the_port (host port : string) :
  colon_free port = true ->
  getClientIP TrimSpace "" "" (host ++ ":" ++ port) = Some host /\
  getClientIP TrimSpace "" "" port = Some port /\
  forall xff xri RemoteAddr, exists ip, getClientIP TrimSpace xff xri RemoteAddr = Some ip.
Proof.
  intros Hport. rewrite colon_free_free_of in Hport. split; [|split].
  - unfold getClientIP. cbn [String.eqb negb]. unfold strings.LastIndex.
    rewrite LastIndex_from_app. cbn [append strings.LastIndex_from Ascii.eqb Bool.eqb].
    rewrite LastIndex_from_free by exact Hport.
    replace (0 + Z.of_nat (String.length host) =? -1) with false
      by (symmetry; apply Z.eqb_neq; lia).
    cbn [negb]. rewrite Z.add_0_l, Nat2Z.id.
    rewrite slice_in_range; [| lia | rewrite length_append; lia].
    rewrite Nat.sub_0_r, substring_prefix. reflexivity.
  - unfold getClientIP. cbn [String.eqb negb]. unfold strings.LastIndex.
    rewrite LastIndex_from_free by exact Hport. reflexivity.
  - intros xff xri RemoteAddr. unfold getClientIP.
    assert (Hrest : exists ip,
              (if negb (String.eqb xri "") then Some (TrimSpace xri)
               else if negb (strings.LastIndex RemoteAddr ":" =? -1)
                    then slice RemoteAddr 0 (Z.to_nat (strings.LastIndex RemoteAddr ":"))
                    else Some RemoteAddr) = Some ip).
    { destruct (negb (String.eqb xri "")); [eauto|].
      destruct (negb (strings.LastIndex RemoteAddr ":" =? -1)); [|eauto].
      pose proof (LastIndex_from_bound RemoteAddr ":" 0 (-1)) as Hb.
      fold (strings.LastIndex RemoteAddr ":") in Hb.
      rewrite slice_in_range; [eauto | lia | lia]. }
    destruct (negb (String.eqb xff "")); [|exact Hrest].
    destruct (strings.Split xff ",") as [|ip0 parts] eqn:E.
    + exfalso. exact (Split_nonempty _ _ E).
    + cbn. eauto.
Qed.

End ClientIP.

(** [handleReferrals] never slices out of range, whatever the length of
    the username: it answers 200 with the referral code stored for the
    user or, when none is stored, with the first six bytes of the username
    (the whole username when it is shorter) followed by [123]; the
    counters are always 0 and the list of referrals is always empty. *)
Theorem referrals_show_the_stored_code (user : User.t) :
  exists r,
    handleReferrals (Some user) = Some (inr (StatusOK, r)) /\
    ReferralsResponse.referralCode r =
      match User.ReferralCode user with
      | Some code => code
      | None => (substring 0 6 (User.Username user) ++ "123")%string
      end /\
    ReferralsResponse.totalReferrals r = 0 /\
    ReferralsResponse.activeReferrals r = 0 /\
    ReferralsResponse.referrals r = [] /\
    ReferralsResponse.totalEarnings r =
      decimal_text.String (User.TotalReferralEarnings user).
Proof.
  unfold handleReferrals, min.
  set (name := User.Username user).
  assert (Hslice : slice name 0
            (Z.to_nat (if 6 <? Z.of_nat (String.length name)
                       then 6 else Z.of_nat (String.length name)))
          = Some (substring 0 6 name)).
  { destruct (Z.ltb_spec 6 (Z.of_nat (String.length name))) as [Hlt|Hge].
    - rewrite slice_in_range by lia. reflexivity.
    - rewrite Nat2Z.id, slice_in_range by lia. rewrite Nat.sub_0_r, substring_all.
      f_equal. clear - Hge.
      assert (H : forall n s, (String.length s <= n)%nat -> substring 0 n s = s).
      { clear. intros n s. revert n. induction s as [|c s IH]; intros [|n] H; cbn in *;
          try reflexivity; try lia. rewrite IH by lia. reflexivity. }
      symmetry. apply H. lia. }
  rewrite Hslice. eexists. split; [reflexivity|]. cbn. repeat split.
Qed.

End helper_facts.

(** ** Verify against the segments of the stored form *)
Module verify_facts.
Import notions.
Import split_facts bytes_facts helper_facts credential_facts.

(** Every string is a sequence of separator-free segments. *)
Lemma string_segments (s : string) :
  exists ps last,
    s = join_segments ps last /\
    Forall (fun p => colon_free p = true) ps /\ colon_free last = true.
Proof.
  induction s as [|c s (ps & last & E & Hps & Hlast)].
  - exists [], ""%string. repeat split. constructor.
  - destruct (Ascii.eqb c ":") eqn:Ec.
    + apply Ascii.eqb_eq in Ec. subst c.
      exists (""%string :: ps), last. split; [cbn; now rewrite <- E|].
      split; [constructor; [reflexivity | exact Hps] | exact Hlast].
    + destruct ps as [|p ps].
      * exists [], (String c last). cbn in E. subst s. split; [reflexivity|].
        split; [constructor|]. cbn. now rewrite Ec, Hlast.
      * exists (String c p :: ps), last. split; [cbn in *; now rewrite E|].
        inversion Hps as [|? ? Hp Hps']; subst.
        split; [constructor; [cbn; now rewrite Ec, Hp | exact Hps'] | exact Hlast].
Qed.

Lemma Split_colon_free (last : string) :
  colon_free last = true -> strings.Split last ":" = [last].
Proof.
  induction last as [|c last IH]; cbn; [reflexivity|].
  intros H. apply andb_prop in H as [Hc Hlast].
  destruct (Ascii.eqb c ":"); [discriminate|]. now rewrite (IH Hlast).
Qed.

Lemma Split_segment (p rest : string) :
  colon_free p = true ->
  strings.Split (p ++ ":" ++ rest) ":" = p :: strings.Split rest ":".
Proof.
  induction p as [|c p IH]; cbn; [reflexivity|].
  intros H. apply andb_prop in H as [Hc Hp].
  destruct (Ascii.eqb c ":"); [discriminate|].
  cbn in IH. now rewrite (IH Hp).
Qed.

(** [strings.Split] gives back the segments a string is made of. *)
Lemma segments_join (ps : list string) (last : string) :
  Forall (fun p => colon_free p = true) ps -> colon_free last = true ->
  segments (join_segments ps last) = ps ++ [last].
Proof.
  intros Hps Hlast. unfold segments.
  induction Hps as [|p ps Hp Hps IH]; cbn [join_segments app].
  - now apply Split_colon_free.
  - rewrite (Split_segment p _ Hp), IH. reflexivity.
Qed.

Lemma drop_empty_last_app (ps : list string) (last : string) :
  drop_empty_last (ps ++ [last]) = if String.eqb last "" then ps else ps ++ [last].
Proof.
  induction ps as [|p ps IH]; [reflexivity|].
  cbn [app]. destruct ps as [|q ps].
  - cbn. destruct (String.eqb last ""); reflexivity.
  - cbn [app] in *. change (drop_empty_last (p :: q :: ps ++ [last]))
      with (p :: drop_empty_last (q :: ps ++ [last])).
    rewrite IH. destruct (String.eqb last ""); reflexivity.
Qed.

(** [splitHashedKey] against [strings.Split]: the parts are the segments,
    without an empty segment after the last separator. *)
Lemma splitHashedKey_segments (hashedKey : string) :
  splitHashedKey hashedKey = Some (drop_empty_last (segments hashedKey)).
Proof.
  destruct (string_segments hashedKey) as (ps & last & -> & Hps & Hlast).
  rewrite (segments_join ps last Hps Hlast), drop_empty_last_app.
  unfold splitHashedKey.
  pose proof (loop_segments ps last "" [] Hps Hlast) as Hloop.
  cbn [append String.length app Nat.add] in Hloop. rewrite Hloop. clear Hloop.
  pose proof (join_segments_length ps last) as Hlen.
  set (whole := join_segments ps last) in *.
  destruct (String.eqb_spec last "") as [E|Hne].
  - subst last. cbn [String.length] in *.
    rewrite Nat.sub_0_r, Nat.ltb_irrefl. reflexivity.
  - assert (Hpos : (0 < String.length last)%nat)
      by (destruct last; [congruence | cbn; lia]).
    destruct (Nat.ltb_spec (String.length whole - String.length last) (String.length whole));
      [|lia].
    rewrite slice_in_range by lia. do 2 f_equal.
    replace (String.length whole - (String.length whole - String.length last))%nat
      with (String.length last) by lia.
    assert (Hcut : forall qs, exists pre,
              join_segments qs last = (pre ++ last)%string /\
              (String.length pre + String.length last)%nat
              = String.length (join_segments qs last)).
    { induction qs as [|q qs (pre & E & L)]; cbn [join_segments].
      - exists ""%string. split; reflexivity.
      - exists (q ++ ":" ++ pre)%string. split.
        + rewrite E at 1. now rewrite !append_assoc.
        + cbn [append]. repeat (rewrite length_append || cbn [String.length]).
          rewrite <- L. lia. }
    destruct (Hcut ps) as (pre & E & L). fold whole in E, L.
    replace (String.length whole - String.length last)%nat with (String.length pre) by lia.
    rewrite E, substring_skip, substring_all. reflexivity.
Qed.

(** The instrumented loop is the loop. *)
Lemma compareHashes_reads_fst (a b : list byte) (n i : nat) (result : byte)
    (reads : list nat) :
  option_map fst (compareHashes_reads a b i n result reads) =
  compareHashes_loop a b i n result.
Proof.
  revert i result reads. induction n as [|n IH]; intros i result reads; cbn; [reflexivity|].
  destruct (nth_error a i) as [ai|]; [|reflexivity].
  destruct (nth_error b i) as [bi|]; [|reflexivity].
  apply IH.
Qed.

(** On slices of one length the loop reads every index from [i] on, once
    and in order, whatever the bytes are. *)
Lemma compareHashes_reads_spec (a b : list byte) :
  List.length a = List.length b ->
  forall (n i : nat) (result : byte) (reads : list nat), (i + n = List.length a)%nat ->
    compareHashes_reads a b i n result reads =
    Some (or_of_xors (skipn i a) (skipn i b) result, reads ++ seq i n).
Proof.
  intros Hlen n. induction n as [|n IH]; intros i result reads Hn.
  - cbn. rewrite Nat.add_0_r in Hn. subst i.
    rewrite skipn_all. rewrite Hlen. rewrite skipn_all. rewrite app_nil_r. reflexivity.
  - cbn [compareHashes_reads].
    destruct (nth_error a i) as [ai|] eqn:Ea; [|apply nth_error_None in Ea; lia].
    destruct (nth_error b i) as [bi|] eqn:Eb; [|apply nth_error_None in Eb; lia].
    rewrite (IH (S i)) by lia.
    rewrite (skipn_nth_cons a i ai Ea), (skipn_nth_cons b i bi Eb).
    rewrite <- app_assoc. reflexivity.
Qed.

Section VerifyStore.

Variable DecodeString : string -> Result (list byte).
Variable scrypt_Key : list byte -> list byte -> Z -> Z -> Z -> Z -> Result (list byte).

Local Abbreviation derive plainKey salt :=
  (scrypt_Key (list_byte_of_string plainKey) salt 32768 8 1 32).

(** C9, as amended.  [verifyAccessKey] returns a boolean for every stored
    form and every plain key: no slice or index goes out of range.  The
    parts it works on are the segments of the stored form between the
    separators, as [strings.Split] gives them, without an empty segment
    after the last separator.  The result is [false] when these parts are
    not exactly two, when one of them is not base64, or when the key
    derivation reports an error.  Otherwise it is [compareHashes] of the
    stored and the recomputed key: [false] on different lengths; on equal
    lengths the loop reads every index, in order, whatever the bytes are
    (it has no exit before its bound), the result is the test of the OR of
    the XORs of all positions against zero, and it is [true] exactly when
    the two byte sequences are equal. *)
Theorem verifyAccessKey_fails_closed_on_parts (hashedKey plainKey : string) :
  let parts := drop_empty_last (segments hashedKey) in
  (exists b, verifyAccessKey DecodeString scrypt_Key hashedKey plainKey = Some b) /\
  splitHashedKey hashedKey = Some parts /\
  (List.length parts <> 2%nat ->
   verifyAccessKey DecodeString scrypt_Key hashedKey plainKey = Some false) /\
  forall part0 part1, parts = [part0; part1] ->
    match DecodeString part0, DecodeString part1 with
    | Ok storedHash, Ok salt =>
        match derive plainKey salt with
        | Ok hash =>
            verifyAccessKey DecodeString scrypt_Key hashedKey plainKey
              = compareHashes storedHash hash /\
            (List.length storedHash <> List.length hash ->
             compareHashes storedHash hash = Some false) /\
            (List.length storedHash = List.length hash ->
             compareHashes_reads storedHash hash 0 (List.length storedHash) x00 []
               = Some (or_of_xors storedHash hash x00, seq 0 (List.length storedHash)) /\
             compareHashes_loop storedHash hash 0 (List.length storedHash) x00
               = Some (or_of_xors storedHash hash x00) /\
             compareHashes storedHash hash
               = Some (Byte.eqb (or_of_xors storedHash hash x00) x00)) /\
            (verifyAccessKey DecodeString scrypt_Key hashedKey plainKey = Some true
             <-> storedHash = hash)
        | Err _ => verifyAccessKey DecodeString scrypt_Key hashedKey plainKey = Some false
        end
    | _, _ => verifyAccessKey DecodeString scrypt_Key hashedKey plainKey = Some false
    end.
Proof.
  cbv zeta. pose proof (splitHashedKey_segments hashedKey) as Hparts.
  destruct (verifyAccessKey_cases DecodeString scrypt_Key hashedKey plainKey _ Hparts)
    as [Hbad Hgood].
  split; [apply verifyAccessKey_returns|]. split; [exact Hparts|]. split; [exact Hbad|].
  intros part0 part1 E. specialize (Hgood part0 part1 E).
  destruct (DecodeString part0) as [storedHash|]; [|exact Hgood].
  destruct (DecodeString part1) as [salt|]; [|exact Hgood].
  destruct (derive plainKey salt) as [hash|]; [|exact Hgood].
  destruct Hgood as (Hv & Hc & Hiff).
  split; [exact Hv|]. split; [|split; [|exact Hiff]].
  - intros Hne. rewrite Hc. apply Nat.eqb_neq in Hne. now rewrite Hne.
  - intros Hlen. split; [|split].
    + rewrite (compareHashes_reads_spec _ _ Hlen (List.length storedHash) 0%nat x00 [])
        by lia.
      reflexivity.
    + rewrite (compareHashes_loop_spec _ _ Hlen (List.length storedHash) 0%nat x00) by lia.
      reflexivity.
    + rewrite Hc. apply Nat.eqb_eq in Hlen. now rewrite Hlen.
Qed.

End VerifyStore.

(** C9, counterexample.  A stored form that is followed by one more
    separator has three segments, and still verifies its access key: for
    every encoding that meets the base64 contract and every key derivation
    that returns a key, "false whenever the segment count is other than
    two" fails. *)
Lemma three_segments_can_verify :
  ~ exists (EncodeToString : list byte -> string)
           (DecodeString : string -> Result (list byte))
           (scrypt_Key : list byte -> list byte -> Z -> Z -> Z -> Z -> Result (list byte)),
      (forall src, DecodeString (EncodeToString src) = Ok src) /\
      (forall src, colon_free (EncodeToString src) = true) /\
      (forall password salt, exists key, scrypt_Key password salt 32768 8 1 32 = Ok key) /\
      (forall hashedKey plainKey,
          List.length (segments hashedKey) <> 2%nat ->
          verifyAccessKey DecodeString scrypt_Key hashedKey plainKey = Some false).
Proof.
  intros (Enc & Dec & K & Hdec & Hfree & Hkey & Hclaim).
  set (salt := repeat x2a 32).
  destruct (Hkey (list_byte_of_string "secret1") salt) as [key Hk].
  set (hashedKey := join_segments [Enc key; Enc salt] "").
  assert (Hps : Forall (fun p => colon_free p = true) [Enc key; Enc salt])
    by (repeat constructor; apply Hfree).
  assert (Hsegs : segments hashedKey = [Enc key; Enc salt; ""%string])
    by (apply (segments_join [Enc key; Enc salt] "" Hps eq_refl)).
  assert (Hfalse : verifyAccessKey Dec K hashedKey "secret1" = Some false)
    by (apply Hclaim; rewrite Hsegs; discriminate).
  assert (Htrue : verifyAccessKey Dec K hashedKey "secret1" = Some true).
  { unfold verifyAccessKey. rewrite splitHashedKey_segments, Hsegs.
    cbn [drop_empty_last String.eqb List.length Nat.eqb negb nth_error].
    rewrite !Hdec. fold salt. rewrite Hk. now apply compareHashes_true_iff. }
  congruence.
Qed.

End verify_facts.

(** ** Registration, login and the session *)
Module account_facts.
Import notions.
Import store_facts split_facts bytes_facts credential_facts.

(** With unique ids, the lookup by id of a row of the table finds it. *)
Lemma find_by_unique_id (l : list User.t) (user : User.t) :
  NoDup (map User.ID l) -> In user l ->
  find (fun u => String.eqb (User.ID u) (User.ID user)) l = Some user.
Proof.
  induction l as [|x l IH]; cbn; [tauto|].
  intros Hnd Hin. inversion Hnd as [|? ? Hnotin Hnd']; subst.
  destruct (String.eqb_spec (User.ID x) (User.ID user)) as [E|Hne].
  - destruct Hin as [->|Hin]; [reflexivity|].
    exfalso. apply Hnotin. rewrite E. now apply in_map.
  - destruct Hin as [->|Hin]; [congruence|]. now apply IH.
Qed.

Lemma find_app_last {A} (p : A -> bool) (l : list A) (x : A) :
  find p (l ++ [x]) =
  match find p l with
  | Some y => Some y
  | None => if p x then Some x else None
  end.
Proof.
  induction l as [|y l IH]; cbn; [reflexivity|].
  destruct (p y); [reflexivity | exact IH].
Qed.

Lemma find_none_not_in (l : list User.t) (name : string) :
  find (fun u => String.eqb (User.Username u) name) l = None ->
  ~ In name (map User.Username l).
Proof.
  intros Hfind Hin. apply in_map_iff in Hin as (u & Hu & Hin).
  apply (find_none _ _ Hfind) in Hin. rewrite Hu, String.eqb_refl in Hin. discriminate.
Qed.

Section Accounts.

Variable EncodeToString : list byte -> string.
Variable DecodeString : string -> Result (list byte).
Variable scrypt_Key : list byte -> list byte -> Z -> Z -> Z -> Z -> Result (list byte).

Local Abbreviation derive plainKey salt :=
  (scrypt_Key (list_byte_of_string plainKey) salt 32768 8 1 32).

(** The row that a successful registration inserts. *)
Lemma handleRegister_created (id : string) (now : Z) (salt : list byte)
    (clientIP : string) (req : RegisterRequest.t) (session : Session) (db : DB)
    (key : list byte) :
  (3 <= String.length (RegisterRequest.Username req) <= 20)%nat ->
  (6 <= String.length (RegisterRequest.AccessKey req))%nat ->
  getUserByUsername db (RegisterRequest.Username req) = Ok None ->
  derive (RegisterRequest.AccessKey req) salt = Ok key ->
  let user :=
    User.mk id (RegisterRequest.Username req)
      (EncodeToString key ++ ":" ++ EncodeToString salt)
      (Some (generateReferralCode (RegisterRequest.Username req) now))
      (RegisterRequest.ReferralCode req) (Some clientIP)
      (decimal.New 0 (-2)) (decimal.New 0 (-8)) (decimal.New 0 (-2))
      (decimal.New 0 (-2)) (decimal.New 0 (-2)) (decimal.New 0 (-8))
      (decimal.New 0 (-8)) (decimal.New 0 (-2))
      None false false false false false None now in
  handleRegister EncodeToString scrypt_Key id now (Ok salt) clientIP (Some req) session db =
  (writeJSONResponse StatusCreated (UserMap (registerResponse user)),
   Some id, mkDB (users db ++ [user]) (device_fingerprints db)).
Proof.
  intros [Hu1 Hu2] Hk Hfree Hkey. cbv zeta. unfold handleRegister.
  assert (E1 : String.eqb (RegisterRequest.Username req) "" = false).
  { apply String.eqb_neq. intros E. rewrite E in Hu1. cbn in Hu1. lia. }
  assert (E2 : String.eqb (RegisterRequest.AccessKey req) "" = false).
  { apply String.eqb_neq. intros E. rewrite E in Hk. cbn in Hk. lia. }
  rewrite E1, E2.
  destruct (Nat.ltb_spec (String.length (RegisterRequest.Username req)) 3); [lia|].
  destruct (Nat.ltb_spec 20 (String.length (RegisterRequest.Username req))); [lia|].
  destruct (Nat.ltb_spec (String.length (RegisterRequest.AccessKey req)) 6); [lia|].
  cbn [orb]. rewrite Hfree. unfold createUser, hashAccessKey. rewrite Hkey.
  reflexivity.
Qed.

(** A registration that does not answer 201 changed nothing, and answers
    400, 409 or 500: the length of the username is tested first (3 to 20
    bytes), then the length of the access key (at least 6 bytes), then
    whether the name is taken. *)
Theorem register_validates_before_it_writes (id : string) (now : Z)
    (salt : Result (list byte)) (clientIP : string) (body : option RegisterRequest.t)
    (session : Session) (db : DB) :
  let result := handleRegister EncodeToString scrypt_Key id now salt clientIP body session db in
  let resp := fst (fst result) in
  (StatusCode resp = StatusCreated \/
   (snd (fst result) = session /\ snd result = db /\
    (StatusCode resp = StatusBadRequest \/ StatusCode resp = StatusConflict \/
     StatusCode resp = StatusInternalServerError))) /\
  (forall req, body = Some req ->
     ((String.length (RegisterRequest.Username req) < 3)%nat \/
      (20 < String.length (RegisterRequest.Username req))%nat ->
      resp = writeErrorResponse StatusBadRequest "Username must be 3-20 characters") /\
     ((3 <= String.length (RegisterRequest.Username req) <= 20)%nat ->
      (String.length (RegisterRequest.AccessKey req) < 6)%nat ->
      resp = writeErrorResponse StatusBadRequest
               "Access key must be at least 6 characters") /\
     ((3 <= String.length (RegisterRequest.Username req) <= 20)%nat ->
      (6 <= String.length (RegisterRequest.AccessKey req))%nat ->
      getUserByUsername db (RegisterRequest.Username req) <> Ok None ->
      resp = writeErrorResponse StatusConflict "Username already exists")).
Proof.
  cbv zeta. unfold handleRegister. destruct body as [req|].
  2:{ cbn. split; [right; auto|]. intros req E. discriminate. }
  destruct (String.eqb_spec (RegisterRequest.Username req) "") as [Eu|Eu].
  { rewrite Eu. cbn. split; [right; auto|]. intros r E. injection E as <-.
    rewrite Eu. cbn. repeat split; intros; try reflexivity; lia. }
  destruct (Nat.ltb_spec (String.length (RegisterRequest.Username req)) 3) as [Hu1|Hu1].
  { cbn. split; [right; auto|]. intros r E. injection E as <-.
    repeat split; intros; try reflexivity; lia. }
  destruct (Nat.ltb_spec 20 (String.length (RegisterRequest.Username req))) as [Hu2|Hu2].
  { cbn. split; [right; auto|]. intros r E. injection E as <-.
    repeat split; intros; try reflexivity; lia. }
  cbn [orb].
  destruct (String.eqb_spec (RegisterRequest.AccessKey req) "") as [Ek|Ek].
  { rewrite Ek. cbn. split; [right; auto|]. intros r E. injection E as <-.
    rewrite Ek. cbn. repeat split; intros; try reflexivity; lia. }
  destruct (Nat.ltb_spec (String.length (RegisterRequest.AccessKey req)) 6) as [Hk|Hk].
  { cbn. split; [right; auto|]. intros r E. injection E as <-.
    repeat split; intros; try reflexivity; lia. }
  cbn [orb].
  destruct (getUserByUsername db (RegisterRequest.Username req)) as [[found|]|e] eqn:Hfind.
  - cbn. split; [right; auto|]. intros r E. injection E as <-.
    repeat split; intros; try reflexivity; lia.
  - split.
    + destruct (createUser _ _ _ _ _ _ _ _) as [[user|e] db']; cbn; auto 10.
    + intros r E. injection E as <-. repeat split; intros; try lia. congruence.
  - unfold getUserByUsername in Hfind. discriminate.
Qed.

(** A registration with a username of 3 to 20 bytes that is not taken and
    an access key of at least 6 bytes answers 201, binds the session to
    the new id and appends one row: the given name, the client address,
    the referrer as sent (it is not looked up), the generated referral
    code and every balance at zero.  The device table is not touched. *)
Theorem register_creates_an_empty_account (id : string) (now : Z) (salt : list byte)
    (clientIP : string) (req : RegisterRequest.t) (session : Session) (db : DB)
    (key : list byte) :
  (3 <= String.length (RegisterRequest.Username req) <= 20)%nat ->
  (6 <= String.length (RegisterRequest.AccessKey req))%nat ->
  getUserByUsername db (RegisterRequest.Username req) = Ok None ->
  derive (RegisterRequest.AccessKey req) salt = Ok key ->
  exists user,
    handleRegister EncodeToString scrypt_Key id now (Ok salt) clientIP (Some req) session db =
    (writeJSONResponse StatusCreated (UserMap (registerResponse user)),
     Some id, mkDB (users db ++ [user]) (device_fingerprints db)) /\
    User.ID user = id /\
    User.Username user = RegisterRequest.Username req /\
    User.AccessKey user = (EncodeToString key ++ ":" ++ EncodeToString salt)%string /\
    User.RegistrationIP user = Some clientIP /\
    User.ReferredBy user = RegisterRequest.ReferralCode req /\
    User.ReferralCode user =
      Some (generateReferralCode (RegisterRequest.Username req) now) /\
    balances_zero user.
Proof.
  intros Hu Hk Hfree Hkey. eexists. split.
  - exact (handleRegister_created id now salt clientIP req session db key Hu Hk Hfree Hkey).
  - cbn. repeat split; apply decimal_facts.toQ_zero_value.
Qed.

(** Registration keeps usernames unique: whatever the request and its
    outcome, if no two rows had the same username before, none have
    after. *)
Theorem register_keeps_usernames_unique (id : string) (now : Z)
    (salt : Result (list byte)) (clientIP : string) (body : option RegisterRequest.t)
    (session : Session) (db : DB) :
  usernames_unique db ->
  usernames_unique
    (snd (handleRegister EncodeToString scrypt_Key id now salt clientIP body session db)).
Proof.
  intros Huniq. unfold handleRegister. destruct body as [req|]; [|exact Huniq].
  destruct (_ || _ || _); [exact Huniq|]. destruct (_ || _); [exact Huniq|].
  destruct (getUserByUsername db (RegisterRequest.Username req)) as [[found|]|e] eqn:Hfind;
    try exact Huniq.
  unfold createUser. destruct (hashAccessKey _ _ _ _) as [hashedKey|]; [|exact Huniq].
  unfold usernames_unique. cbn [snd users]. rewrite map_app. cbn [map User.Username].
  apply NoDup_app; [exact Huniq | constructor; [intros [] | constructor] |].
  intros name Hin [<-|[]].
  unfold getUserByUsername in Hfind. injection Hfind as Hfind.
  exact (find_none_not_in _ _ Hfind Hin).
Qed.

(** Registration does not consult the device gate: the answer, the session
    and the users after it are the same whatever the device table holds
    (a blocked device, a device at its cap), and the device table is left
    as it was. *)
Theorem register_ignores_the_device_gate (id : string) (now : Z)
    (salt : Result (list byte)) (clientIP : string) (body : option RegisterRequest.t)
    (session : Session) (db : DB) (devices : list DeviceFingerprint.t) :
  let result := handleRegister EncodeToString scrypt_Key id now salt clientIP body session db in
  let result' :=
    handleRegister EncodeToString scrypt_Key id now salt clientIP body session
      (mkDB (users db) devices) in
  fst result' = fst result /\
  users (snd result') = users (snd result) /\
  device_fingerprints (snd result) = device_fingerprints db /\
  device_fingerprints (snd result') = devices.
Proof.
  cbv zeta. unfold handleRegister. destruct body as [req|]; [|cbn; auto].
  destruct (_ || _ || _); [cbn; auto|]. destruct (_ || _); [cbn; auto|].
  unfold getUserByUsername. cbn [users].
  destruct (find _ (users db)); [cbn; auto|].
  unfold createUser. destruct (hashAccessKey _ _ _ _) as [hashedKey|]; cbn; auto.
Qed.

(** Insert, then look up.  When the store gives the new row an id that no
    row has and the username is free, the row that [createUser] returns is
    the one that [getUserByID] finds under the new id and
    [getUserByUsername] under the new name; every other id and every
    other name resolves as before. *)
Theorem created_user_can_be_read_back (db db' : DB) (id : string) (now : Z)
    (salt : Result (list byte)) (req : RegisterRequest.t) (clientIP : string)
    (user : User.t) :
  createUser EncodeToString scrypt_Key db id now salt req clientIP = (Ok user, db') ->
  getUserByID db id = Ok None ->
  getUserByUsername db (RegisterRequest.Username req) = Ok None ->
  getUserByID db' id = Ok (Some user) /\
  getUserByUsername db' (RegisterRequest.Username req) = Ok (Some user) /\
  (forall other, other <> id -> getUserByID db' other = getUserByID db other) /\
  (forall name, name <> RegisterRequest.Username req ->
     getUserByUsername db' name = getUserByUsername db name).
Proof.
  unfold createUser. destruct (hashAccessKey _ _ _ _) as [hashedKey|]; [|discriminate].
  intros E Hid Hname. injection E as <- <-.
  unfold getUserByID, getUserByUsername in *. cbn [users].
  injection Hid as Hid. injection Hname as Hname.
  split; [|split; [|split]].
  - rewrite (find_app_none _ _ _ Hid). cbn. rewrite String.eqb_refl. reflexivity.
  - rewrite (find_app_none _ _ _ Hname). cbn. rewrite String.eqb_refl. reflexivity.
  - intros other Hother. f_equal. rewrite find_app_last. cbn [User.ID].
    destruct (find (fun u => String.eqb (User.ID u) other) (users db)); [reflexivity|].
    destruct (String.eqb_spec id other); [congruence | reflexivity].
  - intros name Hother. f_equal. rewrite find_app_last. cbn [User.Username].
    destruct (find (fun u => String.eqb (User.Username u) name) (users db)); [reflexivity|].
    destruct (String.eqb_spec (RegisterRequest.Username req) name);
      [congruence | reflexivity].
Qed.

(** The outcomes of [handleLogin] when it returns. *)
Lemma handleLogin_outcomes (body : option LoginRequest.t) (session : Session) (db : DB)
    (resp : Response) (session' : Session) :
  handleLogin DecodeString scrypt_Key body session db = Some (resp, session') ->
  (exists req user,
     body = Some req /\
     getUserByUsername db (LoginRequest.Username req) = Ok (Some user) /\
     verifyAccessKey DecodeString scrypt_Key (User.AccessKey user)
       (LoginRequest.AccessKey req) = Some true /\
     User.IsBanned user = false /\ User.IsFrozen user = false /\
     session' = Some (User.ID user) /\
     resp = writeJSONResponse StatusOK (UserMap (loginResponse user))) \/
  (StatusCode resp <> StatusOK /\ session' = session).
Proof.
  unfold handleLogin. destruct body as [req|].
  2:{ intros E. injection E as <- <-. right. split; [discriminate | reflexivity]. }
  destruct (getUserByUsername db (LoginRequest.Username req)) as [[user|]|e] eqn:Hfind.
  - destruct (verifyAccessKey _ _ _ _) as [[|]|] eqn:Hv; [| |discriminate].
    + destruct (User.IsBanned user) eqn:Hb.
      { intros E. injection E as <- <-. right. split; [discriminate | reflexivity]. }
      destruct (User.IsFrozen user) eqn:Hf.
      { intros E. injection E as <- <-. right. split; [discriminate | reflexivity]. }
      intros E. injection E as <- <-. left. exists req, user. auto 10.
    + intros E. injection E as <- <-. right. split; [discriminate | reflexivity].
  - intros E. injection E as <- <-. right. split; [discriminate | reflexivity].
  - intros E. injection E as <- <-. right. split; [discriminate | reflexivity].
Qed.

(** [handleLogin] always answers.  It binds the session to a user only
    together with a 200, and then to the id of the row found by the
    username, whose access key verified and which is neither banned nor
    frozen; every other answer leaves the session as it was.  An unknown
    username and a wrong access key get the same answer, 401 "Invalid
    credentials". *)
Theorem login_binds_the_session_only_on_success (body : option LoginRequest.t)
    (session : Session) (db : DB) :
  exists resp session',
    handleLogin DecodeString scrypt_Key body session db = Some (resp, session') /\
    ((exists req user,
        body = Some req /\
        getUserByUsername db (LoginRequest.Username req) = Ok (Some user) /\
        verifyAccessKey DecodeString scrypt_Key (User.AccessKey user)
          (LoginRequest.AccessKey req) = Some true /\
        User.IsBanned user = false /\ User.IsFrozen user = false /\
        session' = Some (User.ID user) /\
        resp = writeJSONResponse StatusOK (UserMap (loginResponse user))) \/
     (StatusCode resp <> StatusOK /\ session' = session)) /\
    (forall req, body = Some req ->
       getUserByUsername db (LoginRequest.Username req) = Ok None \/
       (exists user,
          getUserByUsername db (LoginRequest.Username req) = Ok (Some user) /\
          verifyAccessKey DecodeString scrypt_Key (User.AccessKey user)
            (LoginRequest.AccessKey req) = Some false) ->
       resp = InvalidCredentials).
Proof.
  assert (Hret : exists r, handleLogin DecodeString scrypt_Key body session db = Some r).
  { unfold handleLogin. destruct body as [req|]; [|eauto].
    destruct (getUserByUsername db (LoginRequest.Username req)) as [[user|]|e]; eauto.
    destruct (verifyAccessKey_returns DecodeString scrypt_Key (User.AccessKey user)
                (LoginRequest.AccessKey req)) as [[|] ->]; [|eauto].
    destruct (User.IsBanned user); [eauto|]. destruct (User.IsFrozen user); eauto. }
  destruct Hret as [[resp session'] Hlogin]. exists resp, session'.
  split; [exact Hlogin|]. split; [exact (handleLogin_outcomes _ _ _ _ _ Hlogin)|].
  intros req -> Hcase. unfold handleLogin in Hlogin.
  destruct Hcase as [Hnone|(user & Hfind & Hv)].
  - rewrite Hnone in Hlogin. injection Hlogin as <- _. reflexivity.
  - rewrite Hfind, Hv in Hlogin. injection Hlogin as <- _. reflexivity.
Qed.

(** Log in, use the session, log out.  In a store with unique, non-empty
    user ids, the session that a successful login binds passes
    [authMiddleware], which hands the handler the row of the user who
    logged in.  [handleLogout] answers 200 with a cookie that carries no
    user id and has a negative [MaxAge]; a request that presents that
    cookie is refused with 401 "Authentication required".  Logout has no
    part in the store and the server keeps no list of sessions, so it
    revokes nothing: the cookie of the login, presented again after the
    logout, passes as it did before. *)
Theorem login_session_outlives_logout
    (next : Context -> DB -> Response * DB) (req : LoginRequest.t)
    (session session' : Session) (db : DB) (resp : Response) :
  ids_unique db ->
  handleLogin DecodeString scrypt_Key (Some req) session db = Some (resp, session') ->
  StatusCode resp = StatusOK ->
  exists user,
    getUserByUsername db (LoginRequest.Username req) = Ok (Some user) /\
    session' = Some (User.ID user) /\
    authMiddleware next session' db = next (Some user) db /\
    let '(answer, cookie) := handleLogout session' in
    answer = writeJSONResponse StatusOK (MessageMap "Logged out successfully") /\
    Cookie.user_id cookie = None /\ Cookie.MaxAge cookie < 0 /\
    authMiddleware next (Cookie.user_id cookie) db = (AuthenticationRequired, db) /\
    authMiddleware next session' db = next (Some user) db.
Proof.
  intros [Hnd Hne] Hlogin Hok.
  destruct (handleLogin_outcomes _ _ _ _ _ Hlogin)
    as [(req' & user & E & Hfind & _ & Hb & Hf & -> & _)|[Hbad _]]; [|contradiction].
  injection E as <-. exists user. split; [exact Hfind|]. split; [reflexivity|].
  assert (Hin : In user (users db)).
  { unfold getUserByUsername in Hfind. injection Hfind as Hfind.
    apply find_some in Hfind. tauto. }
  assert (Hpass : authMiddleware next (Some (User.ID user)) db = next (Some user) db).
  { rewrite session_facts.authMiddleware_cases by (apply Hne; exact Hin).
    unfold getUserByID. rewrite (find_by_unique_id _ _ Hnd Hin), Hb, Hf. reflexivity. }
  split; [exact Hpass|]. cbn.
  split; [reflexivity|]. split; [reflexivity|]. split; [reflexivity|].
  split; [reflexivity | exact Hpass].
Qed.

(** The basic login endpoint of the backup's [main] compares the submitted
    access key with the stored column as it is.  So whoever sends the
    stored form of a user in good standing is logged in as that user; and
    for a user whose stored form was made by [createUser], the access key
    it was made from (any key without a colon) is refused with 401. *)
Theorem basic_login_accepts_the_stored_form (db : DB) (user : User.t)
    (session : Session) :
  getUserByUsername db (User.Username user) = Ok (Some user) ->
  User.IsBanned user = false -> User.IsFrozen user = false ->
  handleBasicLogin (Some (LoginRequest.mk (User.Username user) (User.AccessKey user)))
    session db =
  (writeJSONResponse StatusOK (UserMap (loginResponse user)), Some (User.ID user)) /\
  forall salt accessKey,
    hashAccessKey EncodeToString scrypt_Key (Ok salt) accessKey = Ok (User.AccessKey user) ->
    colon_free accessKey = true ->
    handleBasicLogin (Some (LoginRequest.mk (User.Username user) accessKey)) session db =
    (InvalidCredentials, session).
Proof.
  intros Hfind Hb Hf. unfold handleBasicLogin.
  cbn [LoginRequest.Username LoginRequest.AccessKey]. rewrite Hfind. split.
  - rewrite String.eqb_refl, Hb, Hf. reflexivity.
  - intros salt accessKey Hhash Hfree.
    destruct (String.eqb_spec (User.AccessKey user) accessKey) as [E|_]; [|reflexivity].
    exfalso. unfold hashAccessKey in Hhash.
    destruct (derive accessKey salt) as [key|]; [|discriminate].
    injection Hhash as Hhash. rewrite E in Hhash. rewrite <- Hhash in Hfree.
    clear - Hfree. induction (EncodeToString key) as [|c s IH]; cbn in Hfree.
    + discriminate.
    + apply andb_prop in Hfree as [_ Hfree]. exact (IH Hfree).
Qed.

(** The contract of [base64.StdEncoding] that the stored form rests on. *)
Hypothesis DecodeString_EncodeToString :
  forall src, DecodeString (EncodeToString src) = Ok src.
Hypothesis EncodeToString_colon_free :
  forall src, colon_free (EncodeToString src) = true.
Hypothesis EncodeToString_nonempty :
  forall src, src <> [] -> EncodeToString src <> EmptyString.

(** Register, then log in.  After a successful registration (salt of 32
    bytes, column defaults for the flags), a login with the same username
    and access key answers 200 and binds the session to the new id; a
    login with an access key that derives another key under the stored
    salt answers 401 "Invalid credentials" and leaves the session as it
    was. *)
Theorem login_after_register (id : string) (now : Z) (salt : list byte)
    (clientIP : string) (req : RegisterRequest.t) (session session' : Session) (db : DB)
    (key : list byte) :
  (3 <= String.length (RegisterRequest.Username req) <= 20)%nat ->
  (6 <= String.length (RegisterRequest.AccessKey req))%nat ->
  getUserByUsername db (RegisterRequest.Username req) = Ok None ->
  List.length salt = 32%nat ->
  derive (RegisterRequest.AccessKey req) salt = Ok key ->
  let db' :=
    snd (handleRegister EncodeToString scrypt_Key id now (Ok salt) clientIP (Some req)
           session db) in
  (exists user,
     getUserByUsername db' (RegisterRequest.Username req) = Ok (Some user) /\
     User.ID user = id /\
     handleLogin DecodeString scrypt_Key (Some (LoginRequest.mk (RegisterRequest.Username req)
                    (RegisterRequest.AccessKey req))) session' db' =
     Some (writeJSONResponse StatusOK (UserMap (loginResponse user)), Some id)) /\
  (forall accessKey,
     derive accessKey salt <> derive (RegisterRequest.AccessKey req) salt ->
     handleLogin DecodeString scrypt_Key
       (Some (LoginRequest.mk (RegisterRequest.Username req) accessKey)) session' db' =
     Some (InvalidCredentials, session')).
Proof.
  intros Hu Hk Hfree Hsalt Hkey. cbv zeta.
  rewrite (handleRegister_created id now salt clientIP req session db key Hu Hk Hfree Hkey).
  cbn [snd]. set (user := User.mk id _ _ _ _ _ _ _ _ _ _ _ _ _ _ _ _ _ _ _ _ _).
  assert (Hfind : getUserByUsername (mkDB (users db ++ [user]) (device_fingerprints db))
                    (RegisterRequest.Username req) = Ok (Some user)).
  { unfold getUserByUsername in *. cbn [users]. injection Hfree as Hfree.
    rewrite (find_app_none _ _ user Hfree). cbn [user User.Username].
    rewrite String.eqb_refl. reflexivity. }
  assert (Hhash : hashAccessKey EncodeToString scrypt_Key (Ok salt)
                    (RegisterRequest.AccessKey req) = Ok (User.AccessKey user)).
  { unfold hashAccessKey. rewrite Hkey. reflexivity. }
  pose proof (verify_hashed EncodeToString DecodeString scrypt_Key
                DecodeString_EncodeToString EncodeToString_colon_free
                EncodeToString_nonempty salt (RegisterRequest.AccessKey req)
                (User.AccessKey user) Hsalt Hhash) as Hverify.
  split.
  - exists user. split; [exact Hfind|]. split; [reflexivity|].
    unfold handleLogin. cbn [LoginRequest.Username LoginRequest.AccessKey].
    rewrite Hfind.
    rewrite (proj1 (Hverify (RegisterRequest.AccessKey req)) eq_refl).
    reflexivity.
  - intros accessKey Hother.
    unfold handleLogin. cbn [LoginRequest.Username LoginRequest.AccessKey].
    rewrite Hfind. rewrite (proj2 (Hverify accessKey) Hother). reflexivity.
Qed.

(** The stored form keeps the salt and the derived key apart: two stored
    forms are equal only if they were made with the same salt and the same
    derived key, so the same access key hashed with two different salts
    gives two different stored forms. *)
Theorem stored_credential_determines_salt_and_key (salt salt' : list byte)
    (s s' hashedKey : string) :
  List.length salt = 32%nat -> List.length salt' = 32%nat ->
  hashAccessKey EncodeToString scrypt_Key (Ok salt) s = Ok hashedKey ->
  hashAccessKey EncodeToString scrypt_Key (Ok salt') s' = Ok hashedKey ->
  salt = salt' /\ derive s salt = derive s' salt'.
Proof.
  intros Hlen Hlen' H H'. unfold hashAccessKey in H, H'.
  destruct (derive s salt) as [key|] eqn:Hkey; [|discriminate].
  destruct (derive s' salt') as [key'|] eqn:Hkey'; [|discriminate].
  injection H as H. injection H' as H'.
  assert (Hne : salt <> []) by (intros ->; discriminate).
  assert (Hne' : salt' <> []) by (intros ->; discriminate).
  pose proof (splitHashedKey_join _ _ (EncodeToString_colon_free key)
                (EncodeToString_colon_free salt) (EncodeToString_nonempty salt Hne)) as S1.
  pose proof (splitHashedKey_join _ _ (EncodeToString_colon_free key')
                (EncodeToString_colon_free salt') (EncodeToString_nonempty salt' Hne')) as S2.
  cbn [append] in S1, S2. rewrite H in S1. rewrite H' in S2.
  rewrite S1 in S2. injection S2 as Ek Es.
  assert (Es' : Ok salt = Ok salt')
    by (rewrite <- (DecodeString_EncodeToString salt), Es; apply DecodeString_EncodeToString).
  assert (Ek' : Ok key = Ok key')
    by (rewrite <- (DecodeString_EncodeToString key), Ek; apply DecodeString_EncodeToString).
  injection Es' as ->. injection Ek' as ->. auto.
Qed.

End Accounts.

End account_facts.

(** ** The admin gate and the device link *)
Module gate_facts.
Import notions.
Import store_facts device_facts.

(** The admin routes sit behind [authMiddleware] and then
    [adminMiddleware]: no session gets 401; a banned or frozen user gets
    the 403 of the ban or the freeze, admin or not; a user in good
    standing who is not an admin gets 403 "Admin access required"; in all
    these cases the handler does not run and the store is unchanged; an
    admin in good standing reaches the handler, with the row just read. *)
Theorem admin_routes_need_a_live_admin (next : Context -> DB -> Response * DB)
    (userID : string) (db : DB) :
  userID <> EmptyString ->
  authMiddleware (adminMiddleware next) None db = (AuthenticationRequired, db) /\
  (getUserByID db userID = Ok None ->
   authMiddleware (adminMiddleware next) (Some userID) db = (InvalidSession, db)) /\
  (forall user, getUserByID db userID = Ok (Some user) ->
     authMiddleware (adminMiddleware next) (Some userID) db =
     if User.IsBanned user then (AccountBanned, db)
     else if User.IsFrozen user then (AccountFrozen, db)
     else if User.IsAdmin user then next (Some user) db
     else (AdminRequired, db)).
Proof.
  intros Hne. split; [reflexivity|].
  rewrite session_facts.authMiddleware_cases by exact Hne. split.
  - intros ->. reflexivity.
  - intros user ->. unfold adminMiddleware.
    destruct (User.IsBanned user); [reflexivity|].
    destruct (User.IsFrozen user); [reflexivity|].
    destruct (User.IsAdmin user); reflexivity.
Qed.

Lemma map_id_on_others (l : list DeviceFingerprint.t) (deviceID : string)
    (f : DeviceFingerprint.t -> DeviceFingerprint.t) :
  (forall d, In d l -> DeviceFingerprint.ID d <> deviceID) ->
  map (fun d => if String.eqb (DeviceFingerprint.ID d) deviceID then f d else d) l = l.
Proof.
  induction l as [|x l IH]; intros H; cbn; [reflexivity|].
  destruct (String.eqb_spec (DeviceFingerprint.ID x) deviceID) as [E|_].
  - exfalso. exact (H x (or_introl eq_refl) E).
  - rewrite IH; [reflexivity|]. intros d Hd. apply H. now right.
Qed.

(** [Link] does not look at the cap or at the blocked flag.  For an
    authenticated user and the id of a row of the device table, it answers
    success and adds 1 to the registrations of that row, whatever its cap
    and its flag: on a row at its cap the count then exceeds the cap.  The
    other rows and the users are unchanged. *)
Theorem device_link_counts_without_checking_the_cap (now : Z) (user : User.t)
    (db : DB) (row : DeviceFingerprint.t) :
  NoDup (map DeviceFingerprint.ID (device_fingerprints db)) ->
  In row (device_fingerprints db) ->
  DeviceFingerprint.ID row <> EmptyString ->
  let result := handleDeviceLink now (Some user) (Some (DeviceFingerprint.ID row)) db in
  fst result = writeJSONResponse StatusOK (SuccessMap true) /\
  users (snd result) = users db /\
  In (linked_device row now) (device_fingerprints (snd result)) /\
  DeviceFingerprint.Registrations (linked_device row now) =
    DeviceFingerprint.Registrations row + 1 /\
  DeviceFingerprint.MaxRegistrations (linked_device row now) =
    DeviceFingerprint.MaxRegistrations row /\
  DeviceFingerprint.Blocked (linked_device row now) = DeviceFingerprint.Blocked row /\
  (forall d, In d (device_fingerprints db) -> d <> row ->
     In d (device_fingerprints (snd result))) /\
  List.length (device_fingerprints (snd result)) = List.length (device_fingerprints db) /\
  (DeviceFingerprint.MaxRegistrations row <= DeviceFingerprint.Registrations row ->
   ~ within_cap (linked_device row now)).
Proof.
  intros Hnd Hin Hne. cbv zeta. unfold handleDeviceLink, linkUserToDevice.
  destruct (String.eqb_spec (DeviceFingerprint.ID row) ""); [contradiction|].
  cbn [fst snd users device_fingerprints].
  split; [reflexivity|]. split; [reflexivity|]. split; [|split; [|split; [|split]]].
  - apply in_map_iff. exists row. rewrite String.eqb_refl. auto.
  - reflexivity.
  - reflexivity.
  - reflexivity.
  - split; [|split].
    + intros d Hd Hdr. apply in_map_iff. exists d. split; [|exact Hd].
      destruct (String.eqb_spec (DeviceFingerprint.ID d) (DeviceFingerprint.ID row)) as [E|_];
        [|reflexivity].
      exfalso. apply Hdr. exact (unique_id_row _ d row Hnd Hd Hin E).
    + apply length_map.
    + unfold within_cap. cbn. lia.
Qed.

(** The edges of [Link]: without a user in the context it answers 401, a
    body that is not JSON gets 400, an empty or missing device id gets 400
    "Device ID is required", and a device id that no row has gets the same
    success answer as a real link; in all four cases the store is left as
    it was. *)
Theorem device_link_with_an_unknown_id_changes_nothing (now : Z) (user : User.t)
    (deviceID : string) (db : DB) :
  handleDeviceLink now None (Some deviceID) db = (AuthenticationRequired, db) /\
  handleDeviceLink now (Some user) None db =
    (writeErrorResponse StatusBadRequest "Invalid device ID format", db) /\
  handleDeviceLink now (Some user) (Some EmptyString) db =
    (writeErrorResponse StatusBadRequest "Device ID is required", db) /\
  (deviceID <> EmptyString ->
   (forall d, In d (device_fingerprints db) -> DeviceFingerprint.ID d <> deviceID) ->
   handleDeviceLink now (Some user) (Some deviceID) db =
     (writeJSONResponse StatusOK (SuccessMap true), db)).
Proof.
  split; [reflexivity|]. split; [reflexivity|]. split; [reflexivity|].
  intros Hne Hnone. unfold handleDeviceLink, linkUserToDevice.
  destruct (String.eqb_spec deviceID ""); [contradiction|].
  rewrite map_id_on_others by exact Hnone. destruct db; reflexivity.
Qed.

(** [Check] does not use up a registration.  Whatever the store, after a
    [Check] of a device a second [Check] of the same device with the same
    signals gives the same answer: same device id, same registrations,
    same blocked flag, same [canRegister]. *)
Theorem device_check_can_be_repeated (db : DB) (newID newID' : string) (now now' : Z)
    (sid ip ip' : string) (fp : DeviceCheckRequest.t) :
  let first := upsertDevice db newID now sid ip fp in
  let second := upsertDevice (snd first) newID' now' sid ip' fp in
  fst second = fst first /\
  map DeviceFingerprint.Registrations (device_fingerprints (snd second)) =
  map DeviceFingerprint.Registrations (device_fingerprints (snd first)) /\
  users (snd second) = users db.
Proof.
  cbv zeta.
  destruct (upsertDevice_answer db newID now sid ip fp)
    as (r & row & Hr & Hrow & Hid & Hreg & Hbl & Hrisk & Hcan).
  rewrite (upsertDevice_seen _ newID' now' sid ip' fp row Hrow). cbn [fst snd].
  split; [|split].
  - rewrite Hr. f_equal. destruct r. cbn in *. congruence.
  - cbn [device_fingerprints]. rewrite map_map. apply map_ext. intros d.
    destruct (String.eqb _ sid); reflexivity.
  - cbn [users]. unfold upsertDevice.
    destruct (find _ (device_fingerprints db)); reflexivity.
Qed.

End gate_facts.

(** ** The ledger: conservation, refusals, and writes from a stale read *)
Module ledger_flow_facts.
Import notions.
Import store_facts decimal_facts.

Local Open Scope Q_scope.

Lemma read_back_updated (db : DB) (user : User.t) (set : User.t -> User.t) :
  (forall u, User.ID (set u) = User.ID u) ->
  getUserByID db (User.ID user) = Ok (Some user) ->
  getUserByID
    (mkDB (map (fun u => if String.eqb (User.ID u) (User.ID user) then set u else u)
               (users db))
          (device_fingerprints db))
    (User.ID user) = Ok (Some (set user)).
Proof.
  intros Hset Hfind.
  rewrite (getUserByID_updated db _ (User.ID user) set Hset eq_refl), Hfind.
  cbn [option_map]. rewrite String.eqb_refl. reflexivity.
Qed.

(** [PurchasePower] conserves value: for the user row just read and every
    request body, accepted or refused, the row afterwards has the same
    sum of USDT balance and hash power as before, and differs from the
    old row in these two columns at most. *)
Theorem purchase_conserves_usdt_plus_hash_power (db : DB) (user : User.t)
    (body : PurchaseBody) :
  getUserByID db (User.ID user) = Ok (Some user) ->
  exists user',
    getUserByID (snd (handlePurchasePower (Some user) body db)) (User.ID user)
      = Ok (Some user') /\
    user' = User.set_usdt_hash user (User.USDTBalance user') (User.HashPower user') /\
    decimal.toQ (User.USDTBalance user') + decimal.toQ (User.HashPower user') ==
    decimal.toQ (User.USDTBalance user) + decimal.toQ (User.HashPower user).
Proof.
  intros Hfind.
  assert (Hsame : exists user',
            getUserByID db (User.ID user) = Ok (Some user') /\
            user' = User.set_usdt_hash user (User.USDTBalance user') (User.HashPower user') /\
            decimal.toQ (User.USDTBalance user') + decimal.toQ (User.HashPower user') ==
            decimal.toQ (User.USDTBalance user) + decimal.toQ (User.HashPower user)).
  { exists user. split; [exact Hfind|]. split; [destruct user; reflexivity | reflexivity]. }
  unfold handlePurchasePower.
  destruct (decodeAmount body) as [x|]; [|exact Hsame].
  destruct (float64.ltb x float64.one); [exact Hsame|].
  destruct (decimal.LessThan _ _); [exact Hsame|].
  cbn [exec_update_user snd].
  eexists. split.
  - apply (read_back_updated db user
             (fun u => User.set_usdt_hash u
                         (decimal.Sub (User.USDTBalance user) (float64.NewFromFloat x))
                         (decimal.Add (User.HashPower user) (float64.NewFromFloat x))));
      [reflexivity | exact Hfind].
  - split; [reflexivity|]. cbn [User.set_usdt_hash User.USDTBalance User.HashPower].
    rewrite toQ_Sub, toQ_Add. ring.
Qed.

(** [ClaimRewards] conserves value: for the user row just read, whether
    the claim is accepted or refused, the row afterwards has the same sum
    of GBTC balance and unclaimed balance as before, and differs from the
    old row in these two columns at most. *)
Theorem claim_conserves_gbtc_plus_unclaimed (db : DB) (user : User.t) :
  getUserByID db (User.ID user) = Ok (Some user) ->
  exists user',
    getUserByID (snd (handleClaimRewards (Some user) db)) (User.ID user)
      = Ok (Some user') /\
    user' = User.set_gbtc_unclaimed user (User.GBTCBalance user')
              (User.UnclaimedBalance user') /\
    decimal.toQ (User.GBTCBalance user') + decimal.toQ (User.UnclaimedBalance user') ==
    decimal.toQ (User.GBTCBalance user) + decimal.toQ (User.UnclaimedBalance user).
Proof.
  intros Hfind. unfold handleClaimRewards.
  destruct (decimal.LessThanOrEqual _ _).
  - exists user. split; [exact Hfind|]. split; [destruct user; reflexivity | reflexivity].
  - cbn [exec_update_user snd]. eexists. split.
    + apply (read_back_updated db user
               (fun u => User.set_gbtc_unclaimed u
                           (decimal.Add (User.GBTCBalance user) (User.UnclaimedBalance user))
                           (decimal.New 0 0)));
        [reflexivity | exact Hfind].
    + split; [reflexivity|].
      cbn [User.set_gbtc_unclaimed User.GBTCBalance User.UnclaimedBalance].
      rewrite toQ_Add, toQ_zero_value. ring.
Qed.

Lemma authMiddleware_refusal (next : Context -> DB -> Response * DB)
    (session : Session) (db : DB) :
  (forall user, StatusCode (fst (next (Some user) db)) = StatusOK \/
                snd (next (Some user) db) = db) ->
  StatusCode (fst (authMiddleware next session db)) = StatusOK \/
  snd (authMiddleware next session db) = db.
Proof.
  intros Hnext. unfold authMiddleware.
  destruct session as [userID|]; [|right; reflexivity].
  destruct (String.eqb userID ""); [right; reflexivity|].
  destruct (getUserByID db userID) as [[user|]|]; try (right; reflexivity).
  destruct (User.IsBanned user); [right; reflexivity|].
  destruct (User.IsFrozen user); [right; reflexivity|].
  apply Hnext.
Qed.

(** A refused ledger request changes nothing.  For every session, every
    body and every store, each of [PurchasePower], [StartMining] and
    [ClaimRewards] behind [authMiddleware] either answers 200 or leaves
    the store exactly as it was; and none of them ever touches the device
    table. *)
Theorem refused_ledger_requests_change_nothing (session : Session)
    (body : PurchaseBody) (db : DB) :
  (StatusCode (fst (purchase_request body session db)) = StatusOK \/
   snd (purchase_request body session db) = db) /\
  (StatusCode (fst (mining_request session db)) = StatusOK \/
   snd (mining_request session db) = db) /\
  (StatusCode (fst (claim_request session db)) = StatusOK \/
   snd (claim_request session db) = db).
Proof.
  split; [|split]; apply authMiddleware_refusal; intros user.
  - unfold handlePurchasePower.
    destruct (decodeAmount body) as [x|]; [|right; reflexivity].
    destruct (float64.ltb x float64.one); [right; reflexivity|].
    destruct (decimal.LessThan _ _); [right; reflexivity | left; reflexivity].
  - unfold handleStartMining.
    destruct (decimal.LessThanOrEqual _ _); [right; reflexivity | left; reflexivity].
  - unfold handleClaimRewards.
    destruct (decimal.LessThanOrEqual _ _); [right; reflexivity | left; reflexivity].
Qed.

(** A ledger request never changes who can log in or with what rights:
    whatever the context, the body and the store, [PurchasePower],
    [StartMining] and [ClaimRewards] leave the id, the username, the
    stored access key and the admin, frozen and banned flags of every row
    as they were, add and remove no row, and leave the device table
    alone. *)
Theorem ledger_requests_keep_identities (ctx : Context) (body : PurchaseBody) (db : DB) :
  let keeps db' :=
    map identity_of (users db') = map identity_of (users db) /\
    device_fingerprints db' = device_fingerprints db in
  keeps (snd (handlePurchasePower ctx body db)) /\
  keeps (snd (handleStartMining ctx db)) /\
  keeps (snd (handleClaimRewards ctx db)).
Proof.
  cbv zeta.
  assert (Hmap : forall id (set : User.t -> User.t),
            (forall u, identity_of (set u) = identity_of u) ->
            map identity_of
              (map (fun u => if String.eqb (User.ID u) id then set u else u) (users db))
            = map identity_of (users db)).
  { intros id set Hset. rewrite map_map. apply map_ext. intros u.
    destruct (String.eqb (User.ID u) id); [apply Hset | reflexivity]. }
  split; [|split].
  - unfold handlePurchasePower. destruct ctx as [user|]; [|split; reflexivity].
    destruct (decodeAmount body) as [x|]; [|split; reflexivity].
    destruct (float64.ltb x float64.one); [split; reflexivity|].
    destruct (decimal.LessThan _ _); [split; reflexivity|].
    cbn [exec_update_user snd users device_fingerprints].
    split; [|reflexivity]. apply Hmap. reflexivity.
  - unfold handleStartMining. destruct ctx as [user|]; [|split; reflexivity].
    destruct (decimal.LessThanOrEqual _ _); [split; reflexivity|].
    cbn [exec_update_user snd users device_fingerprints].
    split; [|reflexivity]. apply Hmap. reflexivity.
  - unfold handleClaimRewards. destruct ctx as [user|]; [|split; reflexivity].
    destruct (decimal.LessThanOrEqual _ _); [split; reflexivity|].
    cbn [exec_update_user snd users device_fingerprints].
    split; [|reflexivity]. apply Hmap. reflexivity.
Qed.

(** Two purchases served from one read.  [authMiddleware] reads the row
    and the handler later writes absolute values computed from that read.
    When two requests of the same user are both validated before either
    writes, each with an amount between 1 and the balance, both answer
    success and the row ends with the balance minus the second amount
    only; the first purchase is overwritten, also when the two amounts
    together exceed the balance. *)
Theorem purchases_from_one_read_overwrite (db : DB) (user : User.t)
    (lit1 lit2 : Decimal) (x1 x2 : float64.t) :
  getUserByID db (User.ID user) = Ok (Some user) ->
  float64.decode lit1 = Some x1 -> float64.decode lit2 = Some x2 ->
  let a1 := float64.NewFromFloat x1 in
  let a2 := float64.NewFromFloat x2 in
  1 <= decimal.toQ a1 <= decimal.toQ (User.USDTBalance user) ->
  1 <= decimal.toQ a2 <= decimal.toQ (User.USDTBalance user) ->
  let first := handlePurchasePower (Some user) (Amount lit1) db in
  let second := handlePurchasePower (Some user) (Amount lit2) (snd first) in
  fst first = PowerPurchased /\ fst second = PowerPurchased /\
  exists user',
    getUserByID (snd second) (User.ID user) = Ok (Some user') /\
    decimal.toQ (User.USDTBalance user') ==
      decimal.toQ (User.USDTBalance user) - decimal.toQ a2 /\
    decimal.toQ (User.HashPower user') ==
      decimal.toQ (User.HashPower user) + decimal.toQ a2.
Proof.
  intros Hfind Hd1 Hd2. cbv zeta. intros [Hmin1 Hbal1] [Hmin2 Hbal2].
  assert (Hok : forall lit x db0,
            float64.decode lit = Some x ->
            1 <= decimal.toQ (float64.NewFromFloat x) <= decimal.toQ (User.USDTBalance user) ->
            handlePurchasePower (Some user) (Amount lit) db0 =
            (PowerPurchased,
             mkDB (map (fun u => if String.eqb (User.ID u) (User.ID user)
                                 then User.set_usdt_hash u
                                        (decimal.Sub (User.USDTBalance user)
                                                     (float64.NewFromFloat x))
                                        (decimal.Add (User.HashPower user)
                                                     (float64.NewFromFloat x))
                                 else u) (users db0))
                  (device_fingerprints db0))).
  { intros lit x db0 Hd [Hmin Hbal].
    rewrite (ledger_facts.handlePurchasePower_cases db0 user lit x Hd). cbv zeta.
    rewrite (proj2 (proj2 (ledger_facts.minimum_test lit x Hd)) Hmin).
    destruct (decimal.LessThan _ _) eqn:E; [|reflexivity].
    apply LessThan_spec in E. exfalso. exact (Qlt_not_le _ _ E Hbal). }
  rewrite (Hok lit1 x1 db Hd1 (conj Hmin1 Hbal1)). cbn [fst snd].
  rewrite (Hok lit2 x2 _ Hd2 (conj Hmin2 Hbal2)). cbn [fst snd].
  split; [reflexivity|]. split; [reflexivity|].
  set (set1 := fun u => User.set_usdt_hash u
                 (decimal.Sub (User.USDTBalance user) (float64.NewFromFloat x1))
                 (decimal.Add (User.HashPower user) (float64.NewFromFloat x1))).
  set (set2 := fun u => User.set_usdt_hash u
                 (decimal.Sub (User.USDTBalance user) (float64.NewFromFloat x2))
                 (decimal.Add (User.HashPower user) (float64.NewFromFloat x2))).
  exists (set2 (set1 user)). split.
  - cbn [users device_fingerprints].
    pose proof (read_back_updated db user set1 (fun u => eq_refl) Hfind) as H1.
    pose proof (read_back_updated _ (set1 user) set2 (fun u => eq_refl) H1) as H2.
    exact H2.
  - cbn. split; [apply toQ_Sub | apply toQ_Add].
Qed.

Lemma whole_cents_survive :
  forallb (fun k => survives_float64 (decimal.New (Z.of_nat k) (-2)))
          (seq 1 (Z.to_nat 10000)) = true.
Proof. vm_compute. reflexivity. Qed.

(** [PurchasePower] on the amount of the request.  For a number that comes
    back from [float64] as it went in, the handler does what the
    specification says of the requested amount: it succeeds exactly when
    [1 <= amount <= USDT], answers "Minimum purchase is 1 USDT" below 1
    and "Insufficient USDT balance" above the balance, leaving the store as
    it was, and on success moves exactly [amount] from the USDT balance to
    the hash power of the user's row and changes nothing else.  Every
    amount of whole cents from 0.01 to 100.00, written with two decimals,
    is such a number. *)
Theorem purchase_of_an_amount_that_survives_float64 :
  (forall cents : Z, (1 <= cents <= 10000)%Z ->
     survives_float64 (decimal.New cents (-2)) = true) /\
  forall (db : DB) (user : User.t) (lit : Decimal),
    getUserByID db (User.ID user) = Ok (Some user) ->
    survives_float64 lit = true ->
    let amount := decimal.toQ lit in
    let result := handlePurchasePower (Some user) (Amount lit) db in
    (fst result = PowerPurchased <->
     1 <= amount /\ amount <= decimal.toQ (User.USDTBalance user)) /\
    (amount < 1 -> result = (BelowMinimum, db)) /\
    (1 <= amount -> decimal.toQ (User.USDTBalance user) < amount ->
     result = (InsufficientBalance, db)) /\
    (fst result = PowerPurchased ->
     exists user',
       getUserByID (snd result) (User.ID user) = Ok (Some user') /\
       user' = User.set_usdt_hash user (User.USDTBalance user') (User.HashPower user') /\
       decimal.toQ (User.USDTBalance user') ==
         decimal.toQ (User.USDTBalance user) - amount /\
       decimal.toQ (User.HashPower user') ==
         decimal.toQ (User.HashPower user) + amount /\
       device_fingerprints (snd result) = device_fingerprints db /\
       forall other, other <> User.ID user ->
         getUserByID (snd result) other = getUserByID db other).
Proof.
  split.
  - intros cents Hc.
    pose proof (proj1 (forallb_forall _ _) whole_cents_survive (Z.to_nat cents)) as H.
    cbv beta in H. rewrite Z2Nat.id in H by lia. apply H. apply in_seq. lia.
  - intros db user lit Hfind Hsurv. unfold survives_float64 in Hsurv.
    destruct (float64.decode lit) as [x|] eqn:Hdec; [|discriminate].
    apply Qeq_bool_iff in Hsurv. cbv zeta.
    destruct (ledger_facts.purchase_power_exchanges_one_to_one db user lit x Hfind Hdec)
      as (Hiff & Hlow & Hhigh & Hok).
    split; [|split; [|split]].
    + rewrite Hiff, Hsurv. reflexivity.
    + intros H. apply Hlow. rewrite Hsurv. exact H.
    + intros H1 H2. apply Hhigh; rewrite Hsurv; assumption.
    + intros Hsucc. destruct (Hok Hsucc) as (user' & Hread & Hrow & Husdt & Hhash & Hrest).
      exists user'. split; [exact Hread|]. split; [exact Hrow|].
      split; [rewrite Husdt, Hsurv; reflexivity|].
      split; [rewrite Hhash, Hsurv; reflexivity | exact Hrest].
Qed.

End ledger_flow_facts.

(* ================================================================== *)
(** * Part IV: the properties at concrete requests                     *)
(* ================================================================== *)

Module scenario.
Import notions sample ledger_facts session_facts device_facts credential_facts.

(** The specification's scenario on the ledger: with 0 USDT a purchase of
    50 is refused; with 100 USDT it succeeds and leaves 50 USDT and 50 hash
    power; mining then starts; and a claim with nothing unclaimed is
    refused. *)
Example ledger_scenario :
  let broke := User.set_usdt_hash alice (usd 0) (usd 0) in
  let db := mkDB [broke] [] in
  let serve_purchase db :=
    authMiddleware (fun ctx => handlePurchasePower ctx (Amount fifty)) (Some "u1"%string) db in
  let serve_mining db :=
    authMiddleware (fun ctx => handleStartMining ctx) (Some "u1"%string) db in
  fst (serve_purchase db) = InsufficientBalance /\
  let funded := mkDB [alice] [] in
  let '(r1, db1) := serve_purchase funded in
  let '(r2, db2) := serve_mining db1 in
  r1 = PowerPurchased /\ r2 = MiningStarted /\
  match getUserByID db2 "u1" with
  | Ok (Some u) =>
      decimal_text.String (User.USDTBalance u) = "50"%string /\
      decimal_text.String (User.HashPower u) = "50"%string /\
      User.HasStartedMining u = true
  | _ => False
  end /\
  fst (claim_request (Some "u1"%string)
         (mkDB [User.set_gbtc_unclaimed alice (coin 0) (coin 0)] [])) = NoRewards.
Proof. vm_compute. repeat split. Qed.

Lemma decode_fifty_f64 : float64.decode fifty = Some fifty_f64.
Proof. vm_compute. reflexivity. Qed.

(** alice's purchase of 50 with 100 USDT: it succeeds and leaves 50 USDT
    and 50 hash power. *)
Lemma purchase_power_witness :
  fst (handlePurchasePower (Some alice) (Amount fifty) db0) = PowerPurchased /\
  exists user',
    getUserByID (snd (handlePurchasePower (Some alice) (Amount fifty) db0)) "u1"
      = Ok (Some user') /\
    (decimal.toQ (User.USDTBalance user') == 50)%Q /\
    (decimal.toQ (User.HashPower user') == 50)%Q.
Proof.
  destruct (purchase_power_exchanges_one_to_one db0 alice fifty fifty_f64
              eq_refl decode_fifty_f64) as (Hiff & _ & _ & Hok).
  assert (Hsucc : fst (handlePurchasePower (Some alice) (Amount fifty) db0) = PowerPurchased).
  { apply Hiff. split; vm_compute; discriminate. }
  split; [exact Hsucc|].
  destruct (Hok Hsucc) as (user' & Hread & _ & Husdt & Hhash & _).
  exists user'. split; [exact Hread|]. split.
  - rewrite Husdt. vm_compute. reflexivity.
  - rewrite Hhash. vm_compute. reflexivity.
Defined.

(** C2 at alice's claim of 0.00000005: the second claim in a row is
    refused. *)
Lemma claim_rewards_witness :
  fst (claim_request (Some "u1"%string) db0) = RewardsClaimed /\
  claim_request (Some "u1"%string) (snd (claim_request (Some "u1"%string) db0)) =
  (NoRewards, snd (claim_request (Some "u1"%string) db0)).
Proof.
  assert (Hne : "u1"%string <> EmptyString) by discriminate.
  destruct (claim_rewards_credits_once db0 "u1" alice Hne eq_refl eq_refl eq_refl)
    as [_ Hpos].
  assert (H : (0 < decimal.toQ (User.UnclaimedBalance alice))%Q)
    by (vm_compute; reflexivity).
  destruct (Hpos H) as (Hfst & _ & Hsecond).
  split; [exact Hfst | exact Hsecond].
Defined.

Lemma db0_nonneg : Forall balances_nonneg (users db0).
Proof.
  repeat constructor; vm_compute; discriminate.
Qed.

(** C3 at alice's purchase, start of mining and claim on [db0]. *)
Lemma balances_witness :
  Forall balances_nonneg
    (users (snd (handlePurchasePower (Some alice) (Amount fifty) db0))) /\
  Forall balances_nonneg (users (snd (handleStartMining (Some alice) db0))) /\
  Forall balances_nonneg (users (snd (handleClaimRewards (Some alice) db0))).
Proof.
  assert (Hctx : forall u, Some alice = Some u -> balances_nonneg u).
  { intros u E. injection E as <-. repeat split; vm_compute; discriminate. }
  exact (proj2 (balances_never_negative base64.EncodeToString toy_kdf
                  db0 (Some alice) (Amount fifty) db0_nonneg Hctx)).
Defined.

Lemma salt32_length : List.length salt32 = 32%nat.
Proof. reflexivity. Qed.

Lemma stored_form_secret1 :
  hashAccessKey base64.EncodeToString toy_kdf (Ok salt32) "secret1"
  = Ok (stored_form "secret1").
Proof. reflexivity. Qed.

(** C5 as amended, at the secret "secret1": its stored form verifies it and
    rejects "secret2". *)
Lemma verify_hash_witness :
  verifyAccessKey base64.DecodeString toy_kdf (stored_form "secret1") "secret1" = Some true /\
  verifyAccessKey base64.DecodeString toy_kdf (stored_form "secret1") "secret2" = Some false.
Proof.
  destruct (verify_hash_roundtrip base64.EncodeToString base64.DecodeString toy_kdf
              base64_facts.DecodeString_EncodeToString
              base64_facts.EncodeToString_colon_free
              base64_facts.EncodeToString_nonempty
              salt32 "secret1" (stored_form "secret1") salt32_length stored_form_secret1)
    as [Hsame Hother].
  split; [exact Hsame|].
  apply (Hother "secret2"%string). vm_compute. discriminate.
Defined.

Lemma db0_within_caps : cap_invariant db0.
Proof.
  split.
  - repeat constructor. cbn. tauto.
  - repeat constructor. unfold within_cap. cbn. lia.
Qed.

Lemma d2_fresh : ~ In "d2"%string (map DeviceFingerprint.ID (device_fingerprints db0)).
Proof. cbn. intros [H|[]]. discriminate. Qed.

(** C6 at a check of the laptop (1 of 2 registrations) followed by the
    link: the store stays within the caps. *)
Lemma registrations_witness :
  cap_invariant (snd (upsertDevice db0 "d2" 1700000100 "dev-1" "10.0.0.9" signals)) /\
  cap_invariant (check_then_link db0 "d2" 1700000100 "dev-1" "10.0.0.9" signals "u1").
Proof.
  exact (proj2 (registrations_stay_within_cap db0 "d2" 1700000100 "dev-1" "10.0.0.9"
                  signals "u1" db0_within_caps d2_fresh)).
Defined.

(** C8 at alice's session on [GET /user]: the request passes before her
    ban and is refused after it. *)
Lemma session_validation_witness :
  authMiddleware (fun ctx db => (handleGetUser ctx, db)) (Some "u1"%string) db0
    = (handleGetUser (Some alice), db0) /\
  authMiddleware (fun ctx db => (handleGetUser ctx, db)) (Some "u1"%string) db0_alice_banned
    = (AccountBanned, db0_alice_banned).
Proof.
  assert (Hne : "u1"%string <> EmptyString) by discriminate.
  destruct (session_validation_reads_fresh_state
              (fun ctx db => (handleGetUser ctx, db)) "u1" db0 Hne)
    as (_ & _ & _ & Hban).
  exact (Hban alice db0_alice_banned eq_refl eq_refl eq_refl eq_refl).
Defined.

(** C10 at bob, who is banned: a wrong access key gets the 401. *)
Lemma login_witness :
  handleLogin base64.DecodeString toy_kdf
    (Some (LoginRequest.mk "bob" "wrong-key")) None db0
  = Some (writeErrorResponse StatusUnauthorized "Invalid credentials", None).
Proof.
  destruct (login_verifies_before_gates base64.DecodeString toy_kdf
              (LoginRequest.mk "bob" "wrong-key") None db0 bob eq_refl (or_introl eq_refl))
    as (Hwrong & _).
  apply Hwrong. vm_compute. reflexivity.
Defined.

(** [StartMining] at alice after her purchase of 50. *)
Lemma start_mining_witness :
  fst (handleStartMining (Some (User.set_usdt_hash alice (usd 5000) (usd 5000)))
         (mkDB [User.set_usdt_hash alice (usd 5000) (usd 5000)] []))
  = MiningStarted.
Proof.
  destruct (start_mining_sets_the_flag
              (mkDB [User.set_usdt_hash alice (usd 5000) (usd 5000)] [])
              (User.set_usdt_hash alice (usd 5000) (usd 5000)) eq_refl) as [_ Hpos].
  apply Hpos. vm_compute. reflexivity.
Defined.

(** C4, at the failing input.  [handlePurchasePower] reads the amount
    into a [float64]: the requests for 9007199254740993 (carol's whole
    balance, 2^53 + 1) and for 9007199254740992 decode to the same float,
    so the first one moves 9007199254740992 and leaves 1 USDT instead of 0;
    and a request for 0.99999999999999999, which is below the minimum,
    decodes to the float 1, passes the minimum test and moves 1 USDT. *)
Theorem purchase_amount_passes_through_float64 :
  float64.decode (decimal.New 9007199254740993 0) =
  float64.decode (decimal.New 9007199254740992 0) /\
  (let '(r, db') :=
     handlePurchasePower (Some carol) (Amount (decimal.New 9007199254740993 0)) db0 in
   r = PowerPurchased /\
   match getUserByID db' "u3" with
   | Ok (Some u) =>
       decimal_text.String (User.USDTBalance u) = "1"%string /\
       decimal_text.String (User.HashPower u) = "9007199254740992"%string
   | _ => False
   end) /\
  (let '(r, db') :=
     handlePurchasePower (Some alice) (Amount (decimal.New 99999999999999999 (-17))) db0 in
   r = PowerPurchased /\
   match getUserByID db' "u1" with
   | Ok (Some u) =>
       decimal_text.String (User.USDTBalance u) = "99"%string /\
       decimal_text.String (User.HashPower u) = "1"%string
   | _ => False
   end).
Proof. vm_compute. repeat split. Qed.

Import helper_facts account_facts gate_facts ledger_flow_facts.

(** A stored form that ends with the separator has one part, not two. *)
Lemma split_trailing_separator_witness :
  splitHashedKey "aGFzaA==:" = Some ["aGFzaA=="%string] /\
  splitHashedKey "aGFzaA==:c2FsdA==" = Some ["aGFzaA=="; "c2FsdA=="]%string.
Proof.
  split.
  - apply (splitHashedKey_drops_an_empty_last_segment ["aGFzaA=="%string] "");
      [repeat constructor | reflexivity].
  - apply (splitHashedKey_drops_an_empty_last_segment ["aGFzaA=="%string] "c2FsdA==");
      [repeat constructor | reflexivity].
Defined.

(** "alicia" and "alicia-b", a thousand seconds apart, get the same
    code. *)
Lemma referral_codes_witness :
  generateReferralCode "alicia" 1700000123 = generateReferralCode "alicia-b" 1700001123.
Proof.
  exact (proj1 (referral_codes_collide "alicia" "" "-b" 1700000123 1700001123
                  eq_refl eq_refl)).
Defined.

(** A forwarded header wins over the address of the connection. *)
Lemma forwarded_header_witness :
  getClientIP strings.TrimSpace_ascii "203.0.113.7 , 10.0.0.1" "10.9.9.9" "192.0.2.1:443"
  = Some "203.0.113.7"%string.
Proof.
  apply (getClientIP_trusts_the_forwarded_header strings.TrimSpace_ascii
           "203.0.113.7 " ", 10.0.0.1" "10.9.9.9" "192.0.2.1:443").
  - reflexivity.
  - right. eexists. reflexivity.
  - discriminate.
Defined.

(** The port is cut off at the last colon, also after an IPv6 host. *)
Lemma remote_address_witness :
  getClientIP strings.TrimSpace_ascii "" "" "[2001:db8::1]:8080" = Some "[2001:db8::1]"%string.
Proof.
  exact (proj1 (getClientIP_strips_the_port strings.TrimSpace_ascii
                  "[2001:db8::1]" "8080" eq_refl)).
Defined.

Lemma dave_is_free : getUserByUsername db0 "dave" = Ok None.
Proof. reflexivity. Qed.

Lemma dave_key :
  toy_kdf (list_byte_of_string "dave-key") salt32 32768 8 1 32 =
  Ok (firstn 32 (list_byte_of_string "dave-key" ++ salt32 ++ repeat x00 32)).
Proof. reflexivity. Qed.

(** dave registers on [db0]: 201, the session is bound to the new id and
    one row with zero balances is appended. *)
Lemma register_witness :
  exists user,
    handleRegister base64.EncodeToString toy_kdf "u4" 1700000300 (Ok salt32) "10.0.0.4"
      (Some dave_request) None db0 =
    (writeJSONResponse StatusCreated (UserMap (registerResponse user)),
     Some "u4"%string, mkDB (users db0 ++ [user]) (device_fingerprints db0)) /\
    User.Username user = "dave"%string /\ balances_zero user.
Proof.
  destruct (register_creates_an_empty_account base64.EncodeToString toy_kdf
              "u4" 1700000300 salt32 "10.0.0.4" dave_request None db0 _
              ltac:(cbn; lia) ltac:(cbn; lia) dave_is_free dave_key)
    as (user & Hreg & _ & Hname & _ & _ & _ & _ & Hzero).
  exists user. auto.
Defined.

Lemma db0_usernames_unique : usernames_unique db0.
Proof. repeat constructor; cbn; intuition discriminate. Qed.

(** [db0] after dave's registration still has unique usernames. *)
Lemma usernames_unique_witness :
  usernames_unique
    (snd (handleRegister base64.EncodeToString toy_kdf "u4" 1700000300 (Ok salt32)
            "10.0.0.4" (Some dave_request) None db0)).
Proof.
  exact (register_keeps_usernames_unique base64.EncodeToString toy_kdf
           "u4" 1700000300 (Ok salt32) "10.0.0.4" (Some dave_request) None db0
           db0_usernames_unique).
Defined.

Lemma dave_created :
  createUser base64.EncodeToString toy_kdf db0 "u4" 1700000300 (Ok salt32)
    dave_request "10.0.0.4" = (Ok dave, db0_with_dave).
Proof. reflexivity. Qed.

(** dave's row is found under his id and under his name. *)
Lemma read_back_witness :
  getUserByID db0_with_dave "u4" = Ok (Some dave) /\
  getUserByUsername db0_with_dave "dave" = Ok (Some dave).
Proof.
  destruct (created_user_can_be_read_back base64.EncodeToString toy_kdf
              db0 db0_with_dave "u4" 1700000300 (Ok salt32) dave_request "10.0.0.4" dave
              dave_created eq_refl eq_refl) as (Hid & Hname & _).
  split; [exact Hid | exact Hname].
Defined.

Lemma db0_ids_unique : ids_unique db0.
Proof.
  split.
  - repeat constructor; cbn; intuition discriminate.
  - intros u [<-|[<-|[<-|[]]]]; discriminate.
Qed.

Lemma alice_logs_in :
  handleLogin base64.DecodeString toy_kdf
    (Some (LoginRequest.mk "alice" "secret1")) None db0 =
  Some (writeJSONResponse StatusOK (UserMap (loginResponse alice)), Some "u1"%string).
Proof. vm_compute. reflexivity. Qed.

(** alice logs in and reads her row; the cookie that her logout sets is
    refused, the cookie of her login still passes. *)
Lemma session_lifecycle_witness :
  exists user,
    getUserByUsername db0 "alice" = Ok (Some user) /\
    Some "u1"%string = Some (User.ID user) /\
    authMiddleware get_user (Some "u1"%string) db0 = get_user (Some user) db0 /\
    let '(answer, cookie) := handleLogout (Some "u1"%string) in
    answer = writeJSONResponse StatusOK (MessageMap "Logged out successfully") /\
    Cookie.user_id cookie = None /\ Cookie.MaxAge cookie < 0 /\
    authMiddleware get_user (Cookie.user_id cookie) db0 = (AuthenticationRequired, db0) /\
    authMiddleware get_user (Some "u1"%string) db0 = get_user (Some user) db0.
Proof.
  exact (login_session_outlives_logout base64.DecodeString toy_kdf get_user
           (LoginRequest.mk "alice" "secret1") None (Some "u1"%string) db0 _
           db0_ids_unique alice_logs_in eq_refl).
Defined.

(** dave registers and logs in; "wrong-key" is refused. *)
Lemma login_after_register_witness :
  let db' := snd (handleRegister base64.EncodeToString toy_kdf "u4" 1700000300 (Ok salt32)
                    "10.0.0.4" (Some dave_request) None db0) in
  (exists user,
     getUserByUsername db' "dave" = Ok (Some user) /\
     User.ID user = "u4"%string /\
     handleLogin base64.DecodeString toy_kdf
       (Some (LoginRequest.mk "dave" "dave-key")) None db' =
     Some (writeJSONResponse StatusOK (UserMap (loginResponse user)), Some "u4"%string)) /\
  handleLogin base64.DecodeString toy_kdf
    (Some (LoginRequest.mk "dave" "wrong-key")) None db' =
  Some (InvalidCredentials, None).
Proof.
  destruct (login_after_register base64.EncodeToString base64.DecodeString toy_kdf
              base64_facts.DecodeString_EncodeToString
              base64_facts.EncodeToString_colon_free
              base64_facts.EncodeToString_nonempty
              "u4" 1700000300 salt32 "10.0.0.4" dave_request None None db0 _
              ltac:(cbn; lia) ltac:(cbn; lia) dave_is_free eq_refl dave_key)
    as [Hsame Hother].
  split; [exact Hsame|].
  apply (Hother "wrong-key"%string). vm_compute. discriminate.
Defined.

(** Under the toy key derivation two secrets that agree on their first 32
    bytes have the same stored form. *)
Lemma stored_credential_witness :
  salt32 = salt32 /\
  toy_kdf (list_byte_of_string (letters 32 ++ "x")) salt32 32768 8 1 32 =
  toy_kdf (list_byte_of_string (letters 32 ++ "y")) salt32 32768 8 1 32.
Proof.
  exact (stored_credential_determines_salt_and_key base64.EncodeToString
           base64.DecodeString toy_kdf
           base64_facts.DecodeString_EncodeToString
           base64_facts.EncodeToString_colon_free
           base64_facts.EncodeToString_nonempty
           salt32 salt32 (letters 32 ++ "x") (letters 32 ++ "y")
           (stored_form (letters 32 ++ "x")) eq_refl eq_refl eq_refl eq_refl).
Defined.

(** alice is no admin and gets 403; root is one and reaches the
    handler. *)
Lemma admin_gate_witness :
  authMiddleware (adminMiddleware get_user) (Some "u1"%string) db_admin
    = (AdminRequired, db_admin) /\
  authMiddleware (adminMiddleware get_user) (Some "u9"%string) db_admin
    = get_user (Some root) db_admin.
Proof.
  split.
  - exact (proj2 (proj2 (admin_routes_need_a_live_admin get_user "u1" db_admin
                           ltac:(discriminate))) alice eq_refl).
  - exact (proj2 (proj2 (admin_routes_need_a_live_admin get_user "u9" db_admin
                           ltac:(discriminate))) root eq_refl).
Defined.

(** A link on the kiosk, which is at its cap, succeeds and takes it to
    three registrations out of two. *)
Lemma device_link_witness :
  fst (handleDeviceLink 1700000400 (Some alice) (Some "d7"%string) db_kiosk)
    = writeJSONResponse StatusOK (SuccessMap true) /\
  In (linked_device kiosk 1700000400)
     (device_fingerprints
        (snd (handleDeviceLink 1700000400 (Some alice) (Some "d7"%string) db_kiosk))) /\
  ~ within_cap (linked_device kiosk 1700000400).
Proof.
  destruct (device_link_counts_without_checking_the_cap 1700000400 alice db_kiosk kiosk)
    as (Hresp & _ & Hin & _ & _ & _ & _ & _ & Hcap).
  - repeat constructor; cbn; intuition discriminate.
  - right. left. reflexivity.
  - discriminate.
  - split; [exact Hresp|]. split; [exact Hin|]. apply Hcap. cbn. lia.
Defined.

(** alice's purchase of 50: USDT plus hash power is 100 before and
    after. *)
Lemma purchase_conservation_witness :
  exists user',
    getUserByID (snd (handlePurchasePower (Some alice) (Amount fifty) db0)) "u1"
      = Ok (Some user') /\
    (decimal.toQ (User.USDTBalance user') + decimal.toQ (User.HashPower user') == 100)%Q.
Proof.
  destruct (purchase_conserves_usdt_plus_hash_power db0 alice (Amount fifty) eq_refl)
    as (user' & Hread & _ & Hsum).
  exists user'. split; [exact Hread|]. rewrite Hsum. vm_compute. reflexivity.
Defined.

(** alice's claim: GBTC plus unclaimed is 0.00000005 before and after. *)
Lemma claim_conservation_witness :
  exists user',
    getUserByID (snd (handleClaimRewards (Some alice) db0)) "u1" = Ok (Some user') /\
    (decimal.toQ (User.GBTCBalance user') + decimal.toQ (User.UnclaimedBalance user')
     == 5 # 100000000)%Q.
Proof.
  destruct (claim_conserves_gbtc_plus_unclaimed db0 alice eq_refl)
    as (user' & Hread & _ & Hsum).
  exists user'. split; [exact Hread|]. rewrite Hsum. vm_compute. reflexivity.
Defined.

Lemma decode_sixty_f64 : float64.decode sixty = Some sixty_f64.
Proof. vm_compute. reflexivity. Qed.

(** alice has 100 USDT; purchases of 50 and of 60 validated on the same
    read both succeed and leave 40 USDT and 60 hash power. *)
Lemma stale_purchases_witness :
  let first := handlePurchasePower (Some alice) (Amount fifty) db0 in
  let second := handlePurchasePower (Some alice) (Amount sixty) (snd first) in
  fst first = PowerPurchased /\ fst second = PowerPurchased /\
  exists user',
    getUserByID (snd second) "u1" = Ok (Some user') /\
    (decimal.toQ (User.USDTBalance user') == 40)%Q /\
    (decimal.toQ (User.HashPower user') == 60)%Q.
Proof.
  destruct (purchases_from_one_read_overwrite db0 alice fifty sixty fifty_f64 sixty_f64
              eq_refl decode_fifty_f64 decode_sixty_f64)
    as (H1 & H2 & user' & Hread & Husdt & Hhash).
  - split; vm_compute; discriminate.
  - split; vm_compute; discriminate.
  - split; [exact H1|]. split; [exact H2|]. exists user'. split; [exact Hread|]. split.
    + rewrite Husdt. vm_compute. reflexivity.
    + rewrite Hhash. vm_compute. reflexivity.
Defined.

(** On the basic login endpoint alice's stored form logs her in. *)
Lemma basic_login_witness :
  handleBasicLogin (Some (LoginRequest.mk "alice" (stored_form "secret1"))) None db0 =
  (writeJSONResponse StatusOK (UserMap (loginResponse alice)), Some "u1"%string) /\
  handleBasicLogin (Some (LoginRequest.mk "alice" "secret1")) None db0 =
  (InvalidCredentials, None).
Proof.
  destruct (basic_login_accepts_the_stored_form base64.EncodeToString toy_kdf
              db0 alice None eq_refl eq_refl eq_refl) as [Hstored Hplain].
  split; [exact Hstored|].
  exact (Hplain salt32 "secret1"%string eq_refl eq_refl).
Defined.

(** C1, at the failing inputs.  [handlePurchasePower] decides on the
    [float64] of the requested amount, not on the amount.  A request for
    0.99999999999999999, which is below 1, by alice with 100 USDT is not
    refused with "Minimum purchase is 1 USDT": it succeeds and moves 1
    USDT.  A request by carol for 9007199254740993, her whole balance,
    succeeds and takes 9007199254740992: the balance does not decrease by
    the amount.  And a request by alice for 1e400, which exceeds her
    balance, is not answered "Insufficient USDT balance" but "Invalid
    request format". *)
Theorem purchase_power_decides_on_the_float :
  (let lit := decimal.New 99999999999999999 (-17) in
   (decimal.toQ lit < 1)%Q /\
   getUserByID db0 "u1" = Ok (Some alice) /\
   let '(r, db') := handlePurchasePower (Some alice) (Amount lit) db0 in
   r = PowerPurchased /\ r <> BelowMinimum /\
   match getUserByID db' "u1" with
   | Ok (Some u) =>
       (decimal.toQ (User.USDTBalance u) == 99)%Q /\
       (decimal.toQ (User.HashPower u) == 1)%Q
   | _ => False
   end) /\
  (let lit := decimal.New 9007199254740993 0 in
   (1 <= decimal.toQ lit)%Q /\
   (decimal.toQ lit <= decimal.toQ (User.USDTBalance carol))%Q /\
   getUserByID db0 "u3" = Ok (Some carol) /\
   let '(r, db') := handlePurchasePower (Some carol) (Amount lit) db0 in
   r = PowerPurchased /\
   match getUserByID db' "u3" with
   | Ok (Some u) =>
       (decimal.toQ (User.USDTBalance u) == 1)%Q /\
       ~ (decimal.toQ (User.USDTBalance u) ==
          decimal.toQ (User.USDTBalance carol) - decimal.toQ lit)%Q /\
       (decimal.toQ (User.HashPower u) == 9007199254740992)%Q
   | _ => False
   end) /\
  (let lit := decimal.New 1 400 in
   (decimal.toQ (User.USDTBalance alice) < decimal.toQ lit)%Q /\
   handlePurchasePower (Some alice) (Amount lit) db0 =
     (writeErrorResponse StatusBadRequest "Invalid request format", db0) /\
   writeErrorResponse StatusBadRequest "Invalid request format" <> InsufficientBalance).
Proof.
  split; [|split].
  - vm_compute. repeat split; discriminate.
  - vm_compute. repeat split; discriminate.
  - vm_compute. repeat split; discriminate.
Qed.

(** A stored form followed by one more separator: three segments, two
    parts, and the access key still verifies. *)
Example stored_form_with_a_trailing_separator :
  let hashedKey := (stored_form "secret1" ++ ":")%string in
  List.length (segments hashedKey) = 3%nat /\
  splitHashedKey hashedKey = splitHashedKey (stored_form "secret1") /\
  verifyAccessKey base64.DecodeString toy_kdf hashedKey "secret1" = Some true /\
  verifyAccessKey base64.DecodeString toy_kdf hashedKey "secret2" = Some false.
Proof. vm_compute. repeat split. Qed.

End scenario.
